(** * The user handlers of isupipe ([user_handler.go]): caches, assembler,
      session check and the icon / registration flows.

    The Go handlers are embedded as functions in a small state-and-error
    monad over a [World] that holds the committed database, the process-wide
    cache maps, the file system, the external collaborators and a log of the
    external operations performed. *)

From Stdlib Require Import ZArith List Strings.Byte Ascii String.
From stdpp Require Import base option list gmap strings fin_maps.

Local Open Scope Z_scope.

(** ** crypto/sha256 and the ["%x"] verb

    [fmt.Sprintf("%x", sha256.Sum256(image))]: the digest of FIPS 180-4 on
    32-bit words (held in [Z], wrap-around written out), printed as 64
    lowercase hexadecimal digits. *)
Module Sha256.

Definition w32 (x : Z) : Z := x mod 2 ^ 32.
Definition add32 (x y : Z) : Z := w32 (x + y).
Definition rotr (n x : Z) : Z :=
  Z.lor (Z.shiftr x n) (w32 (Z.shiftl x (32 - n))).
Definition not32 (x : Z) : Z := Z.lxor x 0xffffffff.

Definition Ch (x y z : Z) : Z := Z.lxor (Z.land x y) (Z.land (not32 x) z).
Definition Maj (x y z : Z) : Z :=
  Z.lxor (Z.lxor (Z.land x y) (Z.land x z)) (Z.land y z).
Definition bsig0 (x : Z) : Z := Z.lxor (Z.lxor (rotr 2 x) (rotr 13 x)) (rotr 22 x).
Definition bsig1 (x : Z) : Z := Z.lxor (Z.lxor (rotr 6 x) (rotr 11 x)) (rotr 25 x).
Definition ssig0 (x : Z) : Z := Z.lxor (Z.lxor (rotr 7 x) (rotr 18 x)) (Z.shiftr x 3).
Definition ssig1 (x : Z) : Z := Z.lxor (Z.lxor (rotr 17 x) (rotr 19 x)) (Z.shiftr x 10).

(** The round constants are the first 32 bits of the fractional parts of the
    cube roots of the first 64 primes, the initial hash value those of the
    square roots of the first 8 (FIPS 180-4, 4.2.2 and 5.3.3); they are
    computed here as they are defined. *)
Definition is_prime (n : Z) : bool :=
  (1 <? n) && forallb (fun d => negb (n mod d =? 0)) (seqZ 2 (Z.sqrt n - 1)).

Definition primes (count : nat) : list Z :=
  firstn count (List.filter is_prime (seqZ 2 310)).

(** The largest [r] in [lo, hi) with [r ^ 3 <= n], by bisection. *)
Fixpoint cube_root (fuel : nat) (n lo hi : Z) : Z :=
  match fuel with
  | O => lo
  | S f =>
      let mid := (lo + hi) / 2 in
      if mid =? lo then lo
      else if mid ^ 3 <=? n then cube_root f n mid hi
      else cube_root f n lo mid
  end.

Definition K : list Z :=
  Eval vm_compute in
    map (fun p => w32 (cube_root 64 (p * 2 ^ 96) 0 (2 ^ 36))) (primes 64).

Definition H0 : list Z :=
  Eval vm_compute in map (fun p => w32 (Z.sqrt (p * 2 ^ 64))) (primes 8).

(** Big-endian bytes of [x], [n] of them. *)
Fixpoint be_bytes (n : nat) (x : Z) : list Z :=
  match n with
  | O => []
  | S n' => Z.land (Z.shiftr x (8 * Z.of_nat n')) 0xff :: be_bytes n' x
  end.

(** Message, the byte 0x80, zeros up to 56 mod 64, the bit length on 8 bytes. *)
Definition pad (msg : list Z) : list Z :=
  let len := Z.of_nat (length msg) in
  let zeros := Z.to_nat ((55 - len) mod 64) in
  msg ++ 0x80 :: repeat 0 zeros ++ be_bytes 8 (8 * len).

Fixpoint words (fuel : nat) (bs : list Z) : list Z :=
  match fuel, bs with
  | S f, b0 :: b1 :: b2 :: b3 :: rest =>
      (Z.shiftl b0 24 + Z.shiftl b1 16 + Z.shiftl b2 8 + b3) :: words f rest
  | _, _ => []
  end.

Definition nthw (w : list Z) (i : nat) : Z := nth i w 0.

(** The message schedule: 16 words of the block, then 48 derived ones. *)
Fixpoint extend (n : nat) (w : list Z) : list Z :=
  match n with
  | O => w
  | S n' =>
      let t := length w in
      let x := add32 (add32 (ssig1 (nthw w (t - 2))) (nthw w (t - 7)))
                     (add32 (ssig0 (nthw w (t - 15))) (nthw w (t - 16))) in
      extend n' (w ++ [x])
  end.

Record regs := Regs { ra : Z; rb : Z; rc : Z; rd : Z; re : Z; rf : Z; rg : Z; rh : Z }.

Definition round (s : regs) (kw : Z * Z) : regs :=
  let t1 := add32 (add32 (add32 (rh s) (bsig1 (re s))) (Ch (re s) (rf s) (rg s)))
                  (add32 (fst kw) (snd kw)) in
  let t2 := add32 (bsig0 (ra s)) (Maj (ra s) (rb s) (rc s)) in
  Regs (add32 t1 t2) (ra s) (rb s) (rc s) (add32 (rd s) t1) (re s) (rf s) (rg s).

Definition of_list (h : list Z) : regs :=
  Regs (nthw h 0) (nthw h 1) (nthw h 2) (nthw h 3)
       (nthw h 4) (nthw h 5) (nthw h 6) (nthw h 7).

Definition compress (h : list Z) (block : list Z) : list Z :=
  let w := extend 48 block in
  let s := fold_left round (combine K w) (of_list h) in
  [ add32 (nthw h 0) (ra s); add32 (nthw h 1) (rb s); add32 (nthw h 2) (rc s);
    add32 (nthw h 3) (rd s); add32 (nthw h 4) (re s); add32 (nthw h 5) (rf s);
    add32 (nthw h 6) (rg s); add32 (nthw h 7) (rh s) ].

Fixpoint blocks (fuel : nat) (h : list Z) (ws : list Z) : list Z :=
  match fuel with
  | O => h
  | S f =>
      match ws with
      | [] => h
      | _ => blocks f (compress h (firstn 16 ws)) (skipn 16 ws)
      end
  end.

Definition byteZ (b : byte) : Z := Z.of_N (Byte.to_N b).

(** [sha256.Sum256]: the 32 digest bytes. *)
Definition Sum256 (data : list byte) : list Z :=
  let p := pad (map byteZ data) in
  let ws := words (length p) p in
  flat_map (be_bytes 4) (blocks (length ws) H0 ws).

Definition hexdigit (d : Z) : ascii :=
  if d <? 10 then ascii_of_N (Z.to_N (48 + d)) else ascii_of_N (Z.to_N (87 + d)).

(** [fmt.Sprintf("%x", digest)]. *)
Fixpoint Sprintf_x (bs : list Z) : string :=
  match bs with
  | [] => EmptyString
  | b :: rest => String (hexdigit (b / 16)) (String (hexdigit (b mod 16)) (Sprintf_x rest))
  end.

End Sha256.

(** The expression that both the icon handler and the assembler use. *)
Definition iconHash (image : list byte) : string :=
  Sha256.Sprintf_x (Sha256.Sum256 image).


(** ** Data model ([user_handler.go], lines 33-86) *)

Module UserModel.
Record t := Build
  { ID : Z; Name : string; DisplayName : string; Description : string;
    HashedPassword : string }.
End UserModel.

Module Theme.
Record t := Build { ID : Z; DarkMode : bool }.
End Theme.

Module User.
Record t := Build
  { ID : Z; Name : string; DisplayName : string; Description : string;
    Theme : Theme.t; IconHash : string }.
End User.

Module ThemeModel.
Record t := Build { ID : Z; UserID : Z; DarkMode : bool }.
End ThemeModel.

Module PostUserRequest.
Record t := Build
  { Name : string; DisplayName : string; Description : string;
    Password : string; Theme_DarkMode : bool }.
End PostUserRequest.

Module LoginRequest.
Record t := Build { Username : string; Password : string }.
End LoginRequest.

Module PostIconRequest.
Record t := Build { Image : list byte }.
End PostIconRequest.

(** A row of the [icons] table, as the queries of this file use it. *)
Module IconRow.
Record t := Build { ID : Z; UserID : Z; Image : list byte }.
End IconRow.

Definition defaultSessionIDKey : string := "SESSIONID".
Definition defaultSessionExpiresKey : string := "EXPIRES".
Definition defaultUserIDKey : string := "USERID".
Definition defaultUsernameKey : string := "USERNAME".
Definition fallbackImage : string := "../img/NoImage.jpg".

(** ** The database

    Three tables, each with its AUTO_INCREMENT counter.  A transaction works
    on a private copy of the committed database; [Commit] installs the copy
    and a rollback drops it, counters included.  Names are compared byte by
    byte, as the Go map keys are. *)
Record DB := MkDB
  { users : list UserModel.t; users_auto : Z;
    themes : list ThemeModel.t; themes_auto : Z;
    icons : list IconRow.t; icons_auto : Z }.

(** ** The process-wide caches

    [UserByIDCache], [IconHashByUserIDCache] and [IconHashByUsernameCache] are
    the Go maps this file reads and writes (their declarations,
    [map[int64]User], [map[int64]string] and [map[string]string], live in
    another file).  The mutexes guard single map operations and have no
    content of their own. *)

(** Modelled from the spec: an entry of a sibling-domain cache (livestream or
    livecomment view), of which only the owning user matters here. *)
Record Owned := MkOwned { OwnerID : Z; Payload : string }.

Record Caches := MkCaches
  { UserByIDCache : gmap Z User.t;
    IconHashByUserIDCache : gmap Z string;
    IconHashByUsernameCache : gmap string string;
    LivestreamByIDCache : gmap Z Owned;
    LivecommentByIDCache : gmap Z Owned }.

(** Modelled from the spec: what [deleteLivestreamByIDCacheByOwnerID] and
    [deleteLivecommentByIDCacheByOwnerID] do to their map, "delete every
    cached entry owned by this user ID"; their bodies are in other files of
    the repository. *)
Definition deleteByOwnerID (userID : Z) (m : gmap Z Owned) : gmap Z Owned :=
  filter (fun kv => OwnerID (snd kv) <> userID) m.

(** ** The outside world *)

(** What the collaborators outside this file answer: the clock, the files,
    bcrypt and the PowerDNS API. *)
Record Env := MkEnv
  { now_Unix : Z;
    files : gmap string (list byte);
    bcrypt_hash : string -> string;
    bcrypt_matches : string -> string -> bool;
    powerdns_status : Z }.

(** External operations, logged in the order in which they are performed. *)
Inductive Event :=
  | EvBegin
  | EvQuery (sql : string)
  | EvExec (sql : string)
  | EvLastInsertId
  | EvCommit
  | EvReadFile (path : string)
  | EvBcrypt
  | EvHTTP (url : string)
  | EvSessionSave.

(** [faults] schedules failures of the external operations: each operation
    takes the head of the list, and fails with that message when there is
    one; an exhausted schedule lets every operation through. *)
Record World := MkWorld
  { db : DB;
    caches : Caches;
    env : Env;
    faults : list (option string);
    log : list Event }.

Definition set_db (d : DB) (w : World) : World :=
  MkWorld d (caches w) (env w) (faults w) (log w).
Definition set_caches (c : Caches) (w : World) : World :=
  MkWorld (db w) c (env w) (faults w) (log w).
Definition set_env (e : Env) (w : World) : World :=
  MkWorld (db w) (caches w) e (faults w) (log w).
Definition set_faults (f : list (option string)) (w : World) : World :=
  MkWorld (db w) (caches w) (env w) f (log w).
Definition set_log (l : list Event) (w : World) : World :=
  MkWorld (db w) (caches w) (env w) (faults w) l.

(** ** Errors and the monad *)

(** A Go [error] of the database or the file system; [errors.Is(err,
    sql.ErrNoRows)] is the test for the first constructor. *)
Inductive error :=
  | ErrNoRows
  | ErrOther (msg : string).

Definition Error (e : error) : string :=
  match e with
  | ErrNoRows => "sql: no rows in result set"
  | ErrOther msg => msg
  end.

Record HTTPError := NewHTTPError { Code : Z; Message : string }.

Definition StatusOK : Z := 200.
Definition StatusCreated : Z := 201.
Definition StatusNoContent : Z := 204.
Definition StatusNotModified : Z := 304.
Definition StatusBadRequest : Z := 400.
Definition StatusUnauthorized : Z := 401.
Definition StatusForbidden : Z := 403.
Definition StatusNotFound : Z := 404.
Definition StatusInternalServerError : Z := 500.

(** A call returns a value, returns an error, or panics. *)
Inductive res (E A : Type) :=
  | Ok (a : A)
  | Fail (e : E)
  | Panic (msg : string).
Arguments Ok {E A} a.
Arguments Fail {E A} e.
Arguments Panic {E A} msg.

Definition M (E A : Type) : Type := World -> res E A * World.

Definition ret {E A} (a : A) : M E A := fun w => (Ok a, w).
Definition fail {E A} (e : E) : M E A := fun w => (Fail e, w).
Definition panic {E A} (msg : string) : M E A := fun w => (Panic msg, w).

Definition bind {E A B} (m : M E A) (k : A -> M E B) : M E B :=
  fun w =>
    match m w with
    | (Ok a, w') => k a w'
    | (Fail e, w') => (Fail e, w')
    | (Panic msg, w') => (Panic msg, w')
    end.

(** [x, err := f(); if err != nil { return h(err) }]. *)
Definition orElse {E E' A} (m : M E A) (h : E -> E') : M E' A :=
  fun w =>
    match m w with
    | (Ok a, w') => (Ok a, w')
    | (Fail e, w') => (Fail (h e), w')
    | (Panic msg, w') => (Panic msg, w')
    end.

(** [x, err := f()] with the error inspected by the caller. *)
Definition attempt {E E' A} (m : M E A) : M E' (E + A) :=
  fun w =>
    match m w with
    | (Ok a, w') => (Ok (inr a), w')
    | (Fail e, w') => (Ok (inl e), w')
    | (Panic msg, w') => (Panic msg, w')
    end.

Declare Scope go_scope.
Delimit Scope go_scope with go.
Notation "x <- m ;; k" := (bind m (fun x => k))
  (at level 20, m at level 99, k at level 200, only parsing) : go_scope.
Notation "' pat <- m ;; k" := (bind m (fun x => match x with pat => k end))
  (at level 20, pat pattern, m at level 99, k at level 200, only parsing) : go_scope.
Notation "m ;; k" := (bind m (fun _ => k))
  (at level 100, k at level 200, only parsing, right associativity) : go_scope.
Open Scope go_scope.

Definition get_caches {E} : M E Caches := fun w => (Ok (caches w), w).
Definition put_caches {E} (c : Caches) : M E unit := fun w => (Ok tt, set_caches c w).
Definition get_env {E} : M E Env := fun w => (Ok (env w), w).

Definition emit {E} (ev : Event) : M E unit :=
  fun w => (Ok tt, set_log (log w ++ [ev]) w).

Definition injected {E} : M E (option string) :=
  fun w =>
    match faults w with
    | [] => (Ok None, w)
    | f :: rest => (Ok f, set_faults rest w)
    end.

(** An external operation: logged, then failed by the schedule or run. *)
Definition call {A} (ev : Event) (body : M error A) : M error A :=
  emit ev ;;
  f <- injected ;;
  match f with
  | Some msg => fail (ErrOther msg)
  | None => body
  end.

(** ** database/sql through sqlx: the statements of this file *)

Definition BeginTxx : M error DB :=
  call EvBegin (fun w => (Ok (db w), w)).

Definition Commit (tx : DB) : M error unit :=
  call EvCommit (fun w => (Ok tt, set_db tx w)).

(** [GetContext] scans the first row of the result, or fails with
    [sql.ErrNoRows]. *)
Definition first_row {A} (p : A -> bool) (rows : list A) : M error A :=
  match List.find p rows with
  | Some r => ret r
  | None => fail ErrNoRows
  end.

Definition Get_user_by_name (tx : DB) (name : string) : M error UserModel.t :=
  call (EvQuery "SELECT * FROM users WHERE name = ?")
       (first_row (fun u => String.eqb (UserModel.Name u) name) (users tx)).

Definition Get_user_by_id (tx : DB) (id : Z) : M error UserModel.t :=
  call (EvQuery "SELECT * FROM users WHERE id = ?")
       (first_row (fun u => UserModel.ID u =? id) (users tx)).

Definition Get_theme_by_user_id (tx : DB) (userID : Z) : M error ThemeModel.t :=
  call (EvQuery "SELECT * FROM themes WHERE user_id = ?")
       (first_row (fun t => ThemeModel.UserID t =? userID) (themes tx)).

Definition Get_icon_image (tx : DB) (userID : Z) : M error (list byte) :=
  call (EvQuery "SELECT image FROM icons WHERE user_id = ?")
       (i <- first_row (fun i => IconRow.UserID i =? userID) (icons tx) ;;
        ret (IconRow.Image i)).

(** The tables after each of the four writes. *)
Definition icons_deleted (tx : DB) (userID : Z) : DB :=
  MkDB (users tx) (users_auto tx) (themes tx) (themes_auto tx)
       (List.filter (fun i => negb (IconRow.UserID i =? userID)) (icons tx))
       (icons_auto tx).

Definition icon_inserted (tx : DB) (userID : Z) (image : list byte) : DB :=
  MkDB (users tx) (users_auto tx) (themes tx) (themes_auto tx)
       (icons tx ++ [IconRow.Build (icons_auto tx) userID image]) (icons_auto tx + 1).

Definition user_inserted (tx : DB) (u : UserModel.t) : DB :=
  MkDB (users tx ++ [UserModel.Build (users_auto tx) (UserModel.Name u)
                       (UserModel.DisplayName u) (UserModel.Description u)
                       (UserModel.HashedPassword u)])
       (users_auto tx + 1) (themes tx) (themes_auto tx) (icons tx) (icons_auto tx).

Definition theme_inserted (tx : DB) (t : ThemeModel.t) : DB :=
  MkDB (users tx) (users_auto tx)
       (themes tx ++ [ThemeModel.Build (themes_auto tx) (ThemeModel.UserID t)
                        (ThemeModel.DarkMode t)])
       (themes_auto tx + 1) (icons tx) (icons_auto tx).

Definition Exec_delete_icons (tx : DB) (userID : Z) : M error DB :=
  call (EvExec "DELETE FROM icons WHERE user_id = ?")
       (ret (icons_deleted tx userID)).

(** An INSERT returns the transaction after it and the [sql.Result], of
    which the handlers only ask the generated key. *)
Definition Exec_insert_icon (tx : DB) (userID : Z) (image : list byte)
  : M error (DB * Z) :=
  call (EvExec "INSERT INTO icons (user_id, image) VALUES (?, ?)")
       (ret (icon_inserted tx userID image, icons_auto tx)).

Definition name_taken (tx : DB) (name : string) : bool :=
  match List.find (fun v => String.eqb (UserModel.Name v) name) (users tx) with
  | Some _ => true
  | None => false
  end.

(** [users.name] is UNIQUE (the comment on line 345 relies on it): the
    INSERT of a taken name fails. *)
Definition NamedExec_insert_user (tx : DB) (u : UserModel.t) : M error (DB * Z) :=
  call (EvExec "INSERT INTO users (name, display_name, description, password) VALUES(:name, :display_name, :description, :password)")
       (if name_taken tx (UserModel.Name u)
        then fail (ErrOther "Error 1062: Duplicate entry for key 'name'")
        else ret (user_inserted tx u, users_auto tx)).

Definition NamedExec_insert_theme (tx : DB) (t : ThemeModel.t) : M error (DB * Z) :=
  call (EvExec "INSERT INTO themes (user_id, dark_mode) VALUES(:user_id, :dark_mode)")
       (ret (theme_inserted tx t, themes_auto tx)).

Definition LastInsertId (result : Z) : M error Z :=
  call EvLastInsertId (ret result).

(** [os.ReadFile]. *)
Definition ReadFile (path : string) : M error (list byte) :=
  call (EvReadFile path)
       (e <- get_env ;;
        match files e !! path with
        | Some bytes => ret bytes
        | None => fail (ErrOther ("open " +:+ path +:+ ": no such file or directory"))
        end).

(** ** Requests *)

(** A value of [sess.Values], a [map[interface{}]interface{}]: the dynamic
    types the handlers test for, and any other. *)
Inductive Value :=
  | VInt64 (n : Z)
  | VString (s : string)
  | VOther.

Record Session := MkSession { Values : gmap string Value }.

(** What a handler takes from its [echo.Context]: the result of
    [session.Get] ([None] when it returns an error), the route parameter, the
    If-None-Match header and the body as the JSON decoder delivers it
    ([None] when decoding fails; for [postIconHandler], which decodes into a
    pointer, [Some None] is the JSON [null] that leaves the pointer nil). *)
Record Context := MkContext
  { c_session : option Session;
    c_param_username : string;
    c_if_none_match : string;
    c_icon_body : option (option PostIconRequest.t);
    c_user_body : option PostUserRequest.t;
    c_login_body : option LoginRequest.t }.

Inductive Response :=
  | NoContent (code : Z)
  | JSON_User (code : Z) (user : User.t)
  | JSON_PostIconResponse (code : Z) (ID : Z)
  | Blob (code : Z) (contentType : string) (b : list byte)
  | File (path : string).

(** [s[lo:hi]] on a string; out of range it panics. *)
Definition slice (s : string) (lo hi : Z) : option string :=
  if (0 <=? lo) && (lo <=? hi) && (hi <=? Z.of_nat (String.length s))
  then Some (substring (Z.to_nat lo) (Z.to_nat (hi - lo)) s)
  else None.

Definition len (s : string) : Z := Z.of_nat (String.length s).

(** [v.(int64)] in its two-result form. *)
Definition as_int64 (v : option Value) : option Z :=
  match v with
  | Some (VInt64 n) => Some n
  | _ => None
  end.

(** ** verifyUserSession (lines 429-451) *)

(** The four rejections of the session check. *)
Definition rejected_no_session : HTTPError :=
  NewHTTPError StatusUnauthorized "failed to get session".
Definition rejected_no_expires : HTTPError :=
  NewHTTPError StatusForbidden "failed to get EXPIRES value from session".
Definition rejected_no_userID : HTTPError :=
  NewHTTPError StatusUnauthorized "failed to get USERID value from session".
Definition rejected_expired : HTTPError :=
  NewHTTPError StatusUnauthorized "session has expired".

Definition verifyUserSession (c : Context) : M HTTPError unit :=
  match c_session c with
  | None => fail rejected_no_session
  | Some sess =>
      match Values sess !! defaultSessionExpiresKey with
      | None => fail rejected_no_expires
      | Some sessionExpires =>
          match as_int64 (Values sess !! defaultUserIDKey) with
          | None => fail rejected_no_userID
          | Some _ =>
              e <- get_env ;;
              match sessionExpires with
              | VInt64 expires =>
                  if now_Unix e >? expires
                  then fail rejected_expired
                  else ret tt
              | _ => panic "interface conversion: interface {} is not int64"
              end
          end
      end
  end.

(** [sess, _ := session.Get(...); userID := sess.Values[defaultUserIDKey].(int64)]
    (lines 148-150 and 201-203). *)
Definition session_userID {E} (c : Context) : M E Z :=
  match c_session c with
  | None => panic "invalid memory address or nil pointer dereference"
  | Some sess =>
      match as_int64 (Values sess !! defaultUserIDKey) with
      | Some userID => ret userID
      | None => panic "interface conversion: interface {} is not int64"
      end
  end.

(** ** fillUserResponse (lines 453-509) *)

Definition storeUserByID {E} (userID : Z) (user : User.t) : M E unit :=
  cs <- get_caches ;;
  put_caches (MkCaches (<[userID := user]> (UserByIDCache cs))
                (IconHashByUserIDCache cs) (IconHashByUsernameCache cs)
                (LivestreamByIDCache cs) (LivecommentByIDCache cs)).

Definition storeIconHashByUserID {E} (userID : Z) (hash : string) : M E unit :=
  cs <- get_caches ;;
  put_caches (MkCaches (UserByIDCache cs)
                (<[userID := hash]> (IconHashByUserIDCache cs)) (IconHashByUsernameCache cs)
                (LivestreamByIDCache cs) (LivecommentByIDCache cs)).

Definition storeIconHashByUsername {E} (username : string) (hash : string) : M E unit :=
  cs <- get_caches ;;
  put_caches (MkCaches (UserByIDCache cs)
                (IconHashByUserIDCache cs) (<[username := hash]> (IconHashByUsernameCache cs))
                (LivestreamByIDCache cs) (LivecommentByIDCache cs)).

Definition fillUserResponse (tx : DB) (userModel : UserModel.t) : M error User.t :=
  cs <- get_caches ;;
  match UserByIDCache cs !! UserModel.ID userModel with
  | Some user => ret user
  | None =>
      themeModel <- Get_theme_by_user_id tx (UserModel.ID userModel) ;;
      cs <- get_caches ;;
      '(hashStr, isFallbackImage) <-
        match IconHashByUserIDCache cs !! UserModel.ID userModel with
        | Some hashStr => ret (hashStr, false)
        | None =>
            r <- attempt (Get_icon_image tx (UserModel.ID userModel)) ;;
            match r with
            | inr image => ret (iconHash image, false)
            | inl ErrNoRows =>
                image <- ReadFile fallbackImage ;;
                ret (iconHash image, true)
            | inl err => fail err
            end
        end ;;
      (if isFallbackImage : bool then ret tt
       else storeIconHashByUserID (UserModel.ID userModel) hashStr) ;;
      let user :=
        User.Build (UserModel.ID userModel) (UserModel.Name userModel)
          (UserModel.DisplayName userModel) (UserModel.Description userModel)
          (Theme.Build (ThemeModel.ID themeModel) (ThemeModel.DarkMode themeModel))
          hashStr in
      storeUserByID (UserModel.ID userModel) user ;;
      ret user
  end.

(** The loop that [fillUserResponseBulk] runs (lines 624-633). *)
Fixpoint fillUserResponseBulk (tx : DB) (userModels : list UserModel.t)
  : M error (list User.t) :=
  match userModels with
  | [] => ret []
  | userModel :: rest =>
      user <- fillUserResponse tx userModel ;;
      users <- fillUserResponseBulk tx rest ;;
      ret (user :: users)
  end.

(** ** Invalidation (lines 181-185 and 318-322) *)

Definition deleteUserByID {E} (userID : Z) : M E unit :=
  cs <- get_caches ;;
  put_caches (MkCaches (delete userID (UserByIDCache cs))
                (IconHashByUserIDCache cs) (IconHashByUsernameCache cs)
                (LivestreamByIDCache cs) (LivecommentByIDCache cs)).

(** Modelled from the spec: the two functions that follow are defined in
    other files of the repository; each deletes from its own cache the
    entries owned by [userID] and touches nothing else. *)
Definition deleteLivestreamByIDCacheByOwnerID {E} (userID : Z) : M E unit :=
  cs <- get_caches ;;
  put_caches (MkCaches (UserByIDCache cs)
                (IconHashByUserIDCache cs) (IconHashByUsernameCache cs)
                (deleteByOwnerID userID (LivestreamByIDCache cs)) (LivecommentByIDCache cs)).

Definition deleteLivecommentByIDCacheByOwnerID {E} (userID : Z) : M E unit :=
  cs <- get_caches ;;
  put_caches (MkCaches (UserByIDCache cs)
                (IconHashByUserIDCache cs) (IconHashByUsernameCache cs)
                (LivestreamByIDCache cs) (deleteByOwnerID userID (LivecommentByIDCache cs))).

Definition http500 (what : string) (err : error) : HTTPError :=
  NewHTTPError StatusInternalServerError (what +:+ Error err).

(** ** getIconHandler (lines 88-137) *)

(** Lines 93-103: the conditional request.  [true] is the 304 answer. *)
Definition ifNoneMatch_hit (c : Context) : M HTTPError bool :=
  let ifNoneMatch := c_if_none_match c in
  if negb (String.eqb ifNoneMatch "") then
    match slice ifNoneMatch 1 (len ifNoneMatch - 1) with
    | None => panic "slice bounds out of range"
    | Some trimmedIfNoneMatch =>
        cs <- get_caches ;;
        match IconHashByUsernameCache cs !! c_param_username c with
        | Some hash => ret (String.eqb hash trimmedIfNoneMatch)
        | None => ret false
        end
    end
  else ret false.

(** Lines 89-126: up to the image read from the store.  [inl] is a response
    given on the way, [inr] the user and the image with which lines 128-136
    go on. *)
Definition getIconHandler_load (c : Context)
  : M HTTPError (Response + UserModel.t * list byte) :=
  let username := c_param_username c in
  notModified <- ifNoneMatch_hit c ;;
  if notModified : bool then ret (inl (NoContent StatusNotModified))
  else
    tx <- orElse BeginTxx (http500 "failed to begin transaction: ") ;;
    r <- attempt (Get_user_by_name tx username) ;;
    match r with
    | inl ErrNoRows =>
        fail (NewHTTPError StatusNotFound "not found user that has the given username")
    | inl err => fail (http500 "failed to get user: " err)
    | inr user =>
        r <- attempt (Get_icon_image tx (UserModel.ID user)) ;;
        match r with
        | inl ErrNoRows => ret (inl (File fallbackImage))
        | inl err => fail (http500 "failed to get user icon: " err)
        | inr image => ret (inr (user, image))
        end
    end.

Definition getIconHandler (c : Context) : M HTTPError Response :=
  r <- getIconHandler_load c ;;
  match r with
  | inl response => ret response
  | inr (user, image) =>
      let hash := iconHash image in
      storeIconHashByUsername (c_param_username c) hash ;;
      storeIconHashByUserID (UserModel.ID user) hash ;;
      ret (Blob StatusOK "image/jpeg" image)
  end.

(** ** postIconHandler (lines 139-190) *)

Definition postIconHandler (c : Context) : M HTTPError Response :=
  verifyUserSession c ;;
  userID <- session_userID c ;;
  req <- match c_icon_body c with
         | None => fail (NewHTTPError StatusBadRequest "failed to decode the request body as json")
         | Some req => ret req
         end ;;
  tx <- orElse BeginTxx (http500 "failed to begin transaction: ") ;;
  tx <- orElse (Exec_delete_icons tx userID) (http500 "failed to delete old user icon: ") ;;
  image <- match req with
           | None => panic "invalid memory address or nil pointer dereference"
           | Some req => ret (PostIconRequest.Image req)
           end ;;
  '(tx, rs) <- orElse (Exec_insert_icon tx userID image)
                      (http500 "failed to insert new user icon: ") ;;
  iconID <- orElse (LastInsertId rs) (http500 "failed to get last inserted icon id: ") ;;
  orElse (Commit tx) (http500 "failed to commit: ") ;;
  deleteUserByID userID ;;
  deleteLivestreamByIDCacheByOwnerID userID ;;
  deleteLivecommentByIDCacheByOwnerID userID ;;
  ret (JSON_PostIconResponse StatusCreated iconID).

(** ** getMeHandler (lines 192-230) *)

Definition getMeHandler (c : Context) : M HTTPError Response :=
  verifyUserSession c ;;
  userID <- session_userID c ;;
  tx <- orElse BeginTxx (http500 "failed to begin transaction: ") ;;
  r <- attempt (Get_user_by_id tx userID) ;;
  match r with
  | inl ErrNoRows =>
      fail (NewHTTPError StatusNotFound "not found user that has the userid in session")
  | inl err => fail (http500 "failed to get user: " err)
  | inr userModel =>
      user <- orElse (fillUserResponse tx userModel) (http500 "failed to fill user: ") ;;
      orElse (Commit tx) (http500 "failed to commit: ") ;;
      ret (JSON_User StatusOK user)
  end.

(** ** registerHandler (lines 234-325) *)

Definition GenerateFromPassword (password : string) : M error string :=
  call EvBcrypt (e <- get_env ;; ret (bcrypt_hash e password)).

(** The PATCH to the PowerDNS API (lines 286-304): the status of the answer. *)
Definition powerdns_patch (name : string) : M error Z :=
  call (EvHTTP "http://192.168.0.4:8081/api/v1/servers/localhost/zones/u.isucon.local.")
       (e <- get_env ;; ret (powerdns_status e)).

Definition registerHandler (c : Context) : M HTTPError Response :=
  req <- match c_user_body c with
         | None => fail (NewHTTPError StatusBadRequest "failed to decode the request body as json")
         | Some req => ret req
         end ;;
  if String.eqb (PostUserRequest.Name req) "pipe" then
    fail (NewHTTPError StatusBadRequest "the username 'pipe' is reserved")
  else
    hashedPassword <- orElse (GenerateFromPassword (PostUserRequest.Password req))
                             (http500 "failed to generate hashed password: ") ;;
    tx <- orElse BeginTxx (http500 "failed to begin transaction: ") ;;
    let userModel :=
      UserModel.Build 0 (PostUserRequest.Name req) (PostUserRequest.DisplayName req)
        (PostUserRequest.Description req) hashedPassword in
    '(tx, result) <- orElse (NamedExec_insert_user tx userModel)
                            (http500 "failed to insert user: ") ;;
    userID <- orElse (LastInsertId result)
                     (http500 "failed to get last inserted user id: ") ;;
    let userModel :=
      UserModel.Build userID (UserModel.Name userModel) (UserModel.DisplayName userModel)
        (UserModel.Description userModel) (UserModel.HashedPassword userModel) in
    let themeModel :=
      ThemeModel.Build 0 userID (PostUserRequest.Theme_DarkMode req) in
    '(tx, _) <- orElse (NamedExec_insert_theme tx themeModel)
                       (http500 "failed to insert user theme: ") ;;
    status <- orElse (powerdns_patch (PostUserRequest.Name req))
                     (http500 "failed to request to powerdns: ") ;;
    if negb (status =? StatusNoContent) then
      fail (NewHTTPError StatusInternalServerError
              "failed to request to powerdns: status code is not 204")
    else
      user <- orElse (fillUserResponse tx userModel) (http500 "failed to fill user: ") ;;
      orElse (Commit tx) (http500 "failed to commit: ") ;;
      deleteUserByID userID ;;
      deleteLivestreamByIDCacheByOwnerID userID ;;
      deleteLivecommentByIDCacheByOwnerID userID ;;
      ret (JSON_User StatusCreated user).

(** ** loginHandler (lines 329-390) *)

Definition loginHandler (c : Context) : M HTTPError Response :=
  req <- match c_login_body c with
         | None => fail (NewHTTPError StatusBadRequest "failed to decode the request body as json")
         | Some req => ret req
         end ;;
  tx <- orElse BeginTxx (http500 "failed to begin transaction: ") ;;
  r <- attempt (Get_user_by_name tx (LoginRequest.Username req)) ;;
  match r with
  | inl ErrNoRows =>
      fail (NewHTTPError StatusUnauthorized "invalid username or password")
  | inl err => fail (http500 "failed to get user: " err)
  | inr userModel =>
      orElse (Commit tx) (http500 "failed to commit: ") ;;
      matches <- orElse
                   (call EvBcrypt
                      (e <- get_env ;;
                       ret (bcrypt_matches e (UserModel.HashedPassword userModel)
                              (LoginRequest.Password req))))
                   (http500 "failed to compare hash and password: ") ;;
      if negb matches then
        fail (NewHTTPError StatusUnauthorized "invalid username or password")
      else
        match c_session c with
        | None => fail (NewHTTPError StatusUnauthorized "failed to get session")
        | Some sess =>
            orElse (call EvSessionSave (ret tt)) (http500 "failed to save session: ") ;;
            ret (NoContent StatusOK)
        end
  end.

(** ** getUserHandler (lines 394-427) *)

Definition getUserHandler (c : Context) : M HTTPError Response :=
  verifyUserSession c ;;
  tx <- orElse BeginTxx (http500 "failed to begin transaction: ") ;;
  r <- attempt (Get_user_by_name tx (c_param_username c)) ;;
  match r with
  | inl ErrNoRows =>
      fail (NewHTTPError StatusNotFound "not found user that has the given username")
  | inl err => fail (http500 "failed to get user: " err)
  | inr userModel =>
      user <- orElse (fillUserResponse tx userModel) (http500 "failed to fill user: ") ;;
      orElse (Commit tx) (http500 "failed to commit: ") ;;
      ret (JSON_User StatusOK user)
  end.

(** ** The service, one request at a time *)

Inductive Route := GetIcon | PostIcon | GetMe | Register | Login | GetUser.

Definition handler (r : Route) : Context -> M HTTPError Response :=
  match r with
  | GetIcon => getIconHandler
  | PostIcon => postIconHandler
  | GetMe => getMeHandler
  | Register => registerHandler
  | Login => loginHandler
  | GetUser => getUserHandler
  end.

(** A request arrives with its context; the outside world answers it with
    [q_env] and fails its external operations as [q_faults] schedules. *)
Record Request := MkRequest
  { q_route : Route; q_ctx : Context; q_env : Env; q_faults : list (option string) }.

Definition arrive (q : Request) (w : World) : World :=
  set_faults (q_faults q) (set_env (q_env q) w).

Definition serve (w : World) (q : Request) : World :=
  snd (handler (q_route q) (q_ctx q) (arrive q w)).

Definition serve_all (qs : list Request) (w : World) : World :=
  fold_left serve qs w.

(** The primary keys and the UNIQUE names of [users]. *)
Record wf_db (d : DB) : Prop := MkWf
  { wf_ids : NoDup (map UserModel.ID (users d));
    wf_names : NoDup (map UserModel.Name (users d));
    wf_auto : Forall (fun u => UserModel.ID u < users_auto d) (users d) }.

(** At process start the three maps of this file are empty. *)
Definition initial (w : World) : Prop :=
  wf_db (db w) /\
  UserByIDCache (caches w) = ∅ /\
  IconHashByUserIDCache (caches w) = ∅ /\
  IconHashByUsernameCache (caches w) = ∅.

Definition reachable (w : World) : Prop :=
  exists w0 qs, initial w0 /\ w = serve_all qs w0.

(** ** The service with overlapping icon fetches

    Each request runs in its own goroutine.  Between line 128 and the return
    at line 136 [getIconHandler] holds the image it read and takes the two
    map locks one after the other, so other requests can run in between.
    [inflight] holds the fetches that are at that point. *)
Inductive IconFetch :=
  | AtLine129 (username : string) (user : UserModel.t) (image : list byte)
  | AtLine132 (user : UserModel.t) (image : list byte).

Record System := MkSystem { world : World; inflight : list IconFetch }.

Inductive Action :=
  | Serve (q : Request)          (* a request from start to finish *)
  | IconLoad (q : Request)       (* an icon fetch up to line 128 *)
  | IconStep (k : nat).          (* the k-th fetch in flight takes its next lock *)

Definition act (s : System) (a : Action) : option System :=
  match a with
  | Serve q => Some (MkSystem (serve (world s) q) (inflight s))
  | IconLoad q =>
      match getIconHandler_load (q_ctx q) (arrive q (world s)) with
      | (Ok (inr (user, image)), w') =>
          Some (MkSystem w'
                  (inflight s ++ [AtLine129 (c_param_username (q_ctx q)) user image]))
      | (_, w') => Some (MkSystem w' (inflight s))
      end
  | IconStep k =>
      match inflight s !! k with
      | Some (AtLine129 username user image) =>
          Some (MkSystem
                  (snd (storeIconHashByUsername (E := HTTPError) username (iconHash image) (world s)))
                  (<[k := AtLine132 user image]> (inflight s)))
      | Some (AtLine132 user image) =>
          Some (MkSystem
                  (snd (storeIconHashByUserID (E := HTTPError) (UserModel.ID user) (iconHash image) (world s)))
                  (List.firstn k (inflight s) ++ List.skipn (S k) (inflight s)))
      | None => None
      end
  end.

Fixpoint run (acts : list Action) (s : System) : option System :=
  match acts with
  | [] => Some s
  | a :: rest =>
      match act s a with
      | Some s' => run rest s'
      | None => None
      end
  end.

Definition reachable_overlapping (s : System) : Prop :=
  exists w0 acts, initial w0 /\ run acts (MkSystem w0 []) = Some s.

(** The two icon-hash maps disagree on a user of the store. *)
Definition icon_hashes_diverge (w : World) : Prop :=
  exists user h1 h2,
    In user (users (db w)) /\
    IconHashByUserIDCache (caches w) !! UserModel.ID user = Some h1 /\
    IconHashByUsernameCache (caches w) !! UserModel.Name user = Some h2 /\
    h1 <> h2.

(** ** Specifications

    The database and the caches are the state the claims speak of; the log
    and the failure schedule only steer a run.  A triple says where a call
    leaves the two from a state in [P]: in [Q] when it returns a value, in
    [X] when it returns an error or panics. *)
Definition hoare {E A} (P : DB -> Caches -> Prop) (m : M E A)
    (Q : A -> DB -> Caches -> Prop) (X : DB -> Caches -> Prop) : Prop :=
  forall w, P (db w) (caches w) ->
    match m w with
    | (Ok a, w') => Q a (db w') (caches w')
    | (_, w') => X (db w') (caches w')
    end.

(** The state [d0], [c0] and no other. *)
Definition at_state (d0 : DB) (c0 : Caches) : DB -> Caches -> Prop :=
  fun d c => d = d0 /\ c = c0.

(** What lines 181-185 and 318-322 do to the caches, in one piece. *)
Definition invalidated (userID : Z) (cs : Caches) : Caches :=
  MkCaches (delete userID (UserByIDCache cs))
    (IconHashByUserIDCache cs) (IconHashByUsernameCache cs)
    (deleteByOwnerID userID (LivestreamByIDCache cs))
    (deleteByOwnerID userID (LivecommentByIDCache cs)).

Definition icon_row_of (tx : DB) (userID : Z) : option IconRow.t :=
  List.find (fun i => IconRow.UserID i =? userID) (icons tx).

Definition theme_row_of (tx : DB) (userID : Z) : option ThemeModel.t :=
  List.find (fun t => ThemeModel.UserID t =? userID) (themes tx).

(** The caches after an assembly that built [user] on a miss. *)
Definition assembled (cs : Caches) (user : User.t) (populate : bool) : Caches :=
  MkCaches (<[User.ID user := user]> (UserByIDCache cs))
    (if populate then <[User.ID user := User.IconHash user]> (IconHashByUserIDCache cs)
     else IconHashByUserIDCache cs)
    (IconHashByUsernameCache cs)
    (LivestreamByIDCache cs) (LivecommentByIDCache cs).

(** The outcome of a successful [fillUserResponse tx userModel] from the
    caches [c0]: a hit that changes nothing, or a miss that composes the view
    from the theme row and from the cached hash, the stored icon or the
    fallback asset. *)
Definition fill_ok (tx : DB) (userModel : UserModel.t) (c0 : Caches)
    (user : User.t) (c : Caches) : Prop :=
  (UserByIDCache c0 !! UserModel.ID userModel = Some user /\ c = c0) \/
  (UserByIDCache c0 !! UserModel.ID userModel = None /\
   exists themeModel populate,
     theme_row_of tx (UserModel.ID userModel) = Some themeModel /\
     user = User.Build (UserModel.ID userModel) (UserModel.Name userModel)
              (UserModel.DisplayName userModel) (UserModel.Description userModel)
              (Theme.Build (ThemeModel.ID themeModel) (ThemeModel.DarkMode themeModel))
              (User.IconHash user) /\
     c = assembled c0 user populate /\
     match IconHashByUserIDCache c0 !! UserModel.ID userModel with
     | Some hash => populate = true /\ User.IconHash user = hash
     | None =>
         match icon_row_of tx (UserModel.ID userModel) with
         | Some row => populate = true /\ User.IconHash user = iconHash (IconRow.Image row)
         | None => populate = false
         end
     end).

(** The state that every run of the service, one request at a time, keeps. *)
Record Inv (d : DB) (c : Caches) : Prop := MkInv
  { inv_wf : wf_db d;
    inv_sync : forall user h,
      In user (users d) ->
      IconHashByUsernameCache c !! UserModel.Name user = Some h ->
      IconHashByUserIDCache c !! UserModel.ID user = Some h;
    inv_named : forall name h,
      IconHashByUsernameCache c !! name = Some h ->
      exists user, In user (users d) /\ UserModel.Name user = name;
    inv_icon : forall userID h,
      IconHashByUserIDCache c !! userID = Some h ->
      exists row, icon_row_of d userID = Some row }.

(** The row that [registerHandler] passes to the assembler. *)
Definition registered_user (d0 : DB) (req : PostUserRequest.t) (hashedPassword : string)
  : UserModel.t :=
  UserModel.Build (users_auto d0) (PostUserRequest.Name req)
    (PostUserRequest.DisplayName req) (PostUserRequest.Description req) hashedPassword.

(** The transaction of [registerHandler] when it reaches the assembler. *)
Definition registered (d0 : DB) (req : PostUserRequest.t) (hashedPassword : string) : DB :=
  theme_inserted
    (user_inserted d0 (registered_user d0 req hashedPassword))
    (ThemeModel.Build 0 (users_auto d0) (PostUserRequest.Theme_DarkMode req)).

(** A registration that does not commit leaves the database as it was, and
    the caches as they were or as the assembler left them. *)
Definition register_aborted (d0 : DB) (c0 : Caches) : DB -> Caches -> Prop :=
  fun d c =>
    d = d0 /\
    (c = c0 \/
     exists req hashedPassword user,
       fill_ok (registered d0 req hashedPassword)
         (registered_user d0 req hashedPassword) c0 user c).

(** The caches after lines 129-134. *)
Definition icon_published (cs : Caches) (username : string) (userID : Z) (hash : string)
  : Caches :=
  MkCaches (UserByIDCache cs) (<[userID := hash]> (IconHashByUserIDCache cs))
    (<[username := hash]> (IconHashByUsernameCache cs))
    (LivestreamByIDCache cs) (LivecommentByIDCache cs).

(** A handler that only assembles leaves the database as it was, and the
    caches as they were or as the assembler left them. *)
Definition assembled_on (d0 : DB) (c0 : Caches) : DB -> Caches -> Prop :=
  fun d c =>
    d = d0 /\ (c = c0 \/ exists userModel user, fill_ok d0 userModel c0 user c).

(** What lines 181-185 and 318-322 may and may not do between the caches
    [c] before a committed icon replace or registration of [userID] and the
    caches [c'] after it. *)
Definition invalidates_exactly (userID : Z) (c c' : Caches) : Prop :=
  UserByIDCache c' = delete userID (UserByIDCache c) /\
  LivestreamByIDCache c' = deleteByOwnerID userID (LivestreamByIDCache c) /\
  LivecommentByIDCache c' = deleteByOwnerID userID (LivecommentByIDCache c) /\
  IconHashByUsernameCache c' = IconHashByUsernameCache c /\
  IconHashByUserIDCache c ⊆ IconHashByUserIDCache c' /\
  (forall k, k <> userID ->
     IconHashByUserIDCache c' !! k = IconHashByUserIDCache c !! k).

(** Every entry served before is served unchanged after. *)
Definition entries_kept (c c' : Caches) : Prop :=
  UserByIDCache c ⊆ UserByIDCache c' /\
  IconHashByUserIDCache c ⊆ IconHashByUserIDCache c' /\
  IconHashByUsernameCache c' = IconHashByUsernameCache c /\
  LivestreamByIDCache c' = LivestreamByIDCache c /\
  LivecommentByIDCache c' = LivecommentByIDCache c.

(** The session exists, its EXPIRES and USERID values are int64, and the
    clock is not past EXPIRES. *)
Definition session_valid (c : Context) (now : Z) : Prop :=
  exists sess expires userID,
    c_session c = Some sess /\
    Values sess !! defaultSessionExpiresKey = Some (VInt64 expires) /\
    Values sess !! defaultUserIDKey = Some (VInt64 userID) /\
    now <= expires.

(** The EXPIRES value, when there is one, has the type that [loginHandler]
    stores (line 383). *)
Definition expires_typed (c : Context) : Prop :=
  forall sess v,
    c_session c = Some sess ->
    Values sess !! defaultSessionExpiresKey = Some v ->
    exists expires, v = VInt64 expires.

(** ** A small deployment, for the examples *)
Module Scenario.

Definition env0 : Env :=
  MkEnv 1700000000 {[ fallbackImage := [xff; xd8; xff] ]}
    (fun password => "$2a$04$" +:+ password)
    (fun hashed password => String.eqb hashed ("$2a$04$" +:+ password))
    StatusNoContent.

(** The same world after the fallback asset was replaced on disk. *)
Definition env1 : Env :=
  MkEnv 1700000000 {[ fallbackImage := [xff; xd8; xfe] ]}
    (bcrypt_hash env0) (bcrypt_matches env0) StatusNoContent.

Definition alice : UserModel.t := UserModel.Build 1 "alice" "Alice" "" "$2a$04$secret".
Definition bob : UserModel.t := UserModel.Build 2 "bob" "Bob" "" "$2a$04$hunter2".

Definition no_caches : Caches := MkCaches ∅ ∅ ∅ ∅ ∅.

(** alice has the stored icon 0x01, bob has none. *)
Definition db0 : DB :=
  MkDB [alice; bob] 3
       [ThemeModel.Build 1 1 true; ThemeModel.Build 2 2 false] 3
       [IconRow.Build 1 1 [x01]] 2.

(** carol is a user without a theme row. *)
Definition carol : UserModel.t := UserModel.Build 7 "carol" "Carol" "" "".

Definition w0 : World := MkWorld db0 no_caches env0 [] [].

Definition session_of (userID : Z) : Session :=
  MkSession {[ defaultSessionExpiresKey := VInt64 1700003600;
               defaultUserIDKey := VInt64 userID ]}.

(** A session whose EXPIRES value is a string. *)
Definition session_odd : Session :=
  MkSession {[ defaultSessionExpiresKey := VString "tomorrow";
               defaultUserIDKey := VInt64 1 ]}.

Definition ctx_alice : Context :=
  MkContext (Some (session_of 1)) "alice" ""
    (Some (Some (PostIconRequest.Build [x02]))) None None.

Definition ctx_odd : Context :=
  MkContext (Some session_odd) "alice" "" None None None.

Definition ctx_star : Context :=
  MkContext None "alice" "*" None None None.

Definition ctx_register (name : string) : Context :=
  MkContext None "" "" None
    (Some (PostUserRequest.Build name "Dave" "" "pw" false)) None.

Definition get_me : Request := MkRequest GetMe ctx_alice env0 [].
Definition get_icon : Request := MkRequest GetIcon ctx_alice env0 [].
Definition post_icon : Request := MkRequest PostIcon ctx_alice env0 [].

(** A registration of which every operation succeeds but the commit. *)
Definition commit_fails : list (option string) :=
  [None; None; None; None; None; None; None; None; None; Some "invalid connection"].

(** alice reads her profile, then replaces her icon by 0x02. *)
Definition after_replace : World := serve_all [get_me; post_icon] w0.

(** bob's profile was assembled once. *)
Definition after_bob : World := snd (fillUserResponse db0 bob w0).

(** Two icon fetches of alice overlap with her icon replace: the first reads
    the old image, the replace commits, the second reads the new image and
    takes the lock of the by-username map, then the first takes both locks,
    then the second takes the lock of the by-ID map. *)
Definition overlapping_fetches : list Action :=
  [IconLoad get_icon; Serve post_icon; IconLoad get_icon;
   IconStep 1; IconStep 0; IconStep 0; IconStep 0].

End Scenario.

(** ** What the further properties speak of *)

(** Every view of [UserByIDCache] sits under its own ID. *)
Definition coherent_keys (c : Caches) : Prop :=
  forall k v, UserByIDCache c !! k = Some v -> User.ID v = k.

(** The rows of [icons] that belong to a user, in table order. *)
Definition icons_of (d : DB) (userID : Z) : list IconRow.t :=
  List.filter (fun i => IconRow.UserID i =? userID) (icons d).

Definition one_icon_per_user (d : DB) : Prop :=
  forall userID, (length (icons_of d userID) <= 1)%nat.

(** Lines 366-383: the four values that [loginHandler] puts into the session
    it got, [sessionEndAt] being one hour after [time.Now()]. *)
Definition saved_session (sess : Session) (now : Z) (sessionID : string)
    (userModel : UserModel.t) : Session :=
  MkSession
    (<[defaultSessionExpiresKey := VInt64 (now + 3600)]>
       (<[defaultUsernameKey := VString (UserModel.Name userModel)]>
          (<[defaultUserIDKey := VInt64 (UserModel.ID userModel)]>
             (<[defaultSessionIDKey := VString sessionID]> (Values sess))))).

(** [loginHandler] once more, with the session that [sess.Save] writes to
    the response beside the status; [sessionID] is what [uuid.NewString()]
    returns. *)
Definition loginHandler_saved (sessionID : string) (c : Context)
  : M HTTPError (Response * Session) :=
  req <- match c_login_body c with
         | None => fail (NewHTTPError StatusBadRequest "failed to decode the request body as json")
         | Some req => ret req
         end ;;
  tx <- orElse BeginTxx (http500 "failed to begin transaction: ") ;;
  r <- attempt (Get_user_by_name tx (LoginRequest.Username req)) ;;
  match r with
  | inl ErrNoRows =>
      fail (NewHTTPError StatusUnauthorized "invalid username or password")
  | inl err => fail (http500 "failed to get user: " err)
  | inr userModel =>
      orElse (Commit tx) (http500 "failed to commit: ") ;;
      matches <- orElse
                   (call EvBcrypt
                      (e <- get_env ;;
                       ret (bcrypt_matches e (UserModel.HashedPassword userModel)
                              (LoginRequest.Password req))))
                   (http500 "failed to compare hash and password: ") ;;
      if negb matches then
        fail (NewHTTPError StatusUnauthorized "invalid username or password")
      else
        e <- get_env ;;
        match c_session c with
        | None => fail (NewHTTPError StatusUnauthorized "failed to get session")
        | Some sess =>
            orElse (call EvSessionSave (ret tt)) (http500 "failed to save session: ") ;;
            ret (NoContent StatusOK, saved_session sess (now_Unix e) sessionID userModel)
        end
  end.

(** One of [0-9a-f]. *)
Definition is_lower_hex (a : ascii) : bool :=
  let n := Z.of_N (N_of_ascii a) in
  ((48 <=? n) && (n <=? 57)) || ((97 <=? n) && (n <=? 102)).

(** ** More of the small deployment *)
Module Tour.

(** alice's login, with the right and with a wrong password. *)
Definition ctx_login (username password : string) : Context :=
  MkContext (Some (MkSession ∅)) "" "" None None
    (Some (LoginRequest.Build username password)).

(** A fetch of alice's icon with the given If-None-Match header. *)
Definition ctx_icon (username header : string) : Context :=
  MkContext None username header None None None.

(** A request of a user who is in no table. *)
Definition ctx_ghost : Context :=
  MkContext (Some (Scenario.session_of 9)) "ghost" ""
    (Some (Some (PostIconRequest.Build [x03]))) None None.

(** alice's icon replace with the body [null]. *)
Definition ctx_null_body : Context :=
  MkContext (Some (Scenario.session_of 1)) "alice" "" (Some None) None None.

(** A request without a session. *)
Definition ctx_anonymous : Context :=
  MkContext None "alice" "" (Some (Some (PostIconRequest.Build [x02]))) None None.

(** The PowerDNS API answers 500. *)
Definition env_dns_down : Env :=
  MkEnv 1700000000 (files Scenario.env0) (bcrypt_hash Scenario.env0)
    (bcrypt_matches Scenario.env0) StatusInternalServerError.

Definition w_dns_down : World :=
  MkWorld Scenario.db0 Scenario.no_caches env_dns_down [] [].

(** alice's icon was fetched once. *)
Definition after_fetch : World :=
  snd (getIconHandler (ctx_icon "alice" "") Scenario.w0).

End Tour.

(** * Proofs *)

(** ** Rules of the triples *)

Section Rules.
Context {E A : Type}.
Implicit Types (P X : DB -> Caches -> Prop) (Q : A -> DB -> Caches -> Prop).

Lemma hoare_ret P Q X (a : A) :
  (forall d c, P d c -> Q a d c) -> hoare (E := E) P (ret a) Q X.
Proof. intros H w HP. simpl. auto. Qed.

Lemma hoare_fail P Q X (e : E) :
  (forall d c, P d c -> X d c) -> hoare P (fail e) Q X.
Proof. intros H w HP. simpl. auto. Qed.

Lemma hoare_panic P Q X msg :
  (forall d c, P d c -> X d c) -> hoare (E := E) P (panic msg) Q X.
Proof. intros H w HP. simpl. auto. Qed.

Lemma hoare_bind {B} P (R : B -> DB -> Caches -> Prop) Q X
    (m : M E B) (k : B -> M E A) :
  hoare P m R X -> (forall b, hoare (R b) (k b) Q X) -> hoare P (bind m k) Q X.
Proof.
  intros Hm Hk w HP. specialize (Hm w HP). unfold bind.
  destruct (m w) as [[b | e | msg] w']; try exact Hm.
  apply Hk, Hm.
Qed.

Lemma hoare_weaken P P' Q Q' X X' (m : M E A) :
  hoare P' m Q' X' ->
  (forall d c, P d c -> P' d c) ->
  (forall a d c, Q' a d c -> Q a d c) ->
  (forall d c, X' d c -> X d c) ->
  hoare P m Q X.
Proof.
  intros Hm HP HQ HX w Hw. specialize (Hm w (HP _ _ Hw)).
  destruct (m w) as [[a | e | msg] w']; auto.
Qed.

Lemma hoare_orElse {E'} P Q X (m : M E' A) (h : E' -> E) :
  hoare P m Q X -> hoare P (orElse m h) Q X.
Proof.
  intros Hm w HP. specialize (Hm w HP). unfold orElse.
  destruct (m w) as [[a | e | msg] w']; exact Hm.
Qed.

(** The caller that inspects the error goes on from [X] as well. *)
Lemma hoare_attempt {E'} P (Q : E' + A -> DB -> Caches -> Prop) X (m : M E' A) :
  hoare P m (fun a => Q (inr a)) (fun d c => X d c /\ forall e, Q (inl e) d c) ->
  hoare (E := E) P (attempt m) Q X.
Proof.
  intros Hm w HP. specialize (Hm w HP). unfold attempt.
  destruct (m w) as [[a | e | msg] w']; [exact Hm | apply Hm | apply Hm].
Qed.

End Rules.

(** An external operation leaves database and caches to its body. *)
Lemma hoare_call {A} P (Q : A -> DB -> Caches -> Prop) X ev (body : M error A) :
  hoare P body Q X -> (forall d c, P d c -> X d c) -> hoare P (call ev body) Q X.
Proof.
  intros Hb HX w HP. unfold call, bind, emit, injected. simpl.
  destruct (faults w) as [| [msg |] rest]; simpl.
  - apply (Hb (set_log (log w ++ [ev]) w)). exact HP.
  - apply HX, HP.
  - apply (Hb (set_faults rest (set_log (log w ++ [ev]) w))). exact HP.
Qed.

Lemma hoare_get_caches {E} P X :
  hoare (E := E) P get_caches (fun cs d c => cs = c /\ P d c) X.
Proof. intros w HP. simpl. auto. Qed.

Lemma hoare_put_caches {E} P X (cs : Caches) :
  hoare (E := E) P (put_caches cs) (fun _ d c => c = cs /\ exists c0, P d c0) X.
Proof. intros w HP. simpl. eauto. Qed.

Lemma hoare_get_env {E} P X :
  hoare (E := E) P get_env (fun _ d c => P d c) X.
Proof. intros w HP. simpl. auto. Qed.

(** ** The statements of the database *)

Ltac unfold_go :=
  cbv [bind ret fail panic orElse attempt get_caches put_caches get_env emit
       injected call first_row BeginTxx Commit Get_user_by_name Get_user_by_id
       Get_theme_by_user_id Get_icon_image ReadFile LastInsertId
       storeUserByID storeIconHashByUserID storeIconHashByUsername
       deleteUserByID deleteLivestreamByIDCacheByOwnerID
       deleteLivecommentByIDCacheByOwnerID
       set_db set_caches set_env set_faults set_log] in *;
  cbn [db caches env faults log fst snd UserByIDCache IconHashByUserIDCache
       IconHashByUsernameCache LivestreamByIDCache LivecommentByIDCache] in *.

Ltac split_go :=
  repeat (unfold_go;
          match goal with
          | |- context [match faults ?w with _ => _ end] =>
              let F := fresh "Hfaults" in destruct (faults w) as [| [?|] ?] eqn:F
          | |- context [match ?l with [] => _ | _ :: _ => _ end] =>
              is_var l; destruct l as [| [?|] ?]
          | |- context [match List.find ?p ?l with _ => _ end] =>
              let F := fresh "Hfind" in destruct (List.find p l) eqn:F
          | |- context [match ?m !! ?k with _ => _ end] =>
              let F := fresh "Hlookup" in destruct (m !! k) eqn:F
          end);
  unfold_go.

Lemma hoare_BeginTxx d0 c0 :
  hoare (at_state d0 c0) BeginTxx
    (fun tx d c => tx = d0 /\ at_state d0 c0 d c) (at_state d0 c0).
Proof. intros w [Hd Hc]. unfold at_state. split_go; auto. Qed.

Lemma hoare_Commit d0 c0 tx :
  hoare (at_state d0 c0) (Commit tx) (fun _ => at_state tx c0) (at_state d0 c0).
Proof. intros w [Hd Hc]. unfold at_state. split_go; auto. Qed.

Lemma hoare_first_row {A} P X (p : A -> bool) rows :
  (forall d c, P d c -> X d c) ->
  hoare P (first_row p rows) (fun r d c => List.find p rows = Some r /\ P d c) X.
Proof. intros HX w HP. split_go; auto. Qed.

Lemma hoare_Get_user_by_name P tx name :
  hoare P (Get_user_by_name tx name)
    (fun u d c =>
       List.find (fun u => String.eqb (UserModel.Name u) name) (users tx) = Some u /\ P d c)
    P.
Proof. apply hoare_call; [apply hoare_first_row |]; auto. Qed.

Lemma hoare_Get_user_by_id P tx id :
  hoare P (Get_user_by_id tx id)
    (fun u d c =>
       List.find (fun u => UserModel.ID u =? id) (users tx) = Some u /\ P d c)
    P.
Proof. apply hoare_call; [apply hoare_first_row |]; auto. Qed.

Lemma hoare_Get_icon_image P tx userID :
  hoare P (Get_icon_image tx userID)
    (fun image d c =>
       (exists row, icon_row_of tx userID = Some row /\ image = IconRow.Image row) /\ P d c)
    P.
Proof.
  apply hoare_call; [| auto].
  eapply hoare_bind; [apply hoare_first_row; auto |].
  intros row. apply hoare_ret. intros d c [Hrow HP]. eauto.
Qed.

(** ** fillUserResponse *)

Lemma fillUserResponse_spec tx userModel d0 c0 :
  hoare (at_state d0 c0) (fillUserResponse tx userModel)
    (fun user d c => d = d0 /\ fill_ok tx userModel c0 user c) (at_state d0 c0).
Proof.
  intros w [<- <-]. unfold fillUserResponse.
  split_go.
  all: unfold at_state.
  all: try (split; reflexivity).
  all: split; [reflexivity |].
  all: unfold fill_ok, theme_row_of, icon_row_of.
  all: try (left; split; [assumption | reflexivity]).
  all: right; split; [assumption |].
  all: rewrite ?Hfind, ?Hfind0, ?Hlookup0.
  all: match goal with
       | H : List.find _ (themes _) = Some ?t |- _ =>
           first [ exists t, true; unfold assembled; cbn; repeat split; reflexivity
                 | exists t, false; unfold assembled; cbn; repeat split; reflexivity ]
       end.
Qed.

(** ** Steps that leave the state alone, and steps that write it *)

Lemma hoare_bind_pure {E A B} P (phi : B -> Prop) (R : B -> DB -> Caches -> Prop)
    (Q : A -> DB -> Caches -> Prop) X (m : M E B) (k : B -> M E A) :
  hoare P m (fun b d c => phi b /\ R b d c) X ->
  (forall b, phi b -> hoare (R b) (k b) Q X) ->
  hoare P (bind m k) Q X.
Proof.
  intros Hm Hk. eapply hoare_bind; [exact Hm |].
  intros b w [Hphi HR]. exact (Hk b Hphi w HR).
Qed.

Lemma hoare_still {E A} P X (m : M E A) :
  (forall w, db (snd (m w)) = db w /\ caches (snd (m w)) = caches w) ->
  (forall d c, P d c -> X d c) ->
  hoare P m (fun _ => P) X.
Proof.
  intros Hm HX w HP. destruct (Hm w) as [Hd Hc].
  destruct (m w) as [[a | e | msg] w']; simpl in *; rewrite Hd, Hc; auto.
Qed.

Lemma verifyUserSession_world c w : snd (verifyUserSession c w) = w.
Proof.
  unfold verifyUserSession.
  repeat (unfold_go; case_match; try reflexivity).
Qed.

Lemma session_userID_world {E} c w : snd (session_userID (E := E) c w) = w.
Proof.
  unfold session_userID. repeat (unfold_go; case_match; try reflexivity).
Qed.

Lemma ifNoneMatch_hit_world c w : snd (ifNoneMatch_hit c w) = w.
Proof.
  unfold ifNoneMatch_hit. repeat (unfold_go; case_match; try reflexivity).
Qed.

Lemma hoare_verifyUserSession P X c :
  (forall d c, P d c -> X d c) -> hoare P (verifyUserSession c) (fun _ => P) X.
Proof.
  intros HX. apply hoare_still; [| exact HX].
  intros w. now rewrite verifyUserSession_world.
Qed.

Lemma hoare_session_userID {E} P X c :
  (forall d c, P d c -> X d c) ->
  hoare (E := E) P (session_userID c)
    (fun userID d c' =>
       (exists sess, c_session c = Some sess /\
                     Values sess !! defaultUserIDKey = Some (VInt64 userID)) /\ P d c')
    X.
Proof.
  intros HX w HP. unfold session_userID, as_int64.
  repeat (unfold_go; case_match; simplify_eq; eauto).
Qed.

Lemma hoare_storeUserByID {E} d0 c0 X userID user :
  hoare (E := E) (at_state d0 c0) (storeUserByID userID user)
    (fun _ => at_state d0
       (MkCaches (<[userID := user]> (UserByIDCache c0)) (IconHashByUserIDCache c0)
          (IconHashByUsernameCache c0) (LivestreamByIDCache c0) (LivecommentByIDCache c0)))
    X.
Proof. intros w [<- <-]. unfold at_state. unfold_go. auto. Qed.

Lemma hoare_storeIconHashByUserID {E} d0 c0 X userID hash :
  hoare (E := E) (at_state d0 c0) (storeIconHashByUserID userID hash)
    (fun _ => at_state d0
       (MkCaches (UserByIDCache c0) (<[userID := hash]> (IconHashByUserIDCache c0))
          (IconHashByUsernameCache c0) (LivestreamByIDCache c0) (LivecommentByIDCache c0)))
    X.
Proof. intros w [<- <-]. unfold at_state. unfold_go. auto. Qed.

Lemma hoare_storeIconHashByUsername {E} d0 c0 X username hash :
  hoare (E := E) (at_state d0 c0) (storeIconHashByUsername username hash)
    (fun _ => at_state d0
       (MkCaches (UserByIDCache c0) (IconHashByUserIDCache c0)
          (<[username := hash]> (IconHashByUsernameCache c0))
          (LivestreamByIDCache c0) (LivecommentByIDCache c0)))
    X.
Proof. intros w [<- <-]. unfold at_state. unfold_go. auto. Qed.

(** Lines 181-185 and 318-322 as one step. *)
Lemma hoare_invalidate {E A} d0 c0 X userID (k : M E A) Q :
  hoare (at_state d0 (invalidated userID c0)) k Q X ->
  hoare (at_state d0 c0)
    (deleteUserByID userID ;;
     deleteLivestreamByIDCacheByOwnerID userID ;;
     deleteLivecommentByIDCacheByOwnerID userID ;; k) Q X.
Proof.
  intros Hk w [<- <-]. unfold_go.
  apply (Hk (MkWorld (db w) (invalidated userID (caches w)) (env w) (faults w) (log w))).
  split; reflexivity.
Qed.

Section Writes.
Context (P X : DB -> Caches -> Prop) (HX : forall d c, P d c -> X d c).

Lemma hoare_Exec_delete_icons tx userID :
  hoare P (Exec_delete_icons tx userID)
    (fun tx' d c => tx' = icons_deleted tx userID /\ P d c) X.
Proof. apply hoare_call; [apply hoare_ret |]; auto. Qed.

Lemma hoare_Exec_insert_icon tx userID image :
  hoare P (Exec_insert_icon tx userID image)
    (fun r d c => r = (icon_inserted tx userID image, icons_auto tx) /\ P d c) X.
Proof. apply hoare_call; [apply hoare_ret |]; auto. Qed.

Lemma hoare_NamedExec_insert_user tx u :
  hoare P (NamedExec_insert_user tx u)
    (fun r d c =>
       (name_taken tx (UserModel.Name u) = false /\
        r = (user_inserted tx u, users_auto tx)) /\ P d c) X.
Proof.
  apply hoare_call; [| auto].
  destruct (name_taken tx (UserModel.Name u)) eqn:Hn.
  - apply hoare_fail; auto.
  - apply hoare_ret; auto.
Qed.

Lemma hoare_NamedExec_insert_theme tx t :
  hoare P (NamedExec_insert_theme tx t)
    (fun r d c => r = (theme_inserted tx t, themes_auto tx) /\ P d c) X.
Proof. apply hoare_call; [apply hoare_ret |]; auto. Qed.

Lemma hoare_LastInsertId result :
  hoare P (LastInsertId result) (fun id d c => id = result /\ P d c) X.
Proof. apply hoare_call; [apply hoare_ret |]; auto. Qed.

Lemma hoare_GenerateFromPassword password :
  hoare P (GenerateFromPassword password) (fun _ d c => True /\ P d c) X.
Proof.
  apply hoare_call; [| auto].
  eapply hoare_bind; [apply hoare_get_env |].
  intros e. apply hoare_ret. auto.
Qed.

Lemma hoare_powerdns_patch name :
  hoare P (powerdns_patch name) (fun _ d c => True /\ P d c) X.
Proof.
  apply hoare_call; [| auto].
  eapply hoare_bind; [apply hoare_get_env |].
  intros e. apply hoare_ret. auto.
Qed.

End Writes.

Lemma hoare_BeginTxx' d0 c0 X :
  (forall d c, at_state d0 c0 d c -> X d c) ->
  hoare (at_state d0 c0) BeginTxx (fun tx d c => tx = d0 /\ at_state d0 c0 d c) X.
Proof.
  intros HX. eapply hoare_weaken; [apply (hoare_BeginTxx d0 c0) | | |]; simpl; auto.
Qed.

Lemma hoare_Commit' d0 c0 tx X :
  (forall d c, at_state d0 c0 d c -> X d c) ->
  hoare (at_state d0 c0) (Commit tx) (fun _ => at_state tx c0) X.
Proof.
  intros HX. eapply hoare_weaken; [apply (hoare_Commit d0 c0 tx) | | |]; simpl; auto.
Qed.

(** [apply] with the unification of [refine], which solves the
    higher-order patterns of the postconditions. *)
Ltac rapply l :=
  first [ refine l | refine (l _) | refine (l _ _) | refine (l _ _ _)
        | refine (l _ _ _ _) | refine (l _ _ _ _ _) | refine (l _ _ _ _ _ _)
        | refine (l _ _ _ _ _ _ _) | refine (l _ _ _ _ _ _ _ _) ].

(** One statement of a handler: the rule of [bind], the triple [l] of the
    statement, its side condition. *)
Ltac hstep l :=
  eapply hoare_bind_pure;
  [ first [ apply hoare_orElse; rapply l | rapply l ]; try solve [auto] | ].

(** ** postIconHandler *)

(** Where a successful icon replace of [userID] leaves database and caches;
    every other run leaves them as they were. *)
Lemma postIconHandler_spec c d0 c0 :
  hoare (at_state d0 c0) (postIconHandler c)
    (fun _ d c' =>
       exists sess userID image,
         c_session c = Some sess /\
         Values sess !! defaultUserIDKey = Some (VInt64 userID) /\
         d = icon_inserted (icons_deleted d0 userID) userID image /\
         c' = invalidated userID c0)
    (at_state d0 c0).
Proof.
  unfold postIconHandler.
  eapply hoare_bind; [apply hoare_verifyUserSession; auto |]. intros [].
  hstep @hoare_session_userID. intros userID (sess & Hsess & Huid).
  eapply hoare_bind with (R := fun _ => at_state d0 c0).
  { destruct (c_icon_body c); [apply hoare_ret | apply hoare_fail]; auto. }
  intros req.
  hstep hoare_BeginTxx'. intros tx ->.
  hstep hoare_Exec_delete_icons. intros tx ->.
  eapply hoare_bind with (R := fun image => at_state d0 c0).
  { destruct req; [apply hoare_ret | apply hoare_panic]; auto. }
  intros image.
  hstep hoare_Exec_insert_icon. intros [tx rs] [= -> ->].
  hstep hoare_LastInsertId. intros iconID ->.
  eapply hoare_bind; [apply hoare_orElse, hoare_Commit'; auto |]. intros [].
  apply hoare_invalidate. apply hoare_ret.
  intros d c' [-> ->]. eauto 10.
Qed.

Lemma hoare_at {E A} d0 (phi : Caches -> Prop) (m : M E A) Q X :
  (forall c1, phi c1 -> hoare (at_state d0 c1) m Q X) ->
  hoare (fun d c => d = d0 /\ phi c) m Q X.
Proof. intros H w [Hd Hphi]. apply (H (caches w) Hphi). split; auto. Qed.

Lemma hoare_bind_decoded {E A B} P Q X (o : option B) (e : E) (k : B -> M E A) :
  (forall b, o = Some b -> hoare P (k b) Q X) ->
  (forall d c, P d c -> X d c) ->
  hoare P (bind (match o with None => fail e | Some b => ret b end) k) Q X.
Proof.
  intros Hk HX. destruct o as [b |].
  - intros w HP. exact (Hk b eq_refl w HP).
  - intros w HP. simpl. auto.
Qed.

(** ** registerHandler *)

Lemma registerHandler_spec c d0 c0 :
  hoare (at_state d0 c0) (registerHandler c)
    (fun response d c' =>
       exists req hashedPassword user c1,
         c_user_body c = Some req /\
         name_taken d0 (PostUserRequest.Name req) = false /\
         fill_ok (registered d0 req hashedPassword)
           (registered_user d0 req hashedPassword) c0 user c1 /\
         response = JSON_User StatusCreated user /\
         d = registered d0 req hashedPassword /\
         c' = invalidated (users_auto d0) c1)
    (register_aborted d0 c0).
Proof.
  assert (Hsame : forall d c, at_state d0 c0 d c -> register_aborted d0 c0 d c).
  { intros d c' [-> ->]. split; auto. }
  unfold registerHandler.
  apply hoare_bind_decoded; [| exact Hsame]. intros req Hreq.
  destruct (String.eqb (PostUserRequest.Name req) "pipe"); [apply hoare_fail; exact Hsame |].
  hstep hoare_GenerateFromPassword. intros hashedPassword _.
  hstep hoare_BeginTxx'. intros tx ->.
  hstep hoare_NamedExec_insert_user. intros [tx result] [Hfree [= -> ->]].
  hstep hoare_LastInsertId. intros userID ->.
  hstep hoare_NamedExec_insert_theme. intros [tx themeID] [= -> ->].
  hstep hoare_powerdns_patch. intros status _.
  destruct (negb (status =? StatusNoContent)); [apply hoare_fail; exact Hsame |].
  eapply hoare_bind.
  { apply hoare_orElse. eapply hoare_weaken; [apply fillUserResponse_spec | | |].
    - intros d c' H. exact H.
    - intros user d c' H. exact H.
    - exact Hsame. }
  intros user. apply hoare_at. intros c1 Hfill.
  assert (Hfilled : forall d c', at_state d0 c1 d c' -> register_aborted d0 c0 d c').
  { intros d c' [-> ->]. split; [reflexivity |]. right.
    exists req, hashedPassword, user. exact Hfill. }
  eapply hoare_bind; [apply hoare_orElse, hoare_Commit'; exact Hfilled |]. intros [].
  apply hoare_invalidate. apply hoare_ret.
  intros d c' [-> ->]. exists req, hashedPassword, user, c1.
  repeat split; try reflexivity; assumption.
Qed.

(** ** The reading handlers *)

Section Attempts.
Context {E : Type} (P X : DB -> Caches -> Prop) (HX : forall d c, P d c -> X d c).

Lemma hoare_attempt_Get_user_by_name tx name :
  hoare (E := E) P (attempt (Get_user_by_name tx name))
    (fun r d c =>
       (forall u, r = inr u ->
          List.find (fun u => String.eqb (UserModel.Name u) name) (users tx) = Some u) /\
       P d c) X.
Proof.
  apply hoare_attempt. eapply hoare_weaken; [apply (hoare_Get_user_by_name P) | | |].
  - auto.
  - intros u d c [Hu HP]. split; [| exact HP]. now intros ? [= <-].
  - intros d c HP. split; [auto |]. intros e. split; [discriminate | exact HP].
Qed.

Lemma hoare_attempt_Get_user_by_id tx id :
  hoare (E := E) P (attempt (Get_user_by_id tx id))
    (fun r d c =>
       (forall u, r = inr u ->
          List.find (fun u => UserModel.ID u =? id) (users tx) = Some u) /\
       P d c) X.
Proof.
  apply hoare_attempt. eapply hoare_weaken; [apply (hoare_Get_user_by_id P) | | |].
  - auto.
  - intros u d c [Hu HP]. split; [| exact HP]. now intros ? [= <-].
  - intros d c HP. split; [auto |]. intros e. split; [discriminate | exact HP].
Qed.

Lemma hoare_attempt_Get_icon_image tx userID :
  hoare (E := E) P (attempt (Get_icon_image tx userID))
    (fun r d c =>
       (forall image, r = inr image ->
          exists row, icon_row_of tx userID = Some row /\ image = IconRow.Image row) /\
       P d c) X.
Proof.
  apply hoare_attempt. eapply hoare_weaken; [apply (hoare_Get_icon_image P) | | |].
  - auto.
  - intros u d c [Hu HP]. split; [| exact HP]. now intros ? [= <-].
  - intros d c HP. split; [auto |]. intros e. split; [discriminate | exact HP].
Qed.

End Attempts.

Lemma getIconHandler_load_spec c d0 c0 :
  hoare (at_state d0 c0) (getIconHandler_load c)
    (fun r d c' =>
       (forall user image, r = inr (user, image) ->
          List.find (fun u => String.eqb (UserModel.Name u) (c_param_username c))
            (users d0) = Some user /\
          exists row, icon_row_of d0 (UserModel.ID user) = Some row /\
                      image = IconRow.Image row) /\
       at_state d0 c0 d c')
    (at_state d0 c0).
Proof.
  unfold getIconHandler_load.
  eapply hoare_bind.
  { apply hoare_still; [| auto]. intros w. now rewrite ifNoneMatch_hit_world. }
  intros [|]; [apply hoare_ret; intros d c' H; split; [discriminate | exact H] |].
  hstep hoare_BeginTxx'. intros tx ->.
  hstep @hoare_attempt_Get_user_by_name. intros [err | user] Huser.
  { destruct err; apply hoare_fail; auto. }
  specialize (Huser user eq_refl).
  hstep @hoare_attempt_Get_icon_image. intros [err | image] Himage.
  { destruct err; [apply hoare_ret | apply hoare_fail]; auto.
    intros d c' H. split; [discriminate | exact H]. }
  apply hoare_ret. intros d c' H. split; [| exact H].
  intros ? ? [= <- <-]. auto.
Qed.

Lemma getIconHandler_spec c d0 c0 :
  hoare (at_state d0 c0) (getIconHandler c)
    (fun _ d c' =>
       d = d0 /\
       (c' = c0 \/
        exists user row,
          List.find (fun u => String.eqb (UserModel.Name u) (c_param_username c))
            (users d0) = Some user /\
          icon_row_of d0 (UserModel.ID user) = Some row /\
          c' = icon_published c0 (c_param_username c) (UserModel.ID user)
                 (iconHash (IconRow.Image row))))
    (at_state d0 c0).
Proof.
  unfold getIconHandler.
  hstep getIconHandler_load_spec. intros [response | [user image]] Hload.
  { apply hoare_ret. intros d c' [-> ->]. auto. }
  destruct (Hload user image eq_refl) as (Huser & row & Hrow & ->).
  eapply hoare_bind; [apply hoare_storeIconHashByUsername |]. intros [].
  eapply hoare_bind; [apply hoare_storeIconHashByUserID |]. intros [].
  apply hoare_ret. intros d c' [-> ->]. split; [reflexivity |].
  right. exists user, row. auto.
Qed.

Lemma hoare_assemble_and_commit c0 d0 userModel :
  hoare (at_state d0 c0)
    (user <- orElse (fillUserResponse d0 userModel) (http500 "failed to fill user: ") ;;
     orElse (Commit d0) (http500 "failed to commit: ") ;;
     ret (JSON_User StatusOK user))
    (fun _ => assembled_on d0 c0) (assembled_on d0 c0).
Proof.
  assert (Hsame : forall d c, at_state d0 c0 d c -> assembled_on d0 c0 d c).
  { intros d c' [-> ->]. split; auto. }
  eapply hoare_bind.
  { apply hoare_orElse. eapply hoare_weaken; [apply fillUserResponse_spec | | |].
    - intros d c' H. exact H.
    - intros user d c' H. exact H.
    - exact Hsame. }
  intros user. apply hoare_at. intros c1 Hfill.
  assert (Hfilled : forall d c', at_state d0 c1 d c' -> assembled_on d0 c0 d c').
  { intros d c' [-> ->]. split; [reflexivity |]. right. eauto. }
  eapply hoare_bind; [apply hoare_orElse, hoare_Commit'; exact Hfilled |]. intros [].
  apply hoare_ret. exact Hfilled.
Qed.

Lemma getMeHandler_spec c d0 c0 :
  hoare (at_state d0 c0) (getMeHandler c)
    (fun _ => assembled_on d0 c0) (assembled_on d0 c0).
Proof.
  assert (Hsame : forall d c, at_state d0 c0 d c -> assembled_on d0 c0 d c).
  { intros d c' [-> ->]. split; auto. }
  unfold getMeHandler.
  eapply hoare_bind; [apply hoare_verifyUserSession; auto |]. intros [].
  hstep @hoare_session_userID. intros userID _.
  hstep hoare_BeginTxx'. intros tx ->.
  hstep @hoare_attempt_Get_user_by_id. intros [err | userModel] _.
  { destruct err; apply hoare_fail; auto. }
  apply hoare_assemble_and_commit.
Qed.

Lemma getUserHandler_spec c d0 c0 :
  hoare (at_state d0 c0) (getUserHandler c)
    (fun _ => assembled_on d0 c0) (assembled_on d0 c0).
Proof.
  assert (Hsame : forall d c, at_state d0 c0 d c -> assembled_on d0 c0 d c).
  { intros d c' [-> ->]. split; auto. }
  unfold getUserHandler.
  eapply hoare_bind; [apply hoare_verifyUserSession; auto |]. intros [].
  hstep hoare_BeginTxx'. intros tx ->.
  hstep @hoare_attempt_Get_user_by_name. intros [err | userModel] _.
  { destruct err; apply hoare_fail; auto. }
  apply hoare_assemble_and_commit.
Qed.

Lemma loginHandler_spec c d0 c0 :
  hoare (at_state d0 c0) (loginHandler c) (fun _ => at_state d0 c0) (at_state d0 c0).
Proof.
  unfold loginHandler.
  apply hoare_bind_decoded; [| auto]. intros req _.
  hstep hoare_BeginTxx'. intros tx ->.
  hstep @hoare_attempt_Get_user_by_name. intros [err | userModel] _.
  { destruct err; apply hoare_fail; auto. }
  eapply hoare_bind; [apply hoare_orElse, hoare_Commit'; auto |]. intros [].
  eapply hoare_bind with (R := fun _ => at_state d0 c0).
  { apply hoare_orElse, hoare_call; [| auto].
    eapply hoare_bind; [apply hoare_get_env |]. intros e. apply hoare_ret. auto. }
  intros matches. simpl.
  destruct (negb matches); [apply hoare_fail; auto |].
  destruct (c_session c); [| apply hoare_fail; auto].
  eapply hoare_bind with (R := fun _ => at_state d0 c0).
  { apply hoare_orElse, hoare_call; [apply hoare_ret |]; auto. }
  intros []. apply hoare_ret. auto.
Qed.

(** ** The invariant of the service *)

Lemma NoDup_map_In_eq {A B} (f : A -> B) (l : list A) x y :
  NoDup (map f l) -> In x l -> In y l -> f x = f y -> x = y.
Proof.
  induction l as [| a l IH]; simpl; [tauto |].
  intros Hnd Hx Hy Hf. apply NoDup_cons in Hnd as [Hnotin Hnd].
  destruct Hx as [-> | Hx], Hy as [-> | Hy]; auto.
  - exfalso. apply Hnotin. rewrite Hf. apply list_elem_of_In, in_map, Hy.
  - exfalso. apply Hnotin. rewrite <- Hf. apply list_elem_of_In, in_map, Hx.
Qed.

Lemma find_by_name_In d name u :
  List.find (fun u => String.eqb (UserModel.Name u) name) (users d) = Some u ->
  In u (users d) /\ UserModel.Name u = name.
Proof.
  intros H. apply find_some in H as [Hin Heq]. split; [exact Hin |].
  now apply String.eqb_eq.
Qed.

Lemma name_taken_false d name u :
  name_taken d name = false -> In u (users d) -> UserModel.Name u <> name.
Proof.
  unfold name_taken. intros H Hin Heq.
  destruct (List.find _ (users d)) eqn:Hfind; [discriminate |].
  apply (find_none _ _ Hfind) in Hin. simpl in Hin.
  apply String.eqb_neq in Hin. contradiction.
Qed.

Lemma find_is_Some {A} (p : A -> bool) (l : list A) x :
  In x l -> p x = true -> exists r, List.find p l = Some r.
Proof.
  intros Hin Hp. destruct (List.find p l) eqn:Hfind; [eauto |].
  apply (find_none _ _ Hfind) in Hin. congruence.
Qed.

Lemma initial_Inv w : initial w -> Inv (db w) (caches w).
Proof.
  intros (Hwf & HU & HI & HN). split; [exact Hwf | ..].
  - intros user h _. rewrite HN, lookup_empty. discriminate.
  - intros name h. rewrite HN, lookup_empty. discriminate.
  - intros userID h. rewrite HI, lookup_empty. discriminate.
Qed.

Lemma Inv_invalidated d c userID : Inv d c -> Inv d (invalidated userID c).
Proof. intros [Hwf Hsync Hnamed Hicon]. split; assumption. Qed.

Lemma Inv_fill d tx userModel c0 user c :
  icons tx = icons d ->
  Inv d c0 -> fill_ok tx userModel c0 user c -> Inv d c.
Proof.
  intros Hicons HInv [[_ ->] | (Hmiss & themeModel & populate & _ & Huser & -> & Hhash)];
    [exact HInv |].
  assert (Hid : User.ID user = UserModel.ID userModel) by (rewrite Huser; reflexivity).
  assert (Hpop : populate = true ->
            IconHashByUserIDCache c0 !! UserModel.ID userModel = Some (User.IconHash user) \/
            (IconHashByUserIDCache c0 !! UserModel.ID userModel = None /\
             exists row, icon_row_of d (UserModel.ID userModel) = Some row)).
  { intros ->. unfold icon_row_of in *. rewrite Hicons in Hhash. revert Hhash.
    destruct (IconHashByUserIDCache c0 !! UserModel.ID userModel).
    - intros [_ ->]. left. reflexivity.
    - destruct (List.find _ (icons d)) as [row |]; [right; eauto | discriminate]. }
  destruct HInv as [Hwf Hsync Hnamed Hicon].
  split; [exact Hwf | | exact Hnamed |]; unfold assembled; simpl; rewrite Hid.
  - intros v h Hin Hname. specialize (Hsync v h Hin Hname).
    destruct populate; [| exact Hsync].
    destruct (decide (UserModel.ID userModel = UserModel.ID v)) as [Heq | Hne].
    + rewrite Heq in *. destruct (Hpop eq_refl) as [Hc | [Hc _]]; [| congruence].
      rewrite Hsync in Hc. injection Hc as <-. apply lookup_insert_eq.
    + rewrite lookup_insert_ne; assumption.
  - intros k h. destruct populate; [| apply Hicon].
    destruct (decide (UserModel.ID userModel = k)) as [<- | Hne].
    + intros _. destruct (Hpop eq_refl) as [Hc | [_ Hrow]]; [| exact Hrow].
      eapply Hicon, Hc.
    + rewrite lookup_insert_ne; [apply Hicon | assumption].
Qed.

Lemma Inv_icon_replaced d c userID image :
  Inv d c -> Inv (icon_inserted (icons_deleted d userID) userID image) c.
Proof.
  intros [[Hids Hnames Hauto] Hsync Hnamed Hicon].
  split; [split; assumption | exact Hsync | exact Hnamed |].
  intros k h Hk. destruct (Hicon k h Hk) as [row Hrow].
  unfold icon_row_of, icon_inserted, icons_deleted in *. simpl.
  apply find_some in Hrow as [Hin Hp].
  destruct (decide (k = userID)) as [-> | Hne].
  - apply find_is_Some with (x := IconRow.Build (icons_auto d) userID image).
    + apply in_or_app. right. left. reflexivity.
    + simpl. apply Z.eqb_refl.
  - apply find_is_Some with (x := row); [| exact Hp].
    apply in_or_app. left. apply filter_In. split; [exact Hin |].
    apply Z.eqb_eq in Hp. rewrite Hp. apply negb_true_iff, Z.eqb_neq, Hne.
Qed.

Lemma Inv_registered d c req hashedPassword :
  Inv d c -> name_taken d (PostUserRequest.Name req) = false ->
  Inv (registered d req hashedPassword) c.
Proof.
  intros [[Hids Hnames Hauto] Hsync Hnamed Hicon] Hfree.
  assert (Hfresh : forall u, In u (users d) -> UserModel.Name u <> PostUserRequest.Name req).
  { intros u Hu. eapply name_taken_false; eassumption. }
  split; [split | | |]; unfold registered, registered_user, theme_inserted, user_inserted;
    simpl.
  - rewrite map_app. simpl. apply NoDup_app. split; [exact Hids | split].
    + intros x Hx Hx'. apply list_elem_of_In in Hx.
      apply list_elem_of_In in Hx'. destruct Hx' as [<- | []].
      apply in_map_iff in Hx as (u & Hu & Hin).
      rewrite Forall_forall in Hauto. specialize (Hauto u).
      rewrite list_elem_of_In in Hauto. specialize (Hauto Hin). lia.
    + apply NoDup_singleton.
  - rewrite map_app. simpl. apply NoDup_app. split; [exact Hnames | split].
    + intros x Hx Hx'. apply list_elem_of_In in Hx.
      apply list_elem_of_In in Hx'. destruct Hx' as [<- | []].
      apply in_map_iff in Hx as (u & Hu & Hin). eapply Hfresh; eassumption.
    + apply NoDup_singleton.
  - apply Forall_app. split.
    + eapply Forall_impl; [exact Hauto |]. simpl. intros; lia.
    + apply Forall_singleton. simpl. lia.
  - intros v h Hin Hname. apply in_app_or in Hin as [Hin | [<- | []]].
    + apply Hsync; assumption.
    + simpl in Hname. destruct (Hnamed _ _ Hname) as (u & Hu & Heq).
      exfalso. eapply Hfresh; eassumption.
  - intros name h Hname. destruct (Hnamed _ _ Hname) as (u & Hu & Heq).
    exists u. split; [apply in_or_app; left; exact Hu | exact Heq].
  - exact Hicon.
Qed.

Lemma Inv_published d c username user row :
  Inv d c ->
  List.find (fun u => String.eqb (UserModel.Name u) username) (users d) = Some user ->
  icon_row_of d (UserModel.ID user) = Some row ->
  Inv d (icon_published c username (UserModel.ID user) (iconHash (IconRow.Image row))).
Proof.
  intros [Hwf Hsync Hnamed Hicon] Hfind Hrow.
  apply find_by_name_In in Hfind as [Hin Hname].
  split; [exact Hwf | | |]; unfold icon_published; simpl.
  - intros v h Hv Hlook.
    destruct (decide (UserModel.Name v = username)) as [Heq | Hne].
    + assert (v = user) as ->.
      { eapply NoDup_map_In_eq; [apply (wf_names _ Hwf) | assumption .. | congruence]. }
      rewrite Hname, lookup_insert_eq in Hlook. rewrite lookup_insert_eq. exact Hlook.
    + rewrite lookup_insert_ne in Hlook by congruence.
      rewrite lookup_insert_ne; [apply Hsync; assumption |].
      intros Heq. apply Hne. rewrite <- Hname. f_equal.
      eapply NoDup_map_In_eq; [apply (wf_ids _ Hwf) | assumption .. | congruence].
  - intros name h Hlook.
    destruct (decide (username = name)) as [<- | Hne]; [eauto |].
    rewrite lookup_insert_ne in Hlook by assumption. eauto.
  - intros k h Hlook.
    destruct (decide (UserModel.ID user = k)) as [<- | Hne]; [eauto |].
    rewrite lookup_insert_ne in Hlook by assumption. eauto.
Qed.

(** Where a call leaves the state, whatever it returns. *)
Lemma hoare_final {E A} P (m : M E A) Q X (R : DB -> Caches -> Prop) w :
  hoare P m Q X -> P (db w) (caches w) ->
  (forall a d c, Q a d c -> R d c) -> (forall d c, X d c -> R d c) ->
  R (db (snd (m w))) (caches (snd (m w))).
Proof.
  intros Hm HP HQ HX. specialize (Hm w HP).
  destruct (m w) as [[a | e | msg] w']; simpl; eauto.
Qed.

Lemma Inv_assembled_on d0 c0 d c : Inv d0 c0 -> assembled_on d0 c0 d c -> Inv d c.
Proof.
  intros HInv [-> [-> | (userModel & user & Hfill)]]; [exact HInv |].
  eapply Inv_fill; [reflexivity | exact HInv | exact Hfill].
Qed.

Lemma serve_Inv w q : Inv (db w) (caches w) -> Inv (db (serve w q)) (caches (serve w q)).
Proof.
  intros HInv. unfold serve. destruct q as [r c e fs]. simpl.
  set (w1 := arrive _ w).
  assert (Hat : at_state (db w) (caches w) (db w1) (caches w1)) by (split; reflexivity).
  destruct r; simpl.
  - eapply hoare_final; [apply getIconHandler_spec | exact Hat | |].
    + intros ? d c' [-> [-> | (user & row & Huser & Hrow & ->)]]; [exact HInv |].
      apply Inv_published; assumption.
    + intros d c' [-> ->]. exact HInv.
  - eapply hoare_final; [apply postIconHandler_spec | exact Hat | |].
    + intros ? d c' (sess & userID & image & _ & _ & -> & ->).
      apply Inv_invalidated, Inv_icon_replaced, HInv.
    + intros d c' [-> ->]. exact HInv.
  - eapply hoare_final; [apply getMeHandler_spec | exact Hat | |].
    + intros ? d c'. apply Inv_assembled_on, HInv.
    + intros d c'. apply Inv_assembled_on, HInv.
  - eapply hoare_final; [apply registerHandler_spec | exact Hat | |].
    + intros ? d c' (req & pw & user & c1 & _ & Hfree & Hfill & _ & -> & ->).
      apply Inv_invalidated, Inv_registered; [| exact Hfree].
      eapply Inv_fill; [| exact HInv | exact Hfill]. reflexivity.
    + intros d c' [-> [-> | (req & pw & user & Hfill)]]; [exact HInv |].
      eapply Inv_fill; [| exact HInv | exact Hfill]. reflexivity.
  - eapply hoare_final; [apply loginHandler_spec | exact Hat | |].
    + intros ? d c' [-> ->]. exact HInv.
    + intros d c' [-> ->]. exact HInv.
  - eapply hoare_final; [apply getUserHandler_spec | exact Hat | |].
    + intros ? d c'. apply Inv_assembled_on, HInv.
    + intros d c'. apply Inv_assembled_on, HInv.
Qed.

Lemma serve_all_Inv qs w :
  Inv (db w) (caches w) -> Inv (db (serve_all qs w)) (caches (serve_all qs w)).
Proof.
  revert w. induction qs as [| q qs IH]; intros w HInv; [exact HInv |].
  simpl. apply IH, serve_Inv, HInv.
Qed.

Lemma reachable_Inv w : reachable w -> Inv (db w) (caches w).
Proof.
  intros (w0 & qs & Hinit & ->). apply serve_all_Inv, initial_Inv, Hinit.
Qed.

(** * The claims *)

(** ** The hash *)

Example sha256_empty :
  iconHash [] = "e3b0c44298fc1c149afbf4c8996fb92427ae41e4649b934ca495991b7852b855".
Proof. vm_compute. reflexivity. Qed.

Example sha256_abc :
  iconHash [x61; x62; x63]
  = "ba7816bf8f01cfea414140de5dae2223b00361a396177a9cb410ff61f20015ad".
Proof. vm_compute. reflexivity. Qed.

(** ** The assembler on a hit and on an unreadable theme *)

(** C4: when the view of a user is in [UserByIDCache], [fillUserResponse]
    returns it and leaves the whole world as it was (no store read is
    logged, no cache is written), so that a second call, whatever
    transaction it is given, returns the identical view. *)
Theorem C4_cache_hit_idempotent tx tx' userModel user w :
  UserByIDCache (caches w) !! UserModel.ID userModel = Some user ->
  fillUserResponse tx userModel w = (Ok user, w) /\
  fillUserResponse tx' userModel (snd (fillUserResponse tx userModel w)) = (Ok user, w).
Proof.
  intros Hhit.
  assert (Hcall : forall t, fillUserResponse t userModel w = (Ok user, w)).
  { intros t. unfold fillUserResponse. unfold_go. rewrite Hhit. reflexivity. }
  split; [apply Hcall |]. rewrite Hcall. simpl. apply Hcall.
Qed.

Lemma C4_cache_hit_idempotent_witness :
  let w := Scenario.after_bob in
  let user := User.Build 2 "bob" "Bob" "" (Theme.Build 2 false)
                (iconHash [xff; xd8; xff]) in
  UserByIDCache (caches w) !! UserModel.ID Scenario.bob = Some user /\
  fillUserResponse Scenario.db0 Scenario.bob w = (Ok user, w) /\
  fillUserResponse Scenario.db0 Scenario.bob
    (snd (fillUserResponse Scenario.db0 Scenario.bob w)) = (Ok user, w).
Proof.
  intros w user.
  assert (H : UserByIDCache (caches w) !! UserModel.ID Scenario.bob = Some user)
    by (vm_compute; reflexivity).
  split; [exact H |].
  exact (C4_cache_hit_idempotent Scenario.db0 Scenario.db0 Scenario.bob user w H).
Defined.

(** C6: when [fillUserResponse] misses [UserByIDCache] and the read of the
    theme row fails with [err], the assembly fails with that same [err]
    right after the read: no view is returned, database and caches are as
    before.  A missing row is such a failure. *)
Theorem C6_theme_unreadable tx userModel w :
  UserByIDCache (caches w) !! UserModel.ID userModel = None ->
  (forall err w1,
     Get_theme_by_user_id tx (UserModel.ID userModel) w = (Fail err, w1) ->
     fillUserResponse tx userModel w = (Fail err, w1) /\
     caches w1 = caches w /\ db w1 = db w) /\
  (theme_row_of tx (UserModel.ID userModel) = None ->
   exists err w1,
     Get_theme_by_user_id tx (UserModel.ID userModel) w = (Fail err, w1) /\
     (faults w = [] -> err = ErrNoRows)).
Proof.
  intros Hmiss. split.
  - intros err w1 Hread. split.
    + unfold fillUserResponse. unfold bind at 1. unfold get_caches at 1.
      rewrite Hmiss. unfold bind at 1. rewrite Hread. reflexivity.
    + pose proof (hoare_call (at_state (db w) (caches w))
                    (fun _ => at_state (db w) (caches w)) (at_state (db w) (caches w))
                    (EvQuery "SELECT * FROM themes WHERE user_id = ?")
                    (first_row (fun t => ThemeModel.UserID t =? UserModel.ID userModel)
                       (themes tx))) as Hcall.
      unfold Get_theme_by_user_id in Hread.
      specialize (Hcall ltac:(eapply hoare_weaken; [apply hoare_first_row | | |];
                              simpl; intuition eauto) ltac:(auto) w (conj eq_refl eq_refl)).
      rewrite Hread in Hcall. destruct Hcall as [-> ->]. auto.
  - unfold theme_row_of. intros Hnone.
    unfold Get_theme_by_user_id. unfold_go. rewrite Hnone.
    destruct (faults w) as [| [msg |] rest]; eauto; eexists _, _; split; eauto; discriminate.
Qed.

Lemma C6_theme_unreadable_witness :
  let w := Scenario.w0 in
  let w1 := set_log [EvQuery "SELECT * FROM themes WHERE user_id = ?"] w in
  UserByIDCache (caches w) !! UserModel.ID Scenario.carol = None /\
  Get_theme_by_user_id Scenario.db0 (UserModel.ID Scenario.carol) w = (Fail ErrNoRows, w1) /\
  fillUserResponse Scenario.db0 Scenario.carol w = (Fail ErrNoRows, w1) /\
  caches w1 = caches w /\ db w1 = db w.
Proof.
  intros w w1.
  assert (H : UserByIDCache (caches w) !! UserModel.ID Scenario.carol = None)
    by reflexivity.
  assert (Hread : Get_theme_by_user_id Scenario.db0 (UserModel.ID Scenario.carol) w
                  = (Fail ErrNoRows, w1)) by reflexivity.
  split; [exact H |]. split; [exact Hread |].
  exact (proj1 (C6_theme_unreadable Scenario.db0 Scenario.carol w H) ErrNoRows w1 Hread).
Defined.

(** ** Registration of the reserved name *)

(** C5: a registration whose decoded name is exactly "pipe" is answered
    with 400 and leaves the world as it was: no transaction is begun (the
    log is unchanged), database and caches are untouched. *)
Theorem C5_pipe_rejected c req w :
  c_user_body c = Some req ->
  PostUserRequest.Name req = "pipe" ->
  registerHandler c w
  = (Fail (NewHTTPError StatusBadRequest "the username 'pipe' is reserved"), w).
Proof.
  intros Hbody Hname. unfold registerHandler. rewrite Hbody.
  unfold bind at 1. unfold ret at 1. rewrite Hname. reflexivity.
Qed.

Lemma C5_pipe_rejected_witness :
  let c := Scenario.ctx_register "pipe" in
  let req := PostUserRequest.Build "pipe" "Dave" "" "pw" false in
  c_user_body c = Some req /\ PostUserRequest.Name req = "pipe" /\
  registerHandler c Scenario.w0
  = (Fail (NewHTTPError StatusBadRequest "the username 'pipe' is reserved"), Scenario.w0).
Proof.
  intros c req. split; [reflexivity |]. split; [reflexivity |].
  exact (C5_pipe_rejected c req Scenario.w0 eq_refl eq_refl).
Defined.

(** ** The conditional icon request *)

Lemma slice_inner_in_bounds s :
  (2 <= String.length s)%nat -> is_Some (slice s 1 (len s - 1)).
Proof.
  intros Hlen. unfold slice, len.
  destruct (0 <=? 1) eqn:H0; [| discriminate].
  destruct (1 <=? Z.of_nat (String.length s) - 1) eqn:H1; [| apply Z.leb_gt in H1; lia].
  destruct (Z.of_nat (String.length s) - 1 <=? Z.of_nat (String.length s)) eqn:H2;
    [| apply Z.leb_gt in H2; lia].
  simpl. eauto.
Qed.

(** With a header of two bytes or more the slice is in bounds, and a match
    with the by-username hash is answered with 304 before any external
    operation: the world is as it was. *)
Lemma getIconHandler_not_modified c w :
  (2 <= String.length (c_if_none_match c))%nat ->
  (exists trimmed,
     slice (c_if_none_match c) 1 (len (c_if_none_match c) - 1) = Some trimmed) /\
  (forall trimmed,
     slice (c_if_none_match c) 1 (len (c_if_none_match c) - 1) = Some trimmed ->
     IconHashByUsernameCache (caches w) !! c_param_username c = Some trimmed ->
     getIconHandler c w = (Ok (NoContent StatusNotModified), w)).
Proof.
  intros Hlen. split; [apply slice_inner_in_bounds, Hlen |].
  intros trimmed Hslice Hcached.
  unfold getIconHandler, getIconHandler_load, ifNoneMatch_hit.
  destruct (c_if_none_match c) as [| a s] eqn:Hs; [simpl in Hlen; lia |].
  change (String.eqb (String a s) "") with false. cbn [negb].
  rewrite Hslice. unfold_go. rewrite Hcached, String.eqb_refl. reflexivity.
Qed.

(** C10, at the input on which the code leaves the bounds: with an
    If-None-Match header of one byte, [ifNoneMatch[1 : len(ifNoneMatch)-1]]
    is the slice [1:0], out of range, and [getIconHandler] panics at line 96
    before it reads any cache or the store. *)
Theorem C10_one_byte_header_panics c w :
  String.length (c_if_none_match c) = 1%nat ->
  slice (c_if_none_match c) 1 (len (c_if_none_match c) - 1) = None /\
  getIconHandler c w = (Panic "slice bounds out of range", w).
Proof.
  intros Hlen.
  destruct (c_if_none_match c) as [| a [| b s]] eqn:Hs; try discriminate Hlen.
  split; [reflexivity |].
  unfold getIconHandler, getIconHandler_load, ifNoneMatch_hit. rewrite Hs. reflexivity.
Qed.

Lemma C10_one_byte_header_panics_witness :
  String.length (c_if_none_match Scenario.ctx_star) = 1%nat /\
  slice "*" 1 (len "*" - 1) = None /\
  getIconHandler Scenario.ctx_star Scenario.w0
  = (Panic "slice bounds out of range", Scenario.w0).
Proof.
  split; [reflexivity |].
  exact (C10_one_byte_header_panics Scenario.ctx_star Scenario.w0 eq_refl).
Defined.

(** ** The session check *)

Lemma verifyUserSession_result c w :
  fst (verifyUserSession c w) =
  match c_session c with
  | None => Fail rejected_no_session
  | Some sess =>
      match Values sess !! defaultSessionExpiresKey with
      | None => Fail rejected_no_expires
      | Some sessionExpires =>
          match as_int64 (Values sess !! defaultUserIDKey) with
          | None => Fail rejected_no_userID
          | Some _ =>
              match sessionExpires with
              | VInt64 expires =>
                  if now_Unix (env w) >? expires then Fail rejected_expired else Ok tt
              | _ => Panic "interface conversion: interface {} is not int64"
              end
          end
      end
  end.
Proof.
  unfold verifyUserSession.
  repeat (unfold_go; case_match; try reflexivity).
Qed.

(** C7, as the code has it: [verifyUserSession] leaves the world as it was
    and its answer does not depend on database or caches; it succeeds
    exactly when the session exists, EXPIRES and USERID are int64 values and
    the current time is at most EXPIRES; the four failing checks give four
    different rejections; and with an EXPIRES value that is absent or an
    int64 the answer is success or one of these rejections. *)
Theorem C7_verifyUserSession c w :
  snd (verifyUserSession c w) = w /\
  (forall d cs,
     fst (verifyUserSession c (set_caches cs (set_db d w))) = fst (verifyUserSession c w)) /\
  (fst (verifyUserSession c w) = Ok tt <-> session_valid c (now_Unix (env w))) /\
  (c_session c = None -> fst (verifyUserSession c w) = Fail rejected_no_session) /\
  (forall sess,
     c_session c = Some sess ->
     Values sess !! defaultSessionExpiresKey = None ->
     fst (verifyUserSession c w) = Fail rejected_no_expires) /\
  (forall sess v,
     c_session c = Some sess ->
     Values sess !! defaultSessionExpiresKey = Some v ->
     as_int64 (Values sess !! defaultUserIDKey) = None ->
     fst (verifyUserSession c w) = Fail rejected_no_userID) /\
  (forall sess expires userID,
     c_session c = Some sess ->
     Values sess !! defaultSessionExpiresKey = Some (VInt64 expires) ->
     Values sess !! defaultUserIDKey = Some (VInt64 userID) ->
     expires < now_Unix (env w) ->
     fst (verifyUserSession c w) = Fail rejected_expired) /\
  NoDup [rejected_no_session; rejected_no_expires; rejected_no_userID; rejected_expired] /\
  (expires_typed c ->
   fst (verifyUserSession c w) = Ok tt \/
   exists e, fst (verifyUserSession c w) = Fail e /\
             In e [rejected_no_session; rejected_no_expires; rejected_no_userID;
                   rejected_expired]).
Proof.
  split; [apply verifyUserSession_world |].
  split; [intros d cs; rewrite !verifyUserSession_result; reflexivity |].
  rewrite verifyUserSession_result. unfold session_valid, expires_typed.
  repeat split.
  - destruct (c_session c) as [sess |]; [| discriminate].
    destruct (Values sess !! defaultSessionExpiresKey) as [v |] eqn:He; [| discriminate].
    destruct (Values sess !! defaultUserIDKey) as [[u | |] |] eqn:Hu; try discriminate.
    simpl. destruct v as [expires | |]; try discriminate.
    destruct (now_Unix (env w) >? expires) eqn:Hnow; [discriminate |].
    intros _. rewrite Z.gtb_ltb in Hnow. apply Z.ltb_ge in Hnow.
    exists sess, expires, u. repeat split; try reflexivity; assumption.
  - intros (sess & expires & u & -> & -> & -> & Hnow). simpl.
    destruct (now_Unix (env w) >? expires) eqn:Hgt; [| reflexivity].
    rewrite Z.gtb_ltb in Hgt. apply Z.ltb_lt in Hgt. lia.
  - intros ->. reflexivity.
  - intros sess -> ->. reflexivity.
  - intros sess v -> -> ->. reflexivity.
  - intros sess expires u -> -> -> Hnow. simpl.
    destruct (now_Unix (env w) >? expires) eqn:Hgt; [reflexivity |].
    rewrite Z.gtb_ltb in Hgt. apply Z.ltb_ge in Hgt. lia.
  - repeat (apply NoDup_cons_2;
            [rewrite ?elem_of_cons, elem_of_nil; intuition discriminate |]).
    apply NoDup_nil_2.
  - intros Htyped.
    destruct (c_session c) as [sess |]; [| right; eexists; split; [reflexivity | simpl; auto]].
    destruct (Values sess !! defaultSessionExpiresKey) as [v |] eqn:He;
      [| right; eexists; split; [reflexivity | simpl; auto]].
    destruct (Htyped sess v eq_refl He) as [expires ->].
    destruct (as_int64 (Values sess !! defaultUserIDKey));
      [| right; eexists; split; [reflexivity | simpl; auto]].
    destruct (now_Unix (env w) >? expires);
      [right; eexists; split; [reflexivity | simpl; auto 6] | left; reflexivity].
Qed.

Lemma C7_verifyUserSession_witness :
  let c := Scenario.ctx_alice in
  let w := Scenario.w0 in
  session_valid c (now_Unix (env w)) /\ expires_typed c /\
  fst (verifyUserSession c w) = Ok tt /\ snd (verifyUserSession c w) = w.
Proof.
  intros c w.
  pose proof (C7_verifyUserSession c w) as (Hworld & _ & Hiff & _).
  assert (Hvalid : session_valid c (now_Unix (env w))).
  { exists (Scenario.session_of 1), 1700003600, 1.
    repeat split; try reflexivity. vm_compute. discriminate. }
  split; [exact Hvalid |]. split.
  - intros sess v [= <-]. vm_compute. intros [= <-]. eauto.
  - split; [apply Hiff, Hvalid | exact Hworld].
Defined.

(** C7, as stated, fails on a session that exists and carries an EXPIRES
    value and an int64 USERID when the EXPIRES value is a string: the
    unchecked assertion of line 446 panics, which is neither success nor a
    rejection. *)
Lemma C7_counterexample :
  c_session Scenario.ctx_odd = Some Scenario.session_odd /\
  is_Some (Values Scenario.session_odd !! defaultSessionExpiresKey) /\
  is_Some (as_int64 (Values Scenario.session_odd !! defaultUserIDKey)) /\
  fst (verifyUserSession Scenario.ctx_odd Scenario.w0) <> Ok tt /\
  (forall e, fst (verifyUserSession Scenario.ctx_odd Scenario.w0) <> Fail e) /\
  fst (verifyUserSession Scenario.ctx_odd Scenario.w0)
  = Panic "interface conversion: interface {} is not int64".
Proof.
  assert (H : fst (verifyUserSession Scenario.ctx_odd Scenario.w0)
              = Panic "interface conversion: interface {} is not int64")
    by (vm_compute; reflexivity).
  rewrite H. repeat split; try discriminate; vm_compute; eauto.
Qed.

(** ** Invalidation after commit *)

Lemma hoare_Ok {E A} P (m : M E A) Q X w a w' :
  hoare P m Q X -> P (db w) (caches w) -> m w = (Ok a, w') -> Q a (db w') (caches w').
Proof. intros Hm HP Hrun. specialize (Hm w HP). rewrite Hrun in Hm. exact Hm. Qed.

Lemma hoare_not_Ok {E A} P (m : M E A) Q X w r w' :
  hoare P m Q X -> P (db w) (caches w) -> m w = (r, w') -> (forall a, r <> Ok a) ->
  X (db w') (caches w').
Proof.
  intros Hm HP Hrun Hr. specialize (Hm w HP). rewrite Hrun in Hm.
  destruct r as [a | e | msg]; [destruct (Hr a eq_refl) | exact Hm | exact Hm].
Qed.

Lemma deleteByOwnerID_lookup userID (m : gmap Z Owned) k e :
  deleteByOwnerID userID m !! k = Some e <-> m !! k = Some e /\ OwnerID e <> userID.
Proof. unfold deleteByOwnerID. apply map_lookup_filter_Some. Qed.

(** What the definition of [invalidates_exactly] says entry by entry: the
    view of [userID] is gone, every other view is as before, and of the
    sibling caches exactly the entries of other owners remain. *)
Lemma invalidates_exactly_entries userID c c' :
  invalidates_exactly userID c c' ->
  UserByIDCache c' !! userID = None /\
  (forall k, k <> userID -> UserByIDCache c' !! k = UserByIDCache c !! k) /\
  (forall k e, LivestreamByIDCache c' !! k = Some e <->
               LivestreamByIDCache c !! k = Some e /\ OwnerID e <> userID) /\
  (forall k e, LivecommentByIDCache c' !! k = Some e <->
               LivecommentByIDCache c !! k = Some e /\ OwnerID e <> userID) /\
  (forall k h, IconHashByUserIDCache c !! k = Some h ->
               IconHashByUserIDCache c' !! k = Some h).
Proof.
  intros (HU & HLs & HLc & _ & Hsub & _). rewrite HU, HLs, HLc.
  split; [apply lookup_delete_eq |].
  split; [intros k Hk; apply lookup_delete_ne; congruence |].
  split; [intros; apply deleteByOwnerID_lookup |].
  split; [intros; apply deleteByOwnerID_lookup |].
  intros k h Hk. eapply lookup_weaken; eassumption.
Qed.

Lemma invalidated_exactly userID c : invalidates_exactly userID c (invalidated userID c).
Proof. unfold invalidates_exactly, invalidated. simpl. repeat split; auto. Qed.

Lemma fill_ok_invalidated tx userModel c0 user c1 :
  fill_ok tx userModel c0 user c1 ->
  invalidates_exactly (UserModel.ID userModel) c0
    (invalidated (UserModel.ID userModel) c1).
Proof.
  intros [[_ ->] | (Hmiss & themeModel & populate & _ & Huser & -> & Hhash)];
    [apply invalidated_exactly |].
  assert (Hid : User.ID user = UserModel.ID userModel) by (rewrite Huser; reflexivity).
  unfold invalidates_exactly, invalidated, assembled. simpl. rewrite Hid.
  split; [apply delete_insert_eq |]. repeat split; try reflexivity.
  - destruct populate; [| reflexivity].
    destruct (IconHashByUserIDCache c0 !! UserModel.ID userModel) eqn:Hc.
    + destruct Hhash as [_ ->]. rewrite insert_id; [reflexivity | exact Hc].
    + apply insert_subseteq, Hc.
  - intros k Hk. destruct populate; [| reflexivity].
    apply lookup_insert_ne. congruence.
Qed.

(** C9: a committed icon replace leaves the caches exactly invalidated for
    the user of the session (the icon-hash maps are identical to before); a
    committed registration leaves them invalidated for the new user ID: the
    view of that ID is deleted, the sibling caches lose the entries owned by
    it, no entry of an icon-hash map is deleted and every entry under
    another key is as before. *)
Theorem C9_invalidation_frame c w response w' :
  (postIconHandler c w = (Ok response, w') ->
   exists sess userID,
     c_session c = Some sess /\
     Values sess !! defaultUserIDKey = Some (VInt64 userID) /\
     invalidates_exactly userID (caches w) (caches w') /\
     IconHashByUserIDCache (caches w') = IconHashByUserIDCache (caches w)) /\
  (registerHandler c w = (Ok response, w') ->
   exists req hashedPassword,
     c_user_body c = Some req /\
     db w' = registered (db w) req hashedPassword /\
     invalidates_exactly (users_auto (db w)) (caches w) (caches w')).
Proof.
  split; intros Hrun.
  - pose proof (hoare_Ok _ _ _ _ _ _ _ (postIconHandler_spec c (db w) (caches w))
                  (conj eq_refl eq_refl) Hrun) as (sess & userID & image & Hs & Hu & _ & ->).
    exists sess, userID.
    split; [exact Hs |]. split; [exact Hu |].
    split; [apply invalidated_exactly | reflexivity].
  - pose proof (hoare_Ok _ _ _ _ _ _ _ (registerHandler_spec c (db w) (caches w))
                  (conj eq_refl eq_refl) Hrun)
      as (req & pw & user & c1 & Hbody & _ & Hfill & _ & -> & ->).
    exists req, pw.
    split; [exact Hbody |]. split; [reflexivity |].
    apply (fill_ok_invalidated _ _ _ _ _ Hfill).
Qed.

Lemma C9_invalidation_frame_witness :
  let w := Scenario.after_bob in
  let w' := snd (postIconHandler Scenario.ctx_alice w) in
  let response := JSON_PostIconResponse StatusCreated 2 in
  let c := Scenario.ctx_register "dave" in
  let w'' := snd (registerHandler c w) in
  let created :=
    JSON_User StatusCreated
      (User.Build 3 "dave" "Dave" "" (Theme.Build 3 false) (iconHash [xff; xd8; xff])) in
  (postIconHandler Scenario.ctx_alice w = (Ok response, w') /\
   exists sess userID,
     c_session Scenario.ctx_alice = Some sess /\
     Values sess !! defaultUserIDKey = Some (VInt64 userID) /\
     invalidates_exactly userID (caches w) (caches w') /\
     IconHashByUserIDCache (caches w') = IconHashByUserIDCache (caches w)) /\
  (registerHandler c w = (Ok created, w'') /\
   exists req hashedPassword,
     c_user_body c = Some req /\
     db w'' = registered (db w) req hashedPassword /\
     invalidates_exactly (users_auto (db w)) (caches w) (caches w'')).
Proof.
  intros w w' response c w'' created.
  assert (Hrun : postIconHandler Scenario.ctx_alice w = (Ok response, w')).
  { unfold w'. destruct (postIconHandler Scenario.ctx_alice w) as [r w1] eqn:Hr.
    simpl. f_equal.
    change r with (fst (r, w1)). rewrite <- Hr. vm_compute. reflexivity. }
  assert (Hreg : registerHandler c w = (Ok created, w'')).
  { unfold w''. destruct (registerHandler c w) as [r w1] eqn:Hr.
    simpl. f_equal.
    change r with (fst (r, w1)). rewrite <- Hr. vm_compute. reflexivity. }
  split.
  - split; [exact Hrun |].
    exact (proj1 (C9_invalidation_frame Scenario.ctx_alice w response w') Hrun).
  - split; [exact Hreg |].
    exact (proj2 (C9_invalidation_frame c w created w'') Hreg).
Defined.

(** ** Requests that do not commit *)

Lemma entries_kept_refl c : entries_kept c c.
Proof. unfold entries_kept. auto. Qed.

Lemma fill_ok_entries_kept tx userModel c0 user c :
  fill_ok tx userModel c0 user c -> entries_kept c0 c.
Proof.
  intros [[_ ->] | (Hmiss & themeModel & populate & _ & Huser & -> & Hhash)];
    [apply entries_kept_refl |].
  assert (Hid : User.ID user = UserModel.ID userModel) by (rewrite Huser; reflexivity).
  unfold entries_kept, assembled. simpl. rewrite Hid.
  split; [apply insert_subseteq, Hmiss |]. repeat split; try reflexivity.
  destruct populate; [| reflexivity].
  destruct (IconHashByUserIDCache c0 !! UserModel.ID userModel) eqn:Hc.
  - destruct Hhash as [_ ->]. rewrite insert_id; [reflexivity | exact Hc].
  - apply insert_subseteq, Hc.
Qed.

(** C3, as the code has it: an icon replace that does not commit leaves
    database and caches exactly as they were; a registration that does not
    commit leaves the database as it was and deletes or overwrites no cache
    entry: every entry of [UserByIDCache] and of the icon-hash maps is still
    served with its value, and the sibling caches are identical. *)
Theorem C3_no_commit_no_invalidation c w r w' :
  (forall response, r <> Ok response) ->
  (postIconHandler c w = (r, w') -> db w' = db w /\ caches w' = caches w) /\
  (registerHandler c w = (r, w') ->
   db w' = db w /\ entries_kept (caches w) (caches w')).
Proof.
  intros Hr. split; intros Hrun.
  - exact (hoare_not_Ok _ _ _ _ _ _ _ (postIconHandler_spec c (db w) (caches w))
             (conj eq_refl eq_refl) Hrun Hr).
  - destruct (hoare_not_Ok _ _ _ _ _ _ _ (registerHandler_spec c (db w) (caches w))
                (conj eq_refl eq_refl) Hrun Hr) as [Hd [-> | (req & pw & user & Hfill)]].
    + split; [exact Hd | apply entries_kept_refl].
    + split; [exact Hd | exact (fill_ok_entries_kept _ _ _ _ _ Hfill)].
Qed.

Lemma C3_no_commit_no_invalidation_witness :
  let w := arrive (MkRequest PostIcon Scenario.ctx_alice Scenario.env0
                     [None; None; None; None; Some "invalid connection"])
             Scenario.after_bob in
  let r := Fail (http500 "failed to commit: " (ErrOther "invalid connection")) in
  let w' := snd (postIconHandler Scenario.ctx_alice w) in
  (forall response, r <> Ok response) /\
  postIconHandler Scenario.ctx_alice w = (r, w') /\
  db w' = db w /\ caches w' = caches w.
Proof.
  intros w r w'.
  assert (Hr : forall response, r <> Ok response) by discriminate.
  assert (Hrun : postIconHandler Scenario.ctx_alice w = (r, w')).
  { unfold w'. destruct (postIconHandler Scenario.ctx_alice w) as [r1 w1] eqn:Hrun.
    simpl. f_equal.
    change r1 with (fst (r1, w1)). rewrite <- Hrun. vm_compute. reflexivity. }
  split; [exact Hr |]. split; [exact Hrun |].
  exact (proj1 (C3_no_commit_no_invalidation Scenario.ctx_alice w r w' Hr) Hrun).
Defined.

(** C3, as stated, fails on a registration whose commit fails: the
    transaction is rolled back, the database is as before, yet
    [UserByIDCache], empty before, now holds the view that the assembler
    composed inside the transaction for the user who was never created. *)
Lemma C3_counterexample :
  let q := MkRequest Register (Scenario.ctx_register "dave") Scenario.env0
             Scenario.commit_fails in
  let w' := serve Scenario.w0 q in
  fst (registerHandler (q_ctx q) (arrive q Scenario.w0))
  = Fail (http500 "failed to commit: " (ErrOther "invalid connection")) /\
  db w' = db Scenario.w0 /\
  UserByIDCache (caches Scenario.w0) !! 3 = None /\
  UserByIDCache (caches w') !! 3
  = Some (User.Build 3 "dave" "Dave" "" (Theme.Build 3 false)
            (iconHash [xff; xd8; xff])) /\
  UserByIDCache (caches w') <> UserByIDCache (caches Scenario.w0).
Proof.
  intros q w'.
  assert (Hnew : UserByIDCache (caches w') !! 3
                 = Some (User.Build 3 "dave" "Dave" "" (Theme.Build 3 false)
                           (iconHash [xff; xd8; xff])))
    by (vm_compute; reflexivity).
  repeat split; try (vm_compute; reflexivity); try exact Hnew.
  intros Heq. rewrite Heq in Hnew. vm_compute in Hnew. discriminate.
Qed.

(** ** The fallback hash *)

Lemma no_icon_no_hash w userID :
  reachable w -> icon_row_of (db w) userID = None ->
  IconHashByUserIDCache (caches w) !! userID = None.
Proof.
  intros Hreach Hnone. apply reachable_Inv in Hreach.
  destruct (IconHashByUserIDCache (caches w) !! userID) as [h |] eqn:Hc; [| reflexivity].
  destruct (inv_icon _ _ Hreach userID h Hc) as [row Hrow]. congruence.
Qed.

(** C2, as the code has it: in every state that the service reaches, for a
    user without a row in [icons], no call of the assembler (in a
    transaction that has not written to [icons]) populates
    [IconHashByUserIDCache] for that user; and a call that misses
    [UserByIDCache] reads the theme row, finds no icon, reads the fallback
    asset and returns the view with the hash of its bytes.  (The view, with
    that hash, then sits in [UserByIDCache].) *)
Theorem C2_fallback_hash_on_miss w tx userModel :
  reachable w ->
  icons tx = icons (db w) ->
  icon_row_of (db w) (UserModel.ID userModel) = None ->
  IconHashByUserIDCache (caches (snd (fillUserResponse tx userModel w)))
    !! UserModel.ID userModel = None /\
  forall themeModel fallback,
    UserByIDCache (caches w) !! UserModel.ID userModel = None ->
    theme_row_of tx (UserModel.ID userModel) = Some themeModel ->
    files (env w) !! fallbackImage = Some fallback ->
    faults w = [] ->
    let user :=
      User.Build (UserModel.ID userModel) (UserModel.Name userModel)
        (UserModel.DisplayName userModel) (UserModel.Description userModel)
        (Theme.Build (ThemeModel.ID themeModel) (ThemeModel.DarkMode themeModel))
        (iconHash fallback) in
    let w' := snd (fillUserResponse tx userModel w) in
    fst (fillUserResponse tx userModel w) = Ok user /\
    IconHashByUserIDCache (caches w') = IconHashByUserIDCache (caches w) /\
    UserByIDCache (caches w') = <[UserModel.ID userModel := user]> (UserByIDCache (caches w)) /\
    log w' = log w ++ [EvQuery "SELECT * FROM themes WHERE user_id = ?";
                       EvQuery "SELECT image FROM icons WHERE user_id = ?";
                       EvReadFile fallbackImage].
Proof.
  intros Hreach Hicons Hnone.
  pose proof (no_icon_no_hash _ _ Hreach Hnone) as Hhash.
  assert (Hnone' : icon_row_of tx (UserModel.ID userModel) = None)
    by (unfold icon_row_of in *; rewrite Hicons; exact Hnone).
  split.
  - pose proof (fillUserResponse_spec tx userModel (db w) (caches w) w
                  (conj eq_refl eq_refl)) as Hspec.
    destruct (fillUserResponse tx userModel w) as [[user | e | msg] w1]; simpl.
    + destruct Hspec as [_ [[_ ->] | (_ & t & populate & _ & _ & -> & Hpop)]];
        [exact Hhash |].
      rewrite Hhash, Hnone' in Hpop. subst populate. exact Hhash.
    + destruct Hspec as [_ ->]. exact Hhash.
    + destruct Hspec as [_ ->]. exact Hhash.
  - intros themeModel fallback Hmiss Htheme Hfile Hfaults.
    unfold icon_row_of, theme_row_of in *.
    unfold fillUserResponse. unfold_go.
    rewrite Hmiss, Hfaults, Htheme. unfold_go.
    rewrite Hhash. unfold_go. rewrite Hnone'. unfold_go. rewrite Hfile. unfold_go.
    repeat split. rewrite <- !app_assoc. reflexivity.
Qed.

Lemma scenario_initial : initial Scenario.w0.
Proof.
  split; [| repeat split].
  split; simpl.
  - repeat (apply NoDup_cons_2; [rewrite ?elem_of_cons, elem_of_nil; intuition discriminate |]).
    apply NoDup_nil_2.
  - repeat (apply NoDup_cons_2; [rewrite ?elem_of_cons, elem_of_nil; intuition discriminate |]).
    apply NoDup_nil_2.
  - repeat (apply Forall_cons; split; [reflexivity |]). apply Forall_nil. trivial.
Defined.

Lemma scenario_after_replace_reachable : reachable Scenario.after_replace.
Proof.
  exists Scenario.w0, [Scenario.get_me; Scenario.post_icon].
  split; [exact scenario_initial | reflexivity].
Defined.

Lemma C2_fallback_hash_on_miss_witness :
  let w := Scenario.after_replace in
  let user := User.Build 2 "bob" "Bob" "" (Theme.Build 2 false)
                (iconHash [xff; xd8; xff]) in
  reachable w /\
  icon_row_of (db w) (UserModel.ID Scenario.bob) = None /\
  UserByIDCache (caches w) !! UserModel.ID Scenario.bob = None /\
  theme_row_of (db w) (UserModel.ID Scenario.bob) = Some (ThemeModel.Build 2 2 false) /\
  files (env w) !! fallbackImage = Some [xff; xd8; xff] /\
  faults w = [] /\
  fst (fillUserResponse (db w) Scenario.bob w) = Ok user /\
  IconHashByUserIDCache (caches (snd (fillUserResponse (db w) Scenario.bob w)))
    !! UserModel.ID Scenario.bob = None.
Proof.
  intros w user.
  assert (Hnone : icon_row_of (db w) (UserModel.ID Scenario.bob) = None)
    by (vm_compute; reflexivity).
  assert (Hmiss : UserByIDCache (caches w) !! UserModel.ID Scenario.bob = None)
    by (vm_compute; reflexivity).
  assert (Htheme : theme_row_of (db w) (UserModel.ID Scenario.bob)
                   = Some (ThemeModel.Build 2 2 false)) by (vm_compute; reflexivity).
  assert (Hfile : files (env w) !! fallbackImage = Some [xff; xd8; xff])
    by (vm_compute; reflexivity).
  assert (Hfaults : faults w = []) by (vm_compute; reflexivity).
  destruct (C2_fallback_hash_on_miss w (db w) Scenario.bob
              scenario_after_replace_reachable eq_refl Hnone)
    as [Hunpopulated Hcall].
  destruct (Hcall _ _ Hmiss Htheme Hfile Hfaults) as [Hret _].
  repeat split; try assumption. exact scenario_after_replace_reachable.
Defined.

(** C2, as stated, fails on the second of two calls for a user without an
    icon: the first call left the view in [UserByIDCache], so the second
    returns it and leaves the world as it was, the log included: the
    fallback asset is not read and nothing is hashed.  Even after the asset
    has changed on disk the call returns the hash of the old bytes. *)
Lemma C2_counterexample :
  let w1 := Scenario.after_bob in
  let user := User.Build 2 "bob" "Bob" "" (Theme.Build 2 false)
                (iconHash [xff; xd8; xff]) in
  icon_row_of Scenario.db0 (UserModel.ID Scenario.bob) = None /\
  fillUserResponse Scenario.db0 Scenario.bob w1 = (Ok user, w1) /\
  files Scenario.env1 !! fallbackImage = Some [xff; xd8; xfe] /\
  fst (fillUserResponse Scenario.db0 Scenario.bob (set_env Scenario.env1 w1)) = Ok user /\
  User.IconHash user <> iconHash [xff; xd8; xfe].
Proof.
  intros w1 user.
  assert (Hhit : UserByIDCache (caches w1) !! UserModel.ID Scenario.bob = Some user)
    by (vm_compute; reflexivity).
  split; [vm_compute; reflexivity |].
  split; [unfold fillUserResponse; unfold_go; rewrite Hhit; reflexivity |].
  split; [vm_compute; reflexivity |].
  split; [unfold fillUserResponse; unfold_go; rewrite Hhit; reflexivity |].
  vm_compute. discriminate.
Qed.

(** ** Freshness after an icon replace *)

(** On a miss of [UserByIDCache] the assembler takes the hash that
    [IconHashByUserIDCache] holds, without a look at the stored icon. *)
Lemma fillUserResponse_reuses_cached_hash tx userModel themeModel hash w :
  UserByIDCache (caches w) !! UserModel.ID userModel = None ->
  theme_row_of tx (UserModel.ID userModel) = Some themeModel ->
  IconHashByUserIDCache (caches w) !! UserModel.ID userModel = Some hash ->
  faults w = [] ->
  fst (fillUserResponse tx userModel w)
  = Ok (User.Build (UserModel.ID userModel) (UserModel.Name userModel)
          (UserModel.DisplayName userModel) (UserModel.Description userModel)
          (Theme.Build (ThemeModel.ID themeModel) (ThemeModel.DarkMode themeModel))
          hash).
Proof.
  unfold theme_row_of. intros Hmiss Htheme Hhash Hfaults.
  unfold fillUserResponse. unfold_go.
  rewrite Hmiss, Hfaults, Htheme. unfold_go. rewrite Hhash. reflexivity.
Qed.

(** C1, at the input on which the code breaks it: alice, whose stored icon
    is 0x01, reads her profile; her icon replace by 0x02 commits and the
    invalidation runs (her view is gone from [UserByIDCache], the store holds
    0x02); the next assembly returns the hash of 0x01, which
    [IconHashByUserIDCache] kept. *)
Theorem C1_stale_icon_hash_after_replace :
  let w := Scenario.after_replace in
  fst (fillUserResponse Scenario.db0 Scenario.alice Scenario.w0)
  = Ok (User.Build 1 "alice" "Alice" "" (Theme.Build 1 true) (iconHash [x01])) /\
  icon_row_of (db w) 1 = Some (IconRow.Build 2 1 [x02]) /\
  UserByIDCache (caches w) !! 1 = None /\
  IconHashByUserIDCache (caches w) !! 1 = Some (iconHash [x01]) /\
  fst (fillUserResponse (db w) Scenario.alice w)
  = Ok (User.Build 1 "alice" "Alice" "" (Theme.Build 1 true) (iconHash [x01])) /\
  iconHash [x01] <> iconHash [x02].
Proof.
  intros w. repeat split; try (vm_compute; reflexivity).
  vm_compute. discriminate.
Qed.

(** ** Agreement of the two icon-hash maps *)

Lemma run_Serve qs w fl :
  run (map Serve qs) (MkSystem w fl) = Some (MkSystem (serve_all qs w) fl).
Proof.
  revert w. induction qs as [| q qs IH]; intros w; [reflexivity |].
  simpl. apply IH.
Qed.

(** Runs without overlap are runs of the overlapping service. *)
Lemma reachable_is_overlapping w : reachable w -> reachable_overlapping (MkSystem w []).
Proof.
  intros (w0 & qs & Hinit & ->). exists w0, (map Serve qs).
  split; [exact Hinit | apply run_Serve].
Qed.

(** An icon fetch served in one piece is its load followed at once by its
    two locked writes. *)
Lemma icon_fetch_in_steps q w :
  q_route q = GetIcon ->
  run [IconLoad q] (MkSystem w []) = Some (MkSystem (serve w q) []) \/
  run [IconLoad q; IconStep 0; IconStep 0] (MkSystem w [])
  = Some (MkSystem (serve w q) []).
Proof.
  intros Hroute.
  assert (Hserve : serve w q = snd (getIconHandler (q_ctx q) (arrive q w)))
    by (unfold serve; rewrite Hroute; reflexivity).
  rewrite Hserve. unfold getIconHandler, bind. simpl.
  destruct (getIconHandler_load (q_ctx q) (arrive q w))
    as [[[response | [user image]] | e | msg] w1]; simpl; auto.
Qed.

(** C8, as the code has it: in every state that the service reaches when it
    serves its requests one at a time, a user of the store for whom both
    icon-hash maps hold a hash has the same hash in both. *)
Theorem C8_icon_hashes_agree w user h1 h2 :
  reachable w ->
  In user (users (db w)) ->
  IconHashByUserIDCache (caches w) !! UserModel.ID user = Some h1 ->
  IconHashByUsernameCache (caches w) !! UserModel.Name user = Some h2 ->
  h1 = h2.
Proof.
  intros Hreach Hin Hid Hname. apply reachable_Inv in Hreach.
  pose proof (inv_sync _ _ Hreach user h2 Hin Hname) as Hsync. congruence.
Qed.

Lemma C8_icon_hashes_agree_witness :
  let w := serve_all [Scenario.get_icon; Scenario.post_icon] Scenario.w0 in
  reachable w /\
  In Scenario.alice (users (db w)) /\
  IconHashByUserIDCache (caches w) !! UserModel.ID Scenario.alice = Some (iconHash [x01]) /\
  IconHashByUsernameCache (caches w) !! UserModel.Name Scenario.alice
  = Some (iconHash [x01]) /\
  iconHash [x01] = iconHash [x01].
Proof.
  intros w.
  assert (Hreach : reachable w).
  { exists Scenario.w0, [Scenario.get_icon; Scenario.post_icon].
    split; [exact scenario_initial | reflexivity]. }
  assert (Hin : In Scenario.alice (users (db w))) by (vm_compute; auto).
  assert (Hid : IconHashByUserIDCache (caches w) !! UserModel.ID Scenario.alice
                = Some (iconHash [x01])) by (vm_compute; reflexivity).
  assert (Hname : IconHashByUsernameCache (caches w) !! UserModel.Name Scenario.alice
                  = Some (iconHash [x01])) by (vm_compute; reflexivity).
  split; [exact Hreach |]. split; [exact Hin |].
  split; [exact Hid |]. split; [exact Hname |].
  exact (C8_icon_hashes_agree w Scenario.alice _ _ Hreach Hin Hid Hname).
Defined.

(** C8, as stated, fails when icon fetches overlap: with the interleaving of
    [Scenario.overlapping_fetches] every request has ended, and for alice
    the by-ID map holds the hash of her new icon and the by-username map the
    hash of the old one. *)
Lemma C8_counterexample :
  exists s,
    reachable_overlapping s /\ inflight s = [] /\
    IconHashByUserIDCache (caches (world s)) !! UserModel.ID Scenario.alice
    = Some (iconHash [x02]) /\
    IconHashByUsernameCache (caches (world s)) !! UserModel.Name Scenario.alice
    = Some (iconHash [x01]) /\
    icon_hashes_diverge (world s).
Proof.
  set (r := run Scenario.overlapping_fetches (MkSystem Scenario.w0 [])).
  assert (Hfl : inflight <$> r = Some []) by (vm_compute; reflexivity).
  assert (Hid : (fun s => IconHashByUserIDCache (caches (world s)) !! 1) <$> r
                = Some (Some (iconHash [x02]))) by (vm_compute; reflexivity).
  assert (Hname : (fun s => IconHashByUsernameCache (caches (world s)) !! "alice") <$> r
                  = Some (Some (iconHash [x01]))) by (vm_compute; reflexivity).
  assert (Husers : (fun s => users (db (world s))) <$> r
                   = Some [Scenario.alice; Scenario.bob]) by (vm_compute; reflexivity).
  destruct r as [s |] eqn:Hr; [| discriminate].
  simpl in Hfl, Hid, Hname, Husers.
  injection Hfl as Hfl. injection Hid as Hid. injection Hname as Hname.
  injection Husers as Husers.
  exists s. split; [exists Scenario.w0, Scenario.overlapping_fetches; split;
                    [exact scenario_initial | exact Hr] |].
  split; [exact Hfl |]. split; [exact Hid |]. split; [exact Hname |].
  exists Scenario.alice, (iconHash [x02]), (iconHash [x01]).
  split; [rewrite Husers; left; reflexivity |].
  split; [exact Hid |]. split; [exact Hname |].
  vm_compute. discriminate.
Qed.

(** * Further properties of the file *)

(** ** The assembler *)

Lemma fill_ok_lookup tx userModel c0 user c :
  fill_ok tx userModel c0 user c ->
  UserByIDCache c !! UserModel.ID userModel = Some user.
Proof.
  intros [[Hhit ->] | (_ & themeModel & populate & _ & Huser & -> & _)]; [exact Hhit |].
  assert (Hid : User.ID user = UserModel.ID userModel) by (rewrite Huser; reflexivity).
  unfold assembled. simpl. rewrite Hid. apply lookup_insert_eq.
Qed.

(** X1: on a miss of both [UserByIDCache] and [IconHashByUserIDCache], with
    a theme row and a stored icon and no failing operation, the assembler
    returns the view that carries the hash of the stored image, and stores
    the hash and the view under the user's ID; it reads the theme and the
    icon, and nothing else. *)
Theorem X1_assemble_stored_icon tx userModel themeModel row w :
  UserByIDCache (caches w) !! UserModel.ID userModel = None ->
  IconHashByUserIDCache (caches w) !! UserModel.ID userModel = None ->
  theme_row_of tx (UserModel.ID userModel) = Some themeModel ->
  icon_row_of tx (UserModel.ID userModel) = Some row ->
  faults w = [] ->
  let user :=
    User.Build (UserModel.ID userModel) (UserModel.Name userModel)
      (UserModel.DisplayName userModel) (UserModel.Description userModel)
      (Theme.Build (ThemeModel.ID themeModel) (ThemeModel.DarkMode themeModel))
      (iconHash (IconRow.Image row)) in
  let w' := snd (fillUserResponse tx userModel w) in
  fst (fillUserResponse tx userModel w) = Ok user /\
  IconHashByUserIDCache (caches w')
  = <[UserModel.ID userModel := iconHash (IconRow.Image row)]>
      (IconHashByUserIDCache (caches w)) /\
  UserByIDCache (caches w') = <[UserModel.ID userModel := user]> (UserByIDCache (caches w)) /\
  db w' = db w /\
  log w' = log w ++ [EvQuery "SELECT * FROM themes WHERE user_id = ?";
                     EvQuery "SELECT image FROM icons WHERE user_id = ?"].
Proof.
  unfold theme_row_of, icon_row_of. intros Hmiss Hhash Htheme Hicon Hfaults.
  unfold fillUserResponse. unfold_go.
  rewrite Hmiss, Hfaults, Htheme. unfold_go.
  rewrite Hhash. unfold_go. rewrite Hicon. unfold_go.
  repeat split. rewrite <- !app_assoc. reflexivity.
Qed.

Lemma X1_assemble_stored_icon_witness :
  let w := Scenario.w0 in
  let user := User.Build 1 "alice" "Alice" "" (Theme.Build 1 true) (iconHash [x01]) in
  UserByIDCache (caches w) !! 1 = None /\
  IconHashByUserIDCache (caches w) !! 1 = None /\
  theme_row_of Scenario.db0 1 = Some (ThemeModel.Build 1 1 true) /\
  icon_row_of Scenario.db0 1 = Some (IconRow.Build 1 1 [x01]) /\
  faults w = [] /\
  fst (fillUserResponse Scenario.db0 Scenario.alice w) = Ok user.
Proof.
  intros w user.
  do 5 (split; [reflexivity |]).
  exact (proj1 (X1_assemble_stored_icon Scenario.db0 Scenario.alice
                  (ThemeModel.Build 1 1 true) (IconRow.Build 1 1 [x01]) w
                  eq_refl eq_refl eq_refl eq_refl eq_refl)).
Defined.

(** X2: after an assembly that returned a view, the next assembly for that
    user, in whatever transaction, returns the same view and leaves the
    world as it is. *)
Theorem X2_assemble_then_hit tx tx' userModel user w w' :
  fillUserResponse tx userModel w = (Ok user, w') ->
  fillUserResponse tx' userModel w' = (Ok user, w').
Proof.
  intros Hrun.
  pose proof (hoare_Ok _ _ _ _ _ _ _ (fillUserResponse_spec tx userModel (db w) (caches w))
                (conj eq_refl eq_refl) Hrun) as [_ Hfill].
  apply fill_ok_lookup in Hfill.
  unfold fillUserResponse. unfold_go. rewrite Hfill. reflexivity.
Qed.

Lemma X2_assemble_then_hit_witness :
  let user := User.Build 1 "alice" "Alice" "" (Theme.Build 1 true) (iconHash [x01]) in
  let w' := snd (fillUserResponse Scenario.db0 Scenario.alice Scenario.w0) in
  fillUserResponse Scenario.db0 Scenario.alice Scenario.w0 = (Ok user, w') /\
  fillUserResponse Scenario.db0 Scenario.alice w' = (Ok user, w').
Proof.
  intros user w'.
  assert (Hrun : fillUserResponse Scenario.db0 Scenario.alice Scenario.w0 = (Ok user, w')).
  { unfold w'. destruct (fillUserResponse Scenario.db0 Scenario.alice Scenario.w0)
      as [r w1] eqn:Hr.
    simpl. f_equal. change r with (fst (r, w1)). rewrite <- Hr. vm_compute. reflexivity. }
  split; [exact Hrun |].
  exact (X2_assemble_then_hit Scenario.db0 Scenario.db0 Scenario.alice user
           Scenario.w0 w' Hrun).
Defined.

Lemma fillUserResponse_no_panic tx userModel w msg :
  fst (fillUserResponse tx userModel w) <> Panic msg.
Proof.
  unfold fillUserResponse. split_go; discriminate.
Qed.

(** X3: the assembler never panics, and when it returns an error it has
    written nothing: database and caches are as they were before the
    call. *)
Theorem X3_assemble_error_writes_nothing tx userModel w :
  (forall msg, fst (fillUserResponse tx userModel w) <> Panic msg) /\
  (forall err w',
     fillUserResponse tx userModel w = (Fail err, w') ->
     db w' = db w /\ caches w' = caches w).
Proof.
  split; [intros msg; apply fillUserResponse_no_panic |].
  intros err w' Hrun.
  refine (hoare_not_Ok _ _ _ _ _ _ _ (fillUserResponse_spec tx userModel (db w) (caches w))
            (conj eq_refl eq_refl) Hrun _).
  discriminate.
Qed.

Lemma X3_assemble_error_writes_nothing_witness :
  let w := set_faults [None; Some "bad connection"] Scenario.w0 in
  let w' := snd (fillUserResponse Scenario.db0 Scenario.alice w) in
  fillUserResponse Scenario.db0 Scenario.alice w = (Fail (ErrOther "bad connection"), w') /\
  db w' = db w /\ caches w' = caches w.
Proof.
  intros w w'.
  assert (Hrun : fillUserResponse Scenario.db0 Scenario.alice w
                 = (Fail (ErrOther "bad connection"), w')).
  { unfold w'. destruct (fillUserResponse Scenario.db0 Scenario.alice w) as [r w1] eqn:Hr.
    simpl. f_equal. change r with (fst (r, w1)). rewrite <- Hr. vm_compute. reflexivity. }
  split; [exact Hrun |].
  exact (proj2 (X3_assemble_error_writes_nothing Scenario.db0 Scenario.alice w) _ _ Hrun).
Defined.

(** X4: whatever it returns, the assembler leaves the database, the
    by-username map and the sibling caches as they were, and neither
    deletes nor overwrites an entry of [UserByIDCache] or of
    [IconHashByUserIDCache]. *)
Theorem X4_assemble_frame tx userModel w :
  let w' := snd (fillUserResponse tx userModel w) in
  db w' = db w /\ entries_kept (caches w) (caches w').
Proof.
  simpl.
  refine (hoare_final _ _ _ _ (fun d c => d = db w /\ entries_kept (caches w) c) w
            (fillUserResponse_spec tx userModel (db w) (caches w))
            (conj eq_refl eq_refl) _ _).
  - intros user d c [-> Hfill]. split; [reflexivity |].
    exact (fill_ok_entries_kept _ _ _ _ _ Hfill).
  - intros d c [-> ->]. split; [reflexivity | apply entries_kept_refl].
Qed.

(** ** What every request keeps *)

(** A property of database and caches that the five ways in which the
    handlers change them keep is kept by every request. *)
Lemma serve_preserves (P : DB -> Caches -> Prop) :
  (forall d c tx userModel user c',
     P d c -> icons tx = icons d -> fill_ok tx userModel c user c' -> P d c') ->
  (forall d c userID, P d c -> P d (invalidated userID c)) ->
  (forall d c userID image,
     P d c -> P (icon_inserted (icons_deleted d userID) userID image) c) ->
  (forall d c req hashedPassword,
     P d c -> name_taken d (PostUserRequest.Name req) = false ->
     P (registered d req hashedPassword) c) ->
  (forall d c username user row,
     P d c ->
     List.find (fun u => String.eqb (UserModel.Name u) username) (users d) = Some user ->
     icon_row_of d (UserModel.ID user) = Some row ->
     P d (icon_published c username (UserModel.ID user) (iconHash (IconRow.Image row)))) ->
  forall w q, P (db w) (caches w) -> P (db (serve w q)) (caches (serve w q)).
Proof.
  intros Hfill Hinv Hicon Hreg Hpub w q HP.
  assert (Hasm : forall d c, assembled_on (db w) (caches w) d c -> P d c).
  { intros d c [-> [-> | (userModel & user & Hok)]]; [exact HP |].
    eapply Hfill; [exact HP | reflexivity | exact Hok]. }
  unfold serve. destruct q as [r c e fs]. simpl.
  set (w1 := arrive _ w).
  assert (Hat : at_state (db w) (caches w) (db w1) (caches w1)) by (split; reflexivity).
  destruct r; simpl.
  - eapply hoare_final; [apply getIconHandler_spec | exact Hat | |].
    + intros ? d c' [-> [-> | (user & row & Huser & Hrow & ->)]]; [exact HP |].
      apply Hpub; assumption.
    + intros d c' [-> ->]. exact HP.
  - eapply hoare_final; [apply postIconHandler_spec | exact Hat | |].
    + intros ? d c' (sess & userID & image & _ & _ & -> & ->).
      apply Hinv, Hicon, HP.
    + intros d c' [-> ->]. exact HP.
  - eapply hoare_final; [apply getMeHandler_spec | exact Hat | |]; [intros ? | ]; exact Hasm.
  - eapply hoare_final; [apply registerHandler_spec | exact Hat | |].
    + intros ? d c' (req & pw & user & c1 & _ & Hfree & Hok & _ & -> & ->).
      apply Hinv, Hreg; [| exact Hfree].
      eapply Hfill; [exact HP | | exact Hok]. reflexivity.
    + intros d c' [-> [-> | (req & pw & user & Hok)]]; [exact HP |].
      eapply Hfill; [exact HP | | exact Hok]. reflexivity.
  - eapply hoare_final; [apply loginHandler_spec | exact Hat | |].
    + intros ? d c' [-> ->]. exact HP.
    + intros d c' [-> ->]. exact HP.
  - eapply hoare_final; [apply getUserHandler_spec | exact Hat | |]; [intros ? | ]; exact Hasm.
Qed.

Lemma coherent_keys_fill tx userModel c user c' :
  coherent_keys c -> fill_ok tx userModel c user c' -> coherent_keys c'.
Proof.
  intros Hc [[_ ->] | (_ & themeModel & populate & _ & Huser & -> & _)]; [exact Hc |].
  intros k v. unfold assembled. simpl.
  destruct (decide (User.ID user = k)) as [<- | Hne].
  - rewrite lookup_insert_eq. now intros [= <-].
  - rewrite lookup_insert_ne by assumption. apply Hc.
Qed.

Lemma serve_coherent_keys w q :
  coherent_keys (caches w) -> coherent_keys (caches (serve w q)).
Proof.
  apply (serve_preserves (fun _ c => coherent_keys c)); try (intros; assumption).
  - intros d c tx userModel user c' Hc _ Hok. eapply coherent_keys_fill; eassumption.
  - intros d c userID Hc k v. unfold invalidated. simpl.
    intros Hk. apply lookup_delete_Some in Hk as [_ Hk]. exact (Hc k v Hk).
Qed.

(** X5: in every state that the service reaches, each view of
    [UserByIDCache] is stored under the ID that it carries. *)
Theorem X5_cached_views_under_own_ID w k v :
  reachable w -> UserByIDCache (caches w) !! k = Some v -> User.ID v = k.
Proof.
  intros (w0 & qs & (_ & HU & _) & ->). revert k v.
  change (coherent_keys (caches (serve_all qs w0))).
  assert (H0 : coherent_keys (caches w0)).
  { intros k v. rewrite HU, lookup_empty. discriminate. }
  clear HU. revert w0 H0. induction qs as [| q qs IH]; intros w0 H0; [exact H0 |].
  simpl. apply IH, serve_coherent_keys, H0.
Qed.

Lemma X5_cached_views_under_own_ID_witness :
  let w := serve_all [Scenario.get_me] Scenario.w0 in
  let v := User.Build 1 "alice" "Alice" "" (Theme.Build 1 true) (iconHash [x01]) in
  reachable w /\ UserByIDCache (caches w) !! 1 = Some v /\ User.ID v = 1.
Proof.
  intros w v.
  assert (Hreach : reachable w).
  { exists Scenario.w0, [Scenario.get_me]. split; [exact scenario_initial | reflexivity]. }
  assert (Hv : UserByIDCache (caches w) !! 1 = Some v) by (vm_compute; reflexivity).
  split; [exact Hreach |]. split; [exact Hv |].
  exact (X5_cached_views_under_own_ID w 1 v Hreach Hv).
Defined.

(** ** The loop of fillUserResponseBulk *)

Lemma fill_ok_ID tx userModel c user c' :
  coherent_keys c -> fill_ok tx userModel c user c' ->
  User.ID user = UserModel.ID userModel.
Proof.
  intros Hc [[Hhit _] | (_ & themeModel & populate & _ & Huser & _)].
  - exact (Hc _ _ Hhit).
  - rewrite Huser. reflexivity.
Qed.

(** X6: when every cached view sits under its own ID (as in every state the
    service reaches), a bulk assembly that succeeds returns one view per
    row, in the order of the rows, each with the ID of its row. *)
Theorem X6_bulk_one_view_per_row tx userModels users w w' :
  coherent_keys (caches w) ->
  fillUserResponseBulk tx userModels w = (Ok users, w') ->
  map User.ID users = map UserModel.ID userModels /\ coherent_keys (caches w').
Proof.
  revert users w w'. induction userModels as [| userModel rest IH]; intros users w w' Hc.
  - simpl. intros [= <- <-]. split; [reflexivity | exact Hc].
  - simpl. unfold bind at 1.
    pose proof (fillUserResponse_spec tx userModel (db w) (caches w) w
                  (conj eq_refl eq_refl)) as Hspec.
    destruct (fillUserResponse tx userModel w) as [[user | e | msg] w1]; try discriminate.
    destruct Hspec as [_ Hok].
    unfold bind at 1.
    destruct (fillUserResponseBulk tx rest w1) as [[views | e | msg] w2] eqn:Hrest;
      try discriminate.
    intros [= <- <-].
    destruct (IH views w1 w2 (coherent_keys_fill _ _ _ _ _ Hc Hok) Hrest) as [Hids Hc2].
    split; [| exact Hc2]. simpl. rewrite Hids. f_equal.
    exact (fill_ok_ID _ _ _ _ _ Hc Hok).
Qed.

Lemma X6_bulk_one_view_per_row_witness :
  let rows := [Scenario.bob; Scenario.alice; Scenario.bob] in
  let w' := snd (fillUserResponseBulk Scenario.db0 rows Scenario.w0) in
  let alice := User.Build 1 "alice" "Alice" "" (Theme.Build 1 true) (iconHash [x01]) in
  let bob := User.Build 2 "bob" "Bob" "" (Theme.Build 2 false) (iconHash [xff; xd8; xff]) in
  coherent_keys (caches Scenario.w0) /\
  fillUserResponseBulk Scenario.db0 rows Scenario.w0 = (Ok [bob; alice; bob], w') /\
  map User.ID [bob; alice; bob] = map UserModel.ID rows.
Proof.
  intros rows w' alice bob.
  assert (Hc : coherent_keys (caches Scenario.w0)).
  { intros k v. simpl. rewrite lookup_empty. discriminate. }
  assert (Hrun : fillUserResponseBulk Scenario.db0 rows Scenario.w0
                 = (Ok [bob; alice; bob], w')).
  { unfold w'. destruct (fillUserResponseBulk Scenario.db0 rows Scenario.w0)
      as [r w1] eqn:Hr.
    simpl. f_equal. change r with (fst (r, w1)). rewrite <- Hr. vm_compute. reflexivity. }
  split; [exact Hc |]. split; [exact Hrun |].
  exact (proj1 (X6_bulk_one_view_per_row Scenario.db0 rows [bob; alice; bob]
                  Scenario.w0 w' Hc Hrun)).
Defined.

(** X7: the bulk assembly of a list in two pieces is the bulk assembly of
    the first piece followed by that of the second on the world the first
    left, the views appended; so it stops at the first row whose assembly
    fails, with the views of the rows before it left in the cache. *)
Theorem X7_bulk_app tx l1 l2 w :
  fillUserResponseBulk tx (l1 ++ l2) w
  = (views1 <- fillUserResponseBulk tx l1 ;;
     views2 <- fillUserResponseBulk tx l2 ;;
     ret (views1 ++ views2)) w.
Proof.
  revert w. induction l1 as [| userModel rest IH]; intros w.
  - simpl. unfold bind, ret.
    destruct (fillUserResponseBulk tx l2 w) as [[views | e | msg] w1]; reflexivity.
  - simpl. unfold bind, ret in *.
    destruct (fillUserResponse tx userModel w) as [[user | e | msg] w1]; try reflexivity.
    rewrite IH.
    destruct (fillUserResponseBulk tx rest w1) as [[views1 | e | msg] w2]; try reflexivity.
    destruct (fillUserResponseBulk tx l2 w2) as [[views2 | e | msg] w3]; reflexivity.
Qed.

(** X8: when the view of every row is in [UserByIDCache], the bulk assembly
    returns these views in the order of the rows and leaves the world as it
    was: no store read, no cache write. *)
Theorem X8_bulk_all_hits tx userModels views w :
  Forall2 (fun userModel view =>
             UserByIDCache (caches w) !! UserModel.ID userModel = Some view)
    userModels views ->
  fillUserResponseBulk tx userModels w = (Ok views, w).
Proof.
  induction 1 as [| userModel view rest views' Hhit _ IH]; [reflexivity |].
  simpl. unfold bind at 1.
  assert (Hone : fillUserResponse tx userModel w = (Ok view, w)).
  { unfold fillUserResponse. unfold_go. rewrite Hhit. reflexivity. }
  rewrite Hone. unfold bind at 1. rewrite IH. reflexivity.
Qed.

Lemma X8_bulk_all_hits_witness :
  let w := Scenario.after_bob in
  let bob := User.Build 2 "bob" "Bob" "" (Theme.Build 2 false) (iconHash [xff; xd8; xff]) in
  Forall2 (fun userModel view =>
             UserByIDCache (caches w) !! UserModel.ID userModel = Some view)
    [Scenario.bob; Scenario.bob] [bob; bob] /\
  fillUserResponseBulk Scenario.db0 [Scenario.bob; Scenario.bob] w = (Ok [bob; bob], w).
Proof.
  intros w bob.
  assert (Hhit : UserByIDCache (caches w) !! UserModel.ID Scenario.bob = Some bob)
    by (vm_compute; reflexivity).
  assert (Hall : Forall2 (fun userModel view =>
                            UserByIDCache (caches w) !! UserModel.ID userModel = Some view)
                   [Scenario.bob; Scenario.bob] [bob; bob]).
  { repeat (apply List.Forall2_cons; [exact Hhit |]). apply List.Forall2_nil. }
  split; [exact Hall |].
  exact (X8_bulk_all_hits Scenario.db0 _ _ w Hall).
Defined.

(** ** The icon fetch *)

Lemma bind_Ok {E A B} (m : M E A) (k : A -> M E B) w a w1 :
  m w = (Ok a, w1) -> bind m k w = k a w1.
Proof. intros H. unfold bind. rewrite H. reflexivity. Qed.

Lemma bind_Fail {E A B} (m : M E A) (k : A -> M E B) w e w1 :
  m w = (Fail e, w1) -> bind m k w = (Fail e, w1).
Proof. intros H. unfold bind. rewrite H. reflexivity. Qed.

Lemma bind_bind_Ok {E A B C} (m : M E A) (k0 : A -> M E B) (k : B -> M E C) w a w1 :
  m w = (Ok a, w1) -> bind (bind m k0) k w = bind (k0 a) k w1.
Proof. intros H. unfold bind. rewrite H. reflexivity. Qed.

Lemma ifNoneMatch_miss_run c w :
  fst (ifNoneMatch_hit c w) = Ok false -> ifNoneMatch_hit c w = (Ok false, w).
Proof.
  intros H. pose proof (ifNoneMatch_hit_world c w) as Hw.
  destruct (ifNoneMatch_hit c w) as [r w1]. simpl in *. congruence.
Qed.

Lemma ifNoneMatch_no_header c w :
  c_if_none_match c = "" -> fst (ifNoneMatch_hit c w) = Ok false.
Proof. intros H. unfold ifNoneMatch_hit. rewrite H. reflexivity. Qed.

(** X9: an icon fetch that is not answered 304, for a user who is in the
    store with an icon, when no operation fails: the answer is the stored
    image as image/jpeg with status 200, both icon-hash maps hold the hash
    of that image (under the requested name and under the user's ID), the
    database is as before, and the store was asked for the user and for the
    icon and nothing else. *)
Theorem X9_icon_fetch_caches_hash c user row w :
  fst (ifNoneMatch_hit c w) = Ok false ->
  List.find (fun u => String.eqb (UserModel.Name u) (c_param_username c)) (users (db w))
  = Some user ->
  icon_row_of (db w) (UserModel.ID user) = Some row ->
  faults w = [] ->
  let w' := snd (getIconHandler c w) in
  fst (getIconHandler c w) = Ok (Blob StatusOK "image/jpeg" (IconRow.Image row)) /\
  caches w' = icon_published (caches w) (c_param_username c) (UserModel.ID user)
                (iconHash (IconRow.Image row)) /\
  db w' = db w /\
  log w' = log w ++ [EvBegin; EvQuery "SELECT * FROM users WHERE name = ?";
                     EvQuery "SELECT image FROM icons WHERE user_id = ?"].
Proof.
  unfold icon_row_of. intros Hmiss Huser Hrow Hfaults.
  apply ifNoneMatch_miss_run in Hmiss.
  unfold getIconHandler, getIconHandler_load. cbv zeta.
  rewrite (bind_bind_Ok _ _ _ _ _ _ Hmiss).
  unfold_go. rewrite Hfaults. unfold_go. rewrite Huser. unfold_go. rewrite Hrow.
  unfold_go. unfold icon_published.
  repeat split. rewrite <- !app_assoc. reflexivity.
Qed.

Lemma X9_icon_fetch_caches_hash_witness :
  let c := Tour.ctx_icon "alice" "" in
  let w := Scenario.w0 in
  fst (ifNoneMatch_hit c w) = Ok false /\
  List.find (fun u => String.eqb (UserModel.Name u) "alice") (users (db w))
  = Some Scenario.alice /\
  icon_row_of (db w) 1 = Some (IconRow.Build 1 1 [x01]) /\
  faults w = [] /\
  fst (getIconHandler c w) = Ok (Blob StatusOK "image/jpeg" [x01]) /\
  caches (snd (getIconHandler c w))
  = icon_published (caches w) "alice" 1 (iconHash [x01]).
Proof.
  intros c w.
  do 4 (split; [reflexivity |]).
  destruct (X9_icon_fetch_caches_hash c Scenario.alice (IconRow.Build 1 1 [x01]) w
              eq_refl eq_refl eq_refl eq_refl) as (Hr & Hc & _).
  split; [exact Hr | exact Hc].
Defined.

Lemma substring_prefix h s :
  substring 0 (String.length h) (h +:+ s) = h.
Proof.
  induction h as [| a h IH]; simpl.
  - destruct s; reflexivity.
  - rewrite IH. reflexivity.
Qed.

Lemma length_append h s :
  String.length (h +:+ s) = (String.length h + String.length s)%nat.
Proof. induction h as [| a h IH]; simpl; [reflexivity | now rewrite IH]. Qed.

Lemma slice_strips_ends a b h :
  let header := String a (h +:+ String b "") in
  slice header 1 (len header - 1) = Some h.
Proof.
  simpl. unfold slice, len. simpl String.length. rewrite length_append. simpl.
  replace (Z.of_nat (S (String.length h + 1)) - 1) with (Z.of_nat (String.length h) + 1)
    by lia.
  destruct (0 <=? 1) eqn:H0; [| discriminate].
  destruct (1 <=? Z.of_nat (String.length h) + 1) eqn:H1; [| apply Z.leb_gt in H1; lia].
  destruct (Z.of_nat (String.length h) + 1 <=? Z.of_nat (S (String.length h + 1))) eqn:H2;
    [| apply Z.leb_gt in H2; lia].
  simpl. f_equal.
  replace (Z.to_nat (Z.of_nat (String.length h) + 1 - 1)) with (String.length h) by lia.
  change (Z.to_nat 1) with 1%nat. simpl. apply substring_prefix.
Qed.

(** X10: the If-None-Match header is compared with the cached hash after its
    first and its last byte are dropped, whatever these bytes are: a header
    that is the by-username hash between two bytes (the double quotes of an
    entity tag, say) is answered 304 Not Modified, and the world is as it
    was (no transaction, no read, no write). *)
Theorem X10_etag_not_modified c a b hash w :
  c_if_none_match c = String a (hash +:+ String b "") ->
  IconHashByUsernameCache (caches w) !! c_param_username c = Some hash ->
  getIconHandler c w = (Ok (NoContent StatusNotModified), w).
Proof.
  intros Hheader Hcached.
  unfold getIconHandler, getIconHandler_load, ifNoneMatch_hit. rewrite Hheader.
  change (String.eqb (String a (hash +:+ String b "")) "") with false. cbn [negb].
  rewrite (slice_strips_ends a b hash). unfold_go.
  rewrite Hcached, String.eqb_refl. reflexivity.
Qed.

Lemma X10_etag_not_modified_witness :
  let hash := iconHash [x01] in
  let quote := ascii_of_N 34 in
  let c := Tour.ctx_icon "alice" (String quote (hash +:+ String quote "")) in
  let w := Tour.after_fetch in
  IconHashByUsernameCache (caches w) !! "alice" = Some hash /\
  getIconHandler c w = (Ok (NoContent StatusNotModified), w).
Proof.
  intros hash quote c w.
  assert (Hcached : IconHashByUsernameCache (caches w) !! "alice" = Some hash)
    by (vm_compute; reflexivity).
  split; [exact Hcached |].
  exact (X10_etag_not_modified c quote quote hash w eq_refl Hcached).
Defined.

(** X11: an icon fetch for a name that no user has, when no operation
    fails, is answered 404, and database and caches are as they were. *)
Theorem X11_icon_fetch_unknown_user c w :
  fst (ifNoneMatch_hit c w) = Ok false ->
  List.find (fun u => String.eqb (UserModel.Name u) (c_param_username c)) (users (db w))
  = None ->
  faults w = [] ->
  let w' := snd (getIconHandler c w) in
  fst (getIconHandler c w)
  = Fail (NewHTTPError StatusNotFound "not found user that has the given username") /\
  caches w' = caches w /\ db w' = db w.
Proof.
  intros Hmiss Huser Hfaults.
  apply ifNoneMatch_miss_run in Hmiss.
  unfold getIconHandler, getIconHandler_load. cbv zeta.
  rewrite (bind_bind_Ok _ _ _ _ _ _ Hmiss).
  unfold_go. rewrite Hfaults. unfold_go. rewrite Huser. unfold_go.
  repeat split.
Qed.

Lemma X11_icon_fetch_unknown_user_witness :
  let c := Tour.ctx_icon "ghost" "" in
  let w := Scenario.w0 in
  fst (ifNoneMatch_hit c w) = Ok false /\
  List.find (fun u => String.eqb (UserModel.Name u) "ghost") (users (db w)) = None /\
  faults w = [] /\
  fst (getIconHandler c w)
  = Fail (NewHTTPError StatusNotFound "not found user that has the given username") /\
  caches (snd (getIconHandler c w)) = caches w.
Proof.
  intros c w.
  do 3 (split; [reflexivity |]).
  destruct (X11_icon_fetch_unknown_user c w eq_refl eq_refl eq_refl) as (Hr & Hc & _).
  split; [exact Hr | exact Hc].
Defined.



(** X13: whatever an icon fetch returns (a panic included), it leaves the
    database, [UserByIDCache] and the sibling caches as they were, and it
    changes no by-username entry but that of the requested name. *)
Theorem X13_icon_fetch_frame c w :
  let w' := snd (getIconHandler c w) in
  db w' = db w /\
  UserByIDCache (caches w') = UserByIDCache (caches w) /\
  LivestreamByIDCache (caches w') = LivestreamByIDCache (caches w) /\
  LivecommentByIDCache (caches w') = LivecommentByIDCache (caches w) /\
  (forall name, name <> c_param_username c ->
     IconHashByUsernameCache (caches w') !! name
     = IconHashByUsernameCache (caches w) !! name).
Proof.
  simpl.
  refine (hoare_final _ _ _ _
            (fun d c' =>
               d = db w /\
               UserByIDCache c' = UserByIDCache (caches w) /\
               LivestreamByIDCache c' = LivestreamByIDCache (caches w) /\
               LivecommentByIDCache c' = LivecommentByIDCache (caches w) /\
               (forall name, name <> c_param_username c ->
                  IconHashByUsernameCache c' !! name
                  = IconHashByUsernameCache (caches w) !! name)) w
            (getIconHandler_spec c (db w) (caches w)) (conj eq_refl eq_refl) _ _).
  - intros ? d c' [-> [-> | (user & row & _ & _ & ->)]]; [repeat split |].
    unfold icon_published. simpl. repeat split.
    intros name Hname. apply lookup_insert_ne. congruence.
  - intros d c' [-> ->]. repeat split.
Qed.

(** ** The icon replace *)

Lemma verifyUserSession_run c w sess expires userID :
  c_session c = Some sess ->
  Values sess !! defaultSessionExpiresKey = Some (VInt64 expires) ->
  Values sess !! defaultUserIDKey = Some (VInt64 userID) ->
  now_Unix (env w) <= expires ->
  verifyUserSession c w = (Ok tt, w) /\
  session_userID (E := HTTPError) c w = (Ok userID, w).
Proof.
  intros Hs He Hu Hnow. split.
  - pose proof (verifyUserSession_result c w) as Hr.
    pose proof (verifyUserSession_world c w) as Hw.
    rewrite Hs, He, Hu in Hr. simpl in Hr.
    destruct (now_Unix (env w) >? expires) eqn:Hgt.
    + rewrite Z.gtb_ltb in Hgt. apply Z.ltb_lt in Hgt. lia.
    + destruct (verifyUserSession c w) as [r w1]. simpl in *. congruence.
  - unfold session_userID. rewrite Hs, Hu. reflexivity.
Qed.

Lemma verifyUserSession_rejects c w e :
  fst (verifyUserSession c w) = Fail e -> verifyUserSession c w = (Fail e, w).
Proof.
  intros Hr. pose proof (verifyUserSession_world c w) as Hw.
  destruct (verifyUserSession c w) as [r w1]. simpl in *. congruence.
Qed.

Lemma icons_of_replaced_same d userID image :
  icons_of (icon_inserted (icons_deleted d userID) userID image) userID
  = [IconRow.Build (icons_auto d) userID image].
Proof.
  unfold icons_of, icon_inserted, icons_deleted. simpl.
  rewrite List.filter_app. simpl. rewrite Z.eqb_refl.
  replace (List.filter (fun i => IconRow.UserID i =? userID)
             (List.filter (fun i => negb (IconRow.UserID i =? userID)) (icons d)))
    with (@nil IconRow.t); [reflexivity |].
  induction (icons d) as [| i l IH]; [reflexivity |]. simpl.
  destruct (IconRow.UserID i =? userID) eqn:Hi; simpl; [exact IH |].
  rewrite Hi. exact IH.
Qed.

Lemma icons_of_replaced_other d userID image other :
  other <> userID ->
  icons_of (icon_inserted (icons_deleted d userID) userID image) other = icons_of d other.
Proof.
  intros Hne. unfold icons_of, icon_inserted, icons_deleted. simpl.
  rewrite List.filter_app. simpl.
  replace (userID =? other) with false by (symmetry; apply Z.eqb_neq; congruence).
  rewrite app_nil_r.
  induction (icons d) as [| i l IH]; [reflexivity |]. simpl.
  destruct (IconRow.UserID i =? userID) eqn:Hi; simpl.
  - apply Z.eqb_eq in Hi.
    replace (IconRow.UserID i =? other) with false
      by (symmetry; apply Z.eqb_neq; congruence).
    exact IH.
  - destruct (IconRow.UserID i =? other); [f_equal |]; exact IH.
Qed.

(** X14: an icon replace with a valid session and a decoded body, when no
    operation fails: the answer is 201 with the key of the new row; the
    store then holds exactly one icon row of the user, the new image,
    whatever it held before (delete before insert), and the rows of every
    other user as before; the caches are invalidated for the user. *)
Theorem X14_icon_replace c sess expires userID req w :
  c_session c = Some sess ->
  Values sess !! defaultSessionExpiresKey = Some (VInt64 expires) ->
  Values sess !! defaultUserIDKey = Some (VInt64 userID) ->
  now_Unix (env w) <= expires ->
  c_icon_body c = Some (Some req) ->
  faults w = [] ->
  let w' := snd (postIconHandler c w) in
  fst (postIconHandler c w) = Ok (JSON_PostIconResponse StatusCreated (icons_auto (db w))) /\
  icons_of (db w') userID
  = [IconRow.Build (icons_auto (db w)) userID (PostIconRequest.Image req)] /\
  (forall other, other <> userID -> icons_of (db w') other = icons_of (db w) other) /\
  users (db w') = users (db w) /\ themes (db w') = themes (db w) /\
  caches w' = invalidated userID (caches w).
Proof.
  intros Hs He Hu Hnow Hbody Hfaults.
  destruct (verifyUserSession_run c w sess expires userID Hs He Hu Hnow) as [Hv Hid].
  assert (Hrun : postIconHandler c w
                 = (Ok (JSON_PostIconResponse StatusCreated (icons_auto (db w))),
                    MkWorld (icon_inserted (icons_deleted (db w) userID) userID
                               (PostIconRequest.Image req))
                      (invalidated userID (caches w)) (env w) []
                      (log w ++ [EvBegin; EvExec "DELETE FROM icons WHERE user_id = ?";
                                 EvExec "INSERT INTO icons (user_id, image) VALUES (?, ?)";
                                 EvLastInsertId; EvCommit]))).
  { unfold postIconHandler.
    rewrite (bind_Ok _ _ _ _ _ Hv). rewrite (bind_Ok _ _ _ _ _ Hid).
    rewrite Hbody. unfold Exec_delete_icons, Exec_insert_icon. unfold_go.
    rewrite Hfaults. unfold_go. unfold invalidated. simpl.
    rewrite <- !app_assoc. reflexivity. }
  rewrite Hrun. simpl.
  split; [reflexivity |].
  split; [apply icons_of_replaced_same |].
  split; [intros other Hne; apply icons_of_replaced_other, Hne |].
  repeat split.
Qed.

Lemma X14_icon_replace_witness :
  let c := Scenario.ctx_alice in
  let w := Scenario.w0 in
  c_session c = Some (Scenario.session_of 1) /\
  now_Unix (env w) <= 1700003600 /\
  c_icon_body c = Some (Some (PostIconRequest.Build [x02])) /\
  faults w = [] /\
  fst (postIconHandler c w) = Ok (JSON_PostIconResponse StatusCreated 2) /\
  icons_of (db (snd (postIconHandler c w))) 1 = [IconRow.Build 2 1 [x02]].
Proof.
  intros c w.
  assert (Hnow : now_Unix (env w) <= 1700003600) by (vm_compute; discriminate).
  split; [reflexivity |]. split; [exact Hnow |]. do 2 (split; [reflexivity |]).
  destruct (X14_icon_replace c (Scenario.session_of 1) 1700003600 1
              (PostIconRequest.Build [x02]) w eq_refl eq_refl eq_refl Hnow eq_refl eq_refl)
    as (Hr & Hrows & _).
  split; [exact Hr | exact Hrows].
Defined.

(** X15: no request gives a user a second icon row: if every user has at
    most one row in [icons], this is so again after any request, and after
    any sequence of requests. *)
Theorem X15_one_icon_per_user qs w :
  one_icon_per_user (db w) -> one_icon_per_user (db (serve_all qs w)).
Proof.
  revert w. induction qs as [| q qs IH]; intros w Hone; [exact Hone |].
  simpl. apply IH.
  apply (serve_preserves (fun d _ => one_icon_per_user d)); try (intros; assumption).
  intros d _ userID image Hd other.
  destruct (decide (other = userID)) as [-> | Hne].
  - rewrite icons_of_replaced_same. simpl. lia.
  - rewrite icons_of_replaced_other by exact Hne. apply Hd.
Qed.

Lemma X15_one_icon_per_user_witness :
  let qs := [Scenario.post_icon; Scenario.get_icon; Scenario.post_icon] in
  one_icon_per_user (db Scenario.w0) /\
  one_icon_per_user (db (serve_all qs Scenario.w0)).
Proof.
  intros qs.
  assert (Hone : one_icon_per_user (db Scenario.w0)).
  { intros userID. unfold icons_of.
    change (icons (db Scenario.w0)) with [IconRow.Build 1 1 [x01]].
    cbn [List.filter IconRow.UserID]. destruct (1 =? userID); simpl; lia. }
  split; [exact Hone |].
  exact (X15_one_icon_per_user qs Scenario.w0 Hone).
Defined.

(** X16: a request that the session check rejects is answered with that
    rejection by each of the three protected handlers, and the world is as
    it was: the body is not decoded, no transaction is begun. *)
Theorem X16_rejected_session_stops_handler c w e :
  fst (verifyUserSession c w) = Fail e ->
  postIconHandler c w = (Fail e, w) /\
  getMeHandler c w = (Fail e, w) /\
  getUserHandler c w = (Fail e, w).
Proof.
  intros Hr. apply verifyUserSession_rejects in Hr.
  unfold postIconHandler, getMeHandler, getUserHandler.
  rewrite !(bind_Fail _ _ _ _ _ Hr). repeat split.
Qed.

Lemma X16_rejected_session_stops_handler_witness :
  let c := Tour.ctx_anonymous in
  let w := Scenario.w0 in
  fst (verifyUserSession c w) = Fail rejected_no_session /\
  postIconHandler c w = (Fail rejected_no_session, w) /\
  getMeHandler c w = (Fail rejected_no_session, w) /\
  getUserHandler c w = (Fail rejected_no_session, w).
Proof.
  intros c w. split; [reflexivity |].
  exact (X16_rejected_session_stops_handler c w rejected_no_session eq_refl).
Defined.

(** X17: an icon replace with a valid session whose body is the JSON value
    [null] leaves the request pointer nil: when no operation fails the
    handler begins the transaction, runs the DELETE and then panics on
    [req.Image] (line 167); nothing is committed, database and caches are as
    they were. *)
Theorem X17_icon_replace_null_body c sess expires userID w :
  c_session c = Some sess ->
  Values sess !! defaultSessionExpiresKey = Some (VInt64 expires) ->
  Values sess !! defaultUserIDKey = Some (VInt64 userID) ->
  now_Unix (env w) <= expires ->
  c_icon_body c = Some None ->
  faults w = [] ->
  let w' := snd (postIconHandler c w) in
  fst (postIconHandler c w) = Panic "invalid memory address or nil pointer dereference" /\
  db w' = db w /\ caches w' = caches w /\
  log w' = log w ++ [EvBegin; EvExec "DELETE FROM icons WHERE user_id = ?"].
Proof.
  intros Hs He Hu Hnow Hbody Hfaults.
  destruct (verifyUserSession_run c w sess expires userID Hs He Hu Hnow) as [Hv Hid].
  unfold postIconHandler.
  rewrite (bind_Ok _ _ _ _ _ Hv). rewrite (bind_Ok _ _ _ _ _ Hid).
  rewrite Hbody. unfold Exec_delete_icons. unfold_go.
  rewrite Hfaults. unfold_go. repeat split. rewrite <- !app_assoc. reflexivity.
Qed.

Lemma X17_icon_replace_null_body_witness :
  let c := Tour.ctx_null_body in
  let w := Scenario.w0 in
  c_icon_body c = Some None /\ now_Unix (env w) <= 1700003600 /\ faults w = [] /\
  fst (postIconHandler c w) = Panic "invalid memory address or nil pointer dereference" /\
  db (snd (postIconHandler c w)) = db w.
Proof.
  intros c w.
  assert (Hnow : now_Unix (env w) <= 1700003600) by (vm_compute; discriminate).
  split; [reflexivity |]. split; [exact Hnow |]. split; [reflexivity |].
  destruct (X17_icon_replace_null_body c (Scenario.session_of 1) 1700003600 1 w
              eq_refl eq_refl eq_refl Hnow eq_refl eq_refl) as (Hr & Hd & _).
  split; [exact Hr | exact Hd].
Defined.

(** ** After the session check *)

Lemma verified_session_userID c w :
  fst (verifyUserSession c w) = Ok tt ->
  exists userID, forall E w', session_userID (E := E) c w' = (Ok userID, w').
Proof.
  rewrite verifyUserSession_result. unfold session_userID.
  destruct (c_session c) as [sess |]; [| discriminate].
  destruct (Values sess !! defaultSessionExpiresKey); [| discriminate].
  destruct (as_int64 (Values sess !! defaultUserIDKey)) as [userID |]; [| discriminate].
  intros _. exists userID. reflexivity.
Qed.

(** X18: once [verifyUserSession] has let a request through, the unchecked
    reads of the session that follow it in [postIconHandler] and
    [getMeHandler] (lines 148-150 and 201-203) cannot panic: they return the
    int64 user ID of the session, in whatever world they run. *)
Theorem X18_session_reads_after_check c w :
  fst (verifyUserSession c w) = Ok tt ->
  exists sess userID,
    c_session c = Some sess /\
    Values sess !! defaultUserIDKey = Some (VInt64 userID) /\
    forall w', session_userID (E := HTTPError) c w' = (Ok userID, w').
Proof.
  rewrite verifyUserSession_result. unfold session_userID, as_int64.
  destruct (c_session c) as [sess |]; [| discriminate].
  destruct (Values sess !! defaultSessionExpiresKey); [| discriminate].
  destruct (Values sess !! defaultUserIDKey) as [[userID | |] |] eqn:Hu; try discriminate.
  intros _. exists sess, userID.
  split; [reflexivity |]. split; [exact Hu |]. intros w'. reflexivity.
Qed.

Lemma X18_session_reads_after_check_witness :
  fst (verifyUserSession Scenario.ctx_alice Scenario.w0) = Ok tt /\
  exists sess userID,
    c_session Scenario.ctx_alice = Some sess /\
    Values sess !! defaultUserIDKey = Some (VInt64 userID) /\
    forall w', session_userID (E := HTTPError) Scenario.ctx_alice w' = (Ok userID, w').
Proof.
  assert (H : fst (verifyUserSession Scenario.ctx_alice Scenario.w0) = Ok tt)
    by (vm_compute; reflexivity).
  split; [exact H |].
  exact (X18_session_reads_after_check Scenario.ctx_alice Scenario.w0 H).
Defined.

(** X19: a body that does not decode is answered with 400 and the world is
    as it was, no transaction begun: in [registerHandler] and
    [loginHandler] at once, in [postIconHandler] once the session check has
    passed. *)
Theorem X19_undecodable_body c w :
  let bad := NewHTTPError StatusBadRequest "failed to decode the request body as json" in
  (c_user_body c = None -> registerHandler c w = (Fail bad, w)) /\
  (c_login_body c = None -> loginHandler c w = (Fail bad, w)) /\
  (c_icon_body c = None -> fst (verifyUserSession c w) = Ok tt ->
   postIconHandler c w = (Fail bad, w)).
Proof.
  simpl. split; [| split].
  - intros H. unfold registerHandler. rewrite H. reflexivity.
  - intros H. unfold loginHandler. rewrite H. reflexivity.
  - intros H Hv. destruct (verified_session_userID c w Hv) as [userID Hid].
    assert (Hrun : verifyUserSession c w = (Ok tt, w)).
    { pose proof (verifyUserSession_world c w) as Hw.
      destruct (verifyUserSession c w) as [r w1]. simpl in *. congruence. }
    unfold postIconHandler.
    rewrite (bind_Ok _ _ _ _ _ Hrun). rewrite (bind_Ok _ _ _ _ _ (Hid HTTPError w)).
    rewrite H. reflexivity.
Qed.

Lemma X19_undecodable_body_witness :
  let c := MkContext (Some (Scenario.session_of 1)) "alice" "" None None None in
  let bad := NewHTTPError StatusBadRequest "failed to decode the request body as json" in
  registerHandler c Scenario.w0 = (Fail bad, Scenario.w0) /\
  loginHandler c Scenario.w0 = (Fail bad, Scenario.w0) /\
  postIconHandler c Scenario.w0 = (Fail bad, Scenario.w0).
Proof.
  intros c bad.
  assert (Hv : fst (verifyUserSession c Scenario.w0) = Ok tt) by (vm_compute; reflexivity).
  destruct (X19_undecodable_body c Scenario.w0) as (Hreg & Hlogin & Hicon).
  split; [exact (Hreg eq_refl) |]. split; [exact (Hlogin eq_refl) | exact (Hicon eq_refl Hv)].
Defined.

(** ** Registration *)

Lemma find_app_fresh {A} (p : A -> bool) (l : list A) x :
  List.find p l = None -> p x = true -> List.find p (l ++ [x]) = Some x.
Proof.
  induction l as [| a l IH]; simpl; intros Hnone Hx; [now rewrite Hx |].
  destruct (p a); [discriminate | auto].
Qed.

Lemma name_taken_find d name :
  name_taken d name = false ->
  List.find (fun u => String.eqb (UserModel.Name u) name) (users d) = None.
Proof. unfold name_taken. destruct (List.find _ (users d)); [discriminate | reflexivity]. Qed.

(** X20: a registration of a free name other than "pipe", when no operation
    fails and PowerDNS answers 204, for a new ID under which nothing is
    cached and neither a theme nor an icon is stored: the answer is 201 with
    the view of the new user (the next ID of [users], the fields of the
    request, the new theme row, the hash of the fallback asset); the user
    and the theme are committed and the user is found by name; and the view
    that the assembler cached inside the transaction is gone again. *)
Theorem X20_register_success c req fallback w :
  c_user_body c = Some req ->
  String.eqb (PostUserRequest.Name req) "pipe" = false ->
  name_taken (db w) (PostUserRequest.Name req) = false ->
  powerdns_status (env w) = StatusNoContent ->
  UserByIDCache (caches w) !! users_auto (db w) = None ->
  IconHashByUserIDCache (caches w) !! users_auto (db w) = None ->
  theme_row_of (db w) (users_auto (db w)) = None ->
  icon_row_of (db w) (users_auto (db w)) = None ->
  files (env w) !! fallbackImage = Some fallback ->
  faults w = [] ->
  let hashedPassword := bcrypt_hash (env w) (PostUserRequest.Password req) in
  let user :=
    User.Build (users_auto (db w)) (PostUserRequest.Name req)
      (PostUserRequest.DisplayName req) (PostUserRequest.Description req)
      (Theme.Build (themes_auto (db w)) (PostUserRequest.Theme_DarkMode req))
      (iconHash fallback) in
  let w' := snd (registerHandler c w) in
  fst (registerHandler c w) = Ok (JSON_User StatusCreated user) /\
  db w' = registered (db w) req hashedPassword /\
  List.find (fun u => String.eqb (UserModel.Name u) (PostUserRequest.Name req))
    (users (db w'))
  = Some (registered_user (db w) req hashedPassword) /\
  UserByIDCache (caches w') !! users_auto (db w) = None /\
  caches w' = invalidated (users_auto (db w)) (caches w).
Proof.
  unfold theme_row_of, icon_row_of.
  intros Hbody Hpipe Hfree Hdns Hmiss Hhash Htheme Hicon Hfile Hfaults.
  assert (Hfind := name_taken_find _ _ Hfree).
  assert (Htheme' :
            List.find (fun t => ThemeModel.UserID t =? users_auto (db w))
              (themes (db w) ++
               [ThemeModel.Build (themes_auto (db w)) (users_auto (db w))
                  (PostUserRequest.Theme_DarkMode req)])
            = Some (ThemeModel.Build (themes_auto (db w)) (users_auto (db w))
                      (PostUserRequest.Theme_DarkMode req))).
  { apply find_app_fresh; [exact Htheme | apply Z.eqb_refl]. }
  assert (Hrun : registerHandler c w
                 = (Ok (JSON_User StatusCreated
                          (User.Build (users_auto (db w)) (PostUserRequest.Name req)
                             (PostUserRequest.DisplayName req)
                             (PostUserRequest.Description req)
                             (Theme.Build (themes_auto (db w))
                                (PostUserRequest.Theme_DarkMode req))
                             (iconHash fallback))),
                    MkWorld
                      (registered (db w) req
                         (bcrypt_hash (env w) (PostUserRequest.Password req)))
                      (invalidated (users_auto (db w)) (caches w)) (env w) []
                      (log w ++
                       [EvBcrypt; EvBegin;
                        EvExec "INSERT INTO users (name, display_name, description, password) VALUES(:name, :display_name, :description, :password)";
                        EvLastInsertId;
                        EvExec "INSERT INTO themes (user_id, dark_mode) VALUES(:user_id, :dark_mode)";
                        EvHTTP "http://192.168.0.4:8081/api/v1/servers/localhost/zones/u.isucon.local.";
                        EvQuery "SELECT * FROM themes WHERE user_id = ?";
                        EvQuery "SELECT image FROM icons WHERE user_id = ?";
                        EvReadFile fallbackImage; EvCommit]))).
  { unfold registerHandler, GenerateFromPassword, NamedExec_insert_user,
      NamedExec_insert_theme, powerdns_patch, fillUserResponse.
    rewrite Hbody. unfold_go. rewrite Hpipe, Hfaults. unfold_go.
    cbn [UserModel.ID UserModel.Name UserModel.DisplayName UserModel.Description
         UserModel.HashedPassword].
    rewrite Hfree. unfold_go. rewrite Hdns.
    change (negb (StatusNoContent =? StatusNoContent)) with false. unfold_go.
    rewrite Hmiss. unfold_go.
    unfold theme_inserted, user_inserted.
    cbn [themes icons users themes_auto users_auto icons_auto
         ThemeModel.ID ThemeModel.UserID ThemeModel.DarkMode].
    rewrite Htheme'. unfold_go.
    cbn [ThemeModel.ID ThemeModel.DarkMode].
    rewrite Hhash. unfold_go. rewrite Hicon. unfold_go. rewrite Hfile. unfold_go.
    unfold invalidated, registered, registered_user, theme_inserted, user_inserted.
    cbn [UserModel.ID UserModel.Name UserModel.DisplayName UserModel.Description
         UserModel.HashedPassword ThemeModel.UserID ThemeModel.DarkMode
         UserByIDCache IconHashByUserIDCache IconHashByUsernameCache
         LivestreamByIDCache LivecommentByIDCache].
    rewrite delete_insert_eq. rewrite <- !app_assoc. reflexivity. }
  rewrite Hrun. cbn [fst snd db caches].
  split; [reflexivity |]. split; [reflexivity |].
  split.
  - unfold registered, theme_inserted, user_inserted. cbn [users].
    apply find_app_fresh; [exact Hfind |]. apply String.eqb_refl.
  - split; [| reflexivity]. unfold invalidated. cbn [UserByIDCache].
    apply lookup_delete_eq.
Qed.

Lemma X20_register_success_witness :
  let c := Scenario.ctx_register "dave" in
  let w := Scenario.w0 in
  let req := PostUserRequest.Build "dave" "Dave" "" "pw" false in
  let user := User.Build 3 "dave" "Dave" "" (Theme.Build 3 false)
                (iconHash [xff; xd8; xff]) in
  c_user_body c = Some req /\
  name_taken (db w) "dave" = false /\
  powerdns_status (env w) = StatusNoContent /\
  files (env w) !! fallbackImage = Some [xff; xd8; xff] /\
  faults w = [] /\
  fst (registerHandler c w) = Ok (JSON_User StatusCreated user) /\
  List.find (fun u => String.eqb (UserModel.Name u) "dave")
    (users (db (snd (registerHandler c w))))
  = Some (UserModel.Build 3 "dave" "Dave" "" "$2a$04$pw").
Proof.
  intros c w req user.
  do 5 (split; [reflexivity |]).
  destruct (X20_register_success c req [xff; xd8; xff] w
              eq_refl eq_refl eq_refl eq_refl eq_refl eq_refl eq_refl eq_refl eq_refl
              eq_refl) as (Hr & _ & Hfind & _).
  split; [exact Hr | exact Hfind].
Defined.

(** X21: a registration of a name that a user already has never commits,
    whatever else happens: the answer is an error and the database is as it
    was; when no operation fails the answer is the 500 of the failed INSERT,
    given after bcrypt, BEGIN and the INSERT, with the caches untouched. *)
Theorem X21_register_taken_name c req w :
  c_user_body c = Some req ->
  name_taken (db w) (PostUserRequest.Name req) = true ->
  let w' := snd (registerHandler c w) in
  (forall response, fst (registerHandler c w) <> Ok response) /\
  db w' = db w /\
  (String.eqb (PostUserRequest.Name req) "pipe" = false -> faults w = [] ->
   (exists err, fst (registerHandler c w) = Fail (http500 "failed to insert user: " err)) /\
   caches w' = caches w /\
   log w' = log w ++
     [EvBcrypt; EvBegin;
      EvExec "INSERT INTO users (name, display_name, description, password) VALUES(:name, :display_name, :description, :password)"]).
Proof.
  intros Hbody Htaken. simpl.
  destruct (registerHandler c w) as [r w'] eqn:Hrun. simpl.
  assert (Hno : forall response, r <> Ok response).
  { intros response ->.
    pose proof (hoare_Ok _ _ _ _ _ _ _ (registerHandler_spec c (db w) (caches w))
                  (conj eq_refl eq_refl) Hrun)
      as (req' & pw & user & c1 & Hbody' & Hfree & _).
    congruence. }
  split; [exact Hno |]. split.
  - exact (proj1 (hoare_not_Ok _ _ _ _ _ _ _ (registerHandler_spec c (db w) (caches w))
                    (conj eq_refl eq_refl) Hrun Hno)).
  - intros Hpipe Hfaults. revert Hrun.
    unfold registerHandler, GenerateFromPassword, NamedExec_insert_user.
    rewrite Hbody. unfold_go. rewrite Hpipe, Hfaults. unfold_go.
    cbn [UserModel.Name]. rewrite Htaken. unfold_go.
    intros [= <- <-]. simpl. split; [eauto |]. split; [reflexivity |].
    rewrite <- !app_assoc. reflexivity.
Qed.

Lemma X21_register_taken_name_witness :
  let c := Scenario.ctx_register "alice" in
  let w := Scenario.w0 in
  let req := PostUserRequest.Build "alice" "Dave" "" "pw" false in
  c_user_body c = Some req /\
  name_taken (db w) "alice" = true /\
  (forall response, fst (registerHandler c w) <> Ok response) /\
  db (snd (registerHandler c w)) = db w.
Proof.
  intros c w req.
  do 2 (split; [reflexivity |]).
  destruct (X21_register_taken_name c req w eq_refl eq_refl) as (Hno & Hd & _).
  split; [exact Hno | exact Hd].
Defined.

(** X22: when PowerDNS does not answer 204, no registration commits,
    whatever the request and whatever else fails: the answer is an error,
    the inserted user and theme are rolled back, and no cache is touched
    (the assembler is not reached). *)
Theorem X22_register_needs_dns c w :
  powerdns_status (env w) <> StatusNoContent ->
  let w' := snd (registerHandler c w) in
  (forall response, fst (registerHandler c w) <> Ok response) /\
  db w' = db w /\ caches w' = caches w.
Proof.
  intros Hdns. apply Z.eqb_neq in Hdns. simpl.
  unfold registerHandler, GenerateFromPassword, NamedExec_insert_user,
    NamedExec_insert_theme, powerdns_patch.
  destruct (c_user_body c) as [req |]; [| repeat split; discriminate].
  unfold_go.
  destruct (String.eqb (PostUserRequest.Name req) "pipe"); [repeat split; discriminate |].
  repeat (unfold_go; cbn [UserModel.Name]; rewrite ?Hdns; cbn [negb];
          match goal with
          | |- context [match faults ?w with _ => _ end] =>
              destruct (faults w) as [| [?|] ?]
          | |- context [match ?l with [] => _ | _ :: _ => _ end] =>
              is_var l; destruct l as [| [?|] ?]
          | |- context [if name_taken ?d ?n then _ else _] =>
              destruct (name_taken d n)
          end).
  all: unfold_go; rewrite ?Hdns; cbn [negb]; unfold_go.
  all: repeat split; discriminate.
Qed.

Lemma X22_register_needs_dns_witness :
  let c := Scenario.ctx_register "dave" in
  let w := Tour.w_dns_down in
  powerdns_status (env w) <> StatusNoContent /\
  fst (registerHandler c w)
  = Fail (NewHTTPError StatusInternalServerError
            "failed to request to powerdns: status code is not 204") /\
  (forall response, fst (registerHandler c w) <> Ok response) /\
  db (snd (registerHandler c w)) = db w /\ caches (snd (registerHandler c w)) = caches w.
Proof.
  intros c w.
  assert (Hdns : powerdns_status (env w) <> StatusNoContent) by discriminate.
  split; [exact Hdns |]. split; [vm_compute; reflexivity |].
  exact (X22_register_needs_dns c w Hdns).
Defined.

(** ** Login *)

(** X23: whatever a login returns, database and caches are as they were:
    the handler reads one user row and writes nothing. *)
Theorem X23_login_writes_nothing c w :
  let w' := snd (loginHandler c w) in
  db w' = db w /\ caches w' = caches w.
Proof.
  simpl.
  refine (hoare_final _ _ _ _ (fun d c' => d = db w /\ c' = caches w) w
            (loginHandler_spec c (db w) (caches w)) (conj eq_refl eq_refl) _ _).
  - intros ? d c' H. exact H.
  - intros d c' H. exact H.
Qed.

(** X24: when no operation fails, a login with a name that no user has and
    a login with the name of a user and a password that bcrypt does not
    match get the same answer, 401 "invalid username or password". *)
Theorem X24_login_failures_alike c req w :
  c_login_body c = Some req ->
  faults w = [] ->
  let unauthorized := NewHTTPError StatusUnauthorized "invalid username or password" in
  (List.find (fun u => String.eqb (UserModel.Name u) (LoginRequest.Username req))
     (users (db w)) = None ->
   fst (loginHandler c w) = Fail unauthorized) /\
  (forall userModel,
     List.find (fun u => String.eqb (UserModel.Name u) (LoginRequest.Username req))
       (users (db w)) = Some userModel ->
     bcrypt_matches (env w) (UserModel.HashedPassword userModel)
       (LoginRequest.Password req) = false ->
     fst (loginHandler c w) = Fail unauthorized).
Proof.
  intros Hbody Hfaults. simpl. split.
  - intros Hnone. unfold loginHandler. rewrite Hbody. unfold_go.
    rewrite Hfaults. unfold_go. rewrite Hnone. reflexivity.
  - intros userModel Hsome Hwrong. unfold loginHandler. rewrite Hbody. unfold_go.
    rewrite Hfaults. unfold_go. rewrite Hsome. unfold_go. rewrite Hwrong. reflexivity.
Qed.

Lemma X24_login_failures_alike_witness :
  let w := Scenario.w0 in
  let unauthorized := NewHTTPError StatusUnauthorized "invalid username or password" in
  fst (loginHandler (Tour.ctx_login "ghost" "secret") w) = Fail unauthorized /\
  fst (loginHandler (Tour.ctx_login "alice" "guess") w) = Fail unauthorized.
Proof.
  intros w unauthorized. split.
  - exact (proj1 (X24_login_failures_alike (Tour.ctx_login "ghost" "secret")
                    (LoginRequest.Build "ghost" "secret") w eq_refl eq_refl) eq_refl).
  - exact (proj2 (X24_login_failures_alike (Tour.ctx_login "alice" "guess")
                    (LoginRequest.Build "alice" "guess") w eq_refl eq_refl)
             Scenario.alice eq_refl eq_refl).
Defined.

(** [loginHandler] is [loginHandler_saved] without the session. *)
Lemma loginHandler_saved_agrees sessionID c w :
  loginHandler c w
  = (match fst (loginHandler_saved sessionID c w) with
     | Ok (response, _) => Ok response
     | Fail e => Fail e
     | Panic msg => Panic msg
     end, snd (loginHandler_saved sessionID c w)).
Proof.
  unfold loginHandler, loginHandler_saved.
  destruct (c_login_body c) as [req |]; [| reflexivity].
  repeat (unfold_go;
          match goal with
          | |- context [match faults ?w with _ => _ end] =>
              destruct (faults w) as [| [?|] ?]
          | |- context [match ?l with [] => _ | _ :: _ => _ end] =>
              is_var l; destruct l as [| [?|] ?]
          | |- context [match List.find ?p ?l with _ => _ end] =>
              destruct (List.find p l)
          | |- context [if negb ?b then _ else _] => destruct b; cbn [negb]
          | |- context [match c_session ?c with _ => _ end] => destruct (c_session c)
          end); unfold_go; reflexivity.
Qed.

(** X25: the session that a successful login saves passes the session check
    of any later request exactly until one hour after the login, and the
    protected handlers read from it the ID of the user whose name and
    password were given. *)
Theorem X25_login_then_session_check sessionID c w response saved w' :
  loginHandler_saved sessionID c w = (Ok (response, saved), w') ->
  response = NoContent StatusOK /\
  exists req userModel,
    c_login_body c = Some req /\
    List.find (fun u => String.eqb (UserModel.Name u) (LoginRequest.Username req))
      (users (db w)) = Some userModel /\
    bcrypt_matches (env w) (UserModel.HashedPassword userModel)
      (LoginRequest.Password req) = true /\
    forall c' w'',
      c_session c' = Some saved ->
      session_userID (E := HTTPError) c' w'' = (Ok (UserModel.ID userModel), w'') /\
      (fst (verifyUserSession c' w'') = Ok tt <->
       now_Unix (env w'') <= now_Unix (env w) + 3600).
Proof.
  unfold loginHandler_saved.
  destruct (c_login_body c) as [req |]; [| discriminate].
  assert (Hcheck : forall sess userModel c' w'',
            c_session c' = Some (saved_session sess (now_Unix (env w)) sessionID userModel) ->
            session_userID (E := HTTPError) c' w'' = (Ok (UserModel.ID userModel), w'') /\
            (fst (verifyUserSession c' w'') = Ok tt <->
             now_Unix (env w'') <= now_Unix (env w) + 3600)).
  { intros sess userModel c' w'' Hs.
    assert (He : Values (saved_session sess (now_Unix (env w)) sessionID userModel)
                   !! defaultSessionExpiresKey = Some (VInt64 (now_Unix (env w) + 3600))).
    { unfold saved_session. simpl. apply lookup_insert_eq. }
    assert (Hu : Values (saved_session sess (now_Unix (env w)) sessionID userModel)
                   !! defaultUserIDKey = Some (VInt64 (UserModel.ID userModel))).
    { unfold saved_session. simpl.
      rewrite lookup_insert_ne by discriminate.
      rewrite lookup_insert_ne by discriminate.
      apply lookup_insert_eq. }
    split.
    - unfold session_userID. rewrite Hs, Hu. reflexivity.
    - rewrite verifyUserSession_result, Hs, He, Hu. simpl.
      destruct (now_Unix (env w'') >? now_Unix (env w) + 3600) eqn:Hgt;
        rewrite Z.gtb_ltb in Hgt.
      + apply Z.ltb_lt in Hgt. split; [discriminate | lia].
      + apply Z.ltb_ge in Hgt. split; [intros _; exact Hgt | reflexivity]. }
  repeat (unfold_go;
          match goal with
          | |- context [match faults ?w with _ => _ end] =>
              destruct (faults w) as [| [?|] ?]
          | |- context [match ?l with [] => _ | _ :: _ => _ end] =>
              is_var l; destruct l as [| [?|] ?]
          | |- context [match List.find ?p ?l with _ => _ end] =>
              let F := fresh "Hfind" in destruct (List.find p l) eqn:F
          | |- context [if negb ?b then _ else _] =>
              let F := fresh "Hmatch" in destruct b eqn:F; cbn [negb]
          | |- context [match c_session ?c with _ => _ end] => destruct (c_session c)
          end); unfold_go; try discriminate.
  all: intros [= <- <- <-]; split; [reflexivity |].
  all: match goal with
       | Hf : List.find _ _ = Some ?u, Hm : bcrypt_matches _ _ _ = true |- _ =>
           exists req, u; split; [reflexivity |]; split; [exact Hf |];
           split; [exact Hm |]; apply Hcheck
       end.
Qed.

Lemma X25_login_then_session_check_witness :
  let c := Tour.ctx_login "alice" "secret" in
  let w := Scenario.w0 in
  let saved := saved_session (MkSession ∅) 1700000000 "f3a1" Scenario.alice in
  let w' := snd (loginHandler_saved "f3a1" c w) in
  loginHandler_saved "f3a1" c w = (Ok (NoContent StatusOK, saved), w') /\
  fst (verifyUserSession (MkContext (Some saved) "" "" None None None)
         (set_env (MkEnv 1700003600 ∅ (fun s => s) (fun _ _ => false) 0) w)) = Ok tt /\
  fst (verifyUserSession (MkContext (Some saved) "" "" None None None)
         (set_env (MkEnv 1700003601 ∅ (fun s => s) (fun _ _ => false) 0) w)) <> Ok tt.
Proof.
  intros c w saved w'.
  assert (Hrun : loginHandler_saved "f3a1" c w = (Ok (NoContent StatusOK, saved), w')).
  { unfold w'. destruct (loginHandler_saved "f3a1" c w) as [r w1] eqn:Hr.
    simpl. f_equal. change r with (fst (r, w1)). rewrite <- Hr. vm_compute. reflexivity. }
  split; [exact Hrun |].
  destruct (X25_login_then_session_check "f3a1" c w _ saved w' Hrun)
    as (_ & req & userModel & _ & _ & _ & Hcheck).
  split.
  - apply (Hcheck (MkContext (Some saved) "" "" None None None)); [reflexivity |].
    vm_compute. discriminate.
  - intros Hok.
    apply (Hcheck (MkContext (Some saved) "" "" None None None)) in Hok; [| reflexivity].
    vm_compute in Hok. apply Hok. reflexivity.
Defined.

(** ** The profile handlers *)

(** X26: when no operation fails, [getMeHandler] with a valid session whose
    user ID is in no row of [users], and [getUserHandler] past the session
    check with a name that no user has, answer 404 and leave database and
    caches as they were. *)
Theorem X26_profile_not_found c sess expires userID w :
  c_session c = Some sess ->
  Values sess !! defaultSessionExpiresKey = Some (VInt64 expires) ->
  Values sess !! defaultUserIDKey = Some (VInt64 userID) ->
  now_Unix (env w) <= expires ->
  faults w = [] ->
  (List.find (fun u => UserModel.ID u =? userID) (users (db w)) = None ->
   fst (getMeHandler c w)
   = Fail (NewHTTPError StatusNotFound "not found user that has the userid in session") /\
   db (snd (getMeHandler c w)) = db w /\ caches (snd (getMeHandler c w)) = caches w) /\
  (List.find (fun u => String.eqb (UserModel.Name u) (c_param_username c)) (users (db w))
   = None ->
   fst (getUserHandler c w)
   = Fail (NewHTTPError StatusNotFound "not found user that has the given username") /\
   db (snd (getUserHandler c w)) = db w /\ caches (snd (getUserHandler c w)) = caches w).
Proof.
  intros Hs He Hu Hnow Hfaults.
  destruct (verifyUserSession_run c w sess expires userID Hs He Hu Hnow) as [Hv Hid].
  split; intros Hnone.
  - unfold getMeHandler.
    rewrite (bind_Ok _ _ _ _ _ Hv). rewrite (bind_Ok _ _ _ _ _ Hid).
    unfold_go. rewrite Hfaults. unfold_go. rewrite Hnone. repeat split.
  - unfold getUserHandler.
    rewrite (bind_Ok _ _ _ _ _ Hv).
    unfold_go. rewrite Hfaults. unfold_go. rewrite Hnone. repeat split.
Qed.

Lemma X26_profile_not_found_witness :
  let c := Tour.ctx_ghost in
  let w := Scenario.w0 in
  c_session c = Some (Scenario.session_of 9) /\
  now_Unix (env w) <= 1700003600 /\ faults w = [] /\
  fst (getMeHandler c w)
  = Fail (NewHTTPError StatusNotFound "not found user that has the userid in session") /\
  fst (getUserHandler c w)
  = Fail (NewHTTPError StatusNotFound "not found user that has the given username").
Proof.
  intros c w.
  assert (Hnow : now_Unix (env w) <= 1700003600) by (vm_compute; discriminate).
  split; [reflexivity |]. split; [exact Hnow |]. split; [reflexivity |].
  destruct (X26_profile_not_found c (Scenario.session_of 9) 1700003600 9 w
              eq_refl eq_refl eq_refl Hnow eq_refl) as [Hme Huser].
  split; [exact (proj1 (Hme eq_refl)) | exact (proj1 (Huser eq_refl))].
Defined.

Lemma hoare_assemble_and_answer c0 d0 userModel :
  hoare (at_state d0 c0)
    (user <- orElse (fillUserResponse d0 userModel) (http500 "failed to fill user: ") ;;
     orElse (Commit d0) (http500 "failed to commit: ") ;;
     ret (JSON_User StatusOK user))
    (fun response d c =>
       exists user, fill_ok d0 userModel c0 user c /\ response = JSON_User StatusOK user)
    (fun _ _ => True).
Proof.
  eapply hoare_bind.
  { apply hoare_orElse. eapply hoare_weaken; [apply fillUserResponse_spec | | |].
    - intros d c' H. exact H.
    - intros user d c' H. exact H.
    - auto. }
  intros user. apply hoare_at. intros c1 Hfill.
  eapply hoare_bind; [apply hoare_orElse, hoare_Commit'; auto |]. intros [].
  apply hoare_ret. intros d c' [-> ->]. eauto.
Qed.

Lemma getMeHandler_answer c d0 c0 :
  hoare (at_state d0 c0) (getMeHandler c)
    (fun response d c' =>
       exists sess userID userModel user,
         c_session c = Some sess /\
         Values sess !! defaultUserIDKey = Some (VInt64 userID) /\
         List.find (fun u => UserModel.ID u =? userID) (users d0) = Some userModel /\
         fill_ok d0 userModel c0 user c' /\ response = JSON_User StatusOK user)
    (fun _ _ => True).
Proof.
  unfold getMeHandler.
  eapply hoare_bind; [apply hoare_verifyUserSession; auto |]. intros [].
  hstep @hoare_session_userID. intros userID (sess & Hsess & Huid).
  hstep hoare_BeginTxx'. intros tx ->.
  hstep @hoare_attempt_Get_user_by_id. intros [err | userModel] Hfind.
  { destruct err; apply hoare_fail; auto. }
  eapply hoare_weaken; [apply (hoare_assemble_and_answer c0 d0 userModel) | | |]; auto.
  intros response d c' (user & Hfill & ->).
  specialize (Hfind userModel eq_refl).
  exists sess, userID, userModel, user. auto.
Qed.

Lemma getUserHandler_answer c d0 c0 :
  hoare (at_state d0 c0) (getUserHandler c)
    (fun response d c' =>
       exists userModel user,
         List.find (fun u => String.eqb (UserModel.Name u) (c_param_username c))
           (users d0) = Some userModel /\
         fill_ok d0 userModel c0 user c' /\ response = JSON_User StatusOK user)
    (fun _ _ => True).
Proof.
  unfold getUserHandler.
  eapply hoare_bind; [apply hoare_verifyUserSession; auto |]. intros [].
  hstep hoare_BeginTxx'. intros tx ->.
  hstep @hoare_attempt_Get_user_by_name. intros [err | userModel] Hfind.
  { destruct err; apply hoare_fail; auto. }
  eapply hoare_weaken; [apply (hoare_assemble_and_answer c0 d0 userModel) | | |]; auto.
  intros response d c' (user & Hfill & ->).
  specialize (Hfind userModel eq_refl).
  exists userModel, user. auto.
Qed.

(** X27: when every cached view sits under its own ID (as in every state the
    service reaches), a [getMeHandler] that answers returns, with status
    200, a view that carries the user ID of the session, and that view is in
    [UserByIDCache] under that ID afterwards. *)
Theorem X27_getMe_answers_session_user c w response w' :
  coherent_keys (caches w) ->
  getMeHandler c w = (Ok response, w') ->
  exists sess userID user,
    c_session c = Some sess /\
    Values sess !! defaultUserIDKey = Some (VInt64 userID) /\
    response = JSON_User StatusOK user /\
    User.ID user = userID /\
    UserByIDCache (caches w') !! userID = Some user.
Proof.
  intros Hc Hrun.
  pose proof (hoare_Ok _ _ _ _ _ _ _ (getMeHandler_answer c (db w) (caches w))
                (conj eq_refl eq_refl) Hrun)
    as (sess & userID & userModel & user & Hs & Hu & Hfind & Hfill & ->).
  apply find_some in Hfind as [_ Hid]. apply Z.eqb_eq in Hid.
  exists sess, userID, user. repeat split; try assumption.
  - rewrite <- Hid. exact (fill_ok_ID _ _ _ _ _ Hc Hfill).
  - rewrite <- Hid. exact (fill_ok_lookup _ _ _ _ _ Hfill).
Qed.

Lemma X27_getMe_answers_session_user_witness :
  let c := Scenario.ctx_alice in
  let w := Scenario.after_bob in
  let user := User.Build 1 "alice" "Alice" "" (Theme.Build 1 true) (iconHash [x01]) in
  let w' := snd (getMeHandler c w) in
  coherent_keys (caches w) /\
  getMeHandler c w = (Ok (JSON_User StatusOK user), w') /\
  User.ID user = 1 /\ UserByIDCache (caches w') !! 1 = Some user.
Proof.
  intros c w user w'.
  assert (Hc : coherent_keys (caches w)).
  { unfold w, Scenario.after_bob.
    pose proof (fillUserResponse_spec Scenario.db0 Scenario.bob
                  (db Scenario.w0) (caches Scenario.w0) Scenario.w0
                  (conj eq_refl eq_refl)) as Hspec.
    destruct (fillUserResponse Scenario.db0 Scenario.bob Scenario.w0)
      as [[v | e | msg] w1]; simpl in *.
    - destruct Hspec as [_ Hok]. eapply coherent_keys_fill; [| exact Hok].
      intros k x. simpl. rewrite lookup_empty. discriminate.
    - destruct Hspec as [_ ->]. intros k x. simpl. rewrite lookup_empty. discriminate.
    - destruct Hspec as [_ ->]. intros k x. simpl. rewrite lookup_empty. discriminate. }
  assert (Hrun : getMeHandler c w = (Ok (JSON_User StatusOK user), w')).
  { unfold w'. destruct (getMeHandler c w) as [r w1] eqn:Hr.
    simpl. f_equal. change r with (fst (r, w1)). rewrite <- Hr. vm_compute. reflexivity. }
  split; [exact Hc |]. split; [exact Hrun |].
  destruct (X27_getMe_answers_session_user c w _ w' Hc Hrun)
    as (sess & userID & user' & Hs & Hu & Hresp & Hid & Hcached).
  injection Hresp as <-.
  assert (userID = 1) as ->.
  { injection Hs as <-. vm_compute in Hu. congruence. }
  split; [exact Hid | exact Hcached].
Defined.

(** X28: when every cached view sits under its own ID, a [getUserHandler]
    that answers returns, with status 200, a view that carries the ID of the
    user of [users] who has the requested name, and that view is in
    [UserByIDCache] under that ID afterwards. *)
Theorem X28_getUser_answers_named_user c w response w' :
  coherent_keys (caches w) ->
  getUserHandler c w = (Ok response, w') ->
  exists userModel user,
    In userModel (users (db w)) /\
    UserModel.Name userModel = c_param_username c /\
    response = JSON_User StatusOK user /\
    User.ID user = UserModel.ID userModel /\
    UserByIDCache (caches w') !! UserModel.ID userModel = Some user.
Proof.
  intros Hc Hrun.
  pose proof (hoare_Ok _ _ _ _ _ _ _ (getUserHandler_answer c (db w) (caches w))
                (conj eq_refl eq_refl) Hrun)
    as (userModel & user & Hfind & Hfill & ->).
  apply find_by_name_In in Hfind as [Hin Hname].
  exists userModel, user. repeat split; try assumption.
  - exact (fill_ok_ID _ _ _ _ _ Hc Hfill).
  - exact (fill_ok_lookup _ _ _ _ _ Hfill).
Qed.

Lemma X28_getUser_answers_named_user_witness :
  let c := MkContext (Some (Scenario.session_of 1)) "bob" "" None None None in
  let w := Scenario.w0 in
  let user := User.Build 2 "bob" "Bob" "" (Theme.Build 2 false)
                (iconHash [xff; xd8; xff]) in
  let w' := snd (getUserHandler c w) in
  coherent_keys (caches w) /\
  getUserHandler c w = (Ok (JSON_User StatusOK user), w') /\
  exists userModel user,
    In userModel (users (db w)) /\
    UserModel.Name userModel = c_param_username c /\
    JSON_User StatusOK user = JSON_User StatusOK user /\
    User.ID user = UserModel.ID userModel /\
    UserByIDCache (caches w') !! UserModel.ID userModel = Some user.
Proof.
  intros c w user w'.
  assert (Hc : coherent_keys (caches w)).
  { intros k x. simpl. rewrite lookup_empty. discriminate. }
  assert (Hrun : getUserHandler c w = (Ok (JSON_User StatusOK user), w')).
  { unfold w'. destruct (getUserHandler c w) as [r w1] eqn:Hr.
    simpl. f_equal. change r with (fst (r, w1)). rewrite <- Hr. vm_compute. reflexivity. }
  split; [exact Hc |]. split; [exact Hrun |].
  destruct (X28_getUser_answers_named_user c w _ w' Hc Hrun)
    as (userModel & user' & Hin & Hname & Hresp & Hid & Hcached).
  exists userModel, user'. repeat split; assumption.
Defined.

(** ** The printed digest *)

Lemma length_be_bytes n x : length (Sha256.be_bytes n x) = n.
Proof. induction n as [| n IH]; simpl; [reflexivity | now rewrite IH]. Qed.

Lemma be_bytes_range n x : Forall (fun b => 0 <= b < 256) (Sha256.be_bytes n x).
Proof.
  induction n as [| n IH]; simpl; [apply Forall_nil; trivial |].
  apply Forall_cons. split; [| exact IH].
  change 0xff with (Z.ones 8). rewrite Z.land_ones by lia.
  apply Z.mod_pos_bound. lia.
Qed.

Lemma length_blocks fuel h ws :
  length h = 8%nat -> length (Sha256.blocks fuel h ws) = 8%nat.
Proof.
  revert h ws. induction fuel as [| fuel IH]; intros h ws Hh; simpl; [exact Hh |].
  destruct ws; [exact Hh |]. apply IH. reflexivity.
Qed.

Lemma length_Sum256 data : length (Sha256.Sum256 data) = 32%nat.
Proof.
  unfold Sha256.Sum256.
  set (ws := Sha256.words _ _).
  pose proof (length_blocks (length ws) Sha256.H0 ws eq_refl) as Hlen.
  destruct (Sha256.blocks (length ws) Sha256.H0 ws) as [| a [| b [| c [| d [| e [| f [| g [| h [| ? ?]]]]]]]]];
    try discriminate Hlen.
  reflexivity.
Qed.

Lemma Sum256_range data : Forall (fun b => 0 <= b < 256) (Sha256.Sum256 data).
Proof.
  unfold Sha256.Sum256.
  induction (Sha256.blocks _ _ _) as [| x l IH]; cbn [flat_map];
    [apply Forall_nil; trivial |].
  apply Forall_app. split; [apply (be_bytes_range 4) | exact IH].
Qed.

Lemma hexdigit_lower d : 0 <= d < 16 -> is_lower_hex (Sha256.hexdigit d) = true.
Proof.
  intros Hd.
  assert (Hall : forallb (fun d => is_lower_hex (Sha256.hexdigit d)) (seqZ 0 16) = true)
    by (vm_compute; reflexivity).
  rewrite forallb_forall in Hall. apply Hall.
  apply list_elem_of_In, elem_of_seqZ. lia.
Qed.

Lemma Sprintf_x_format bs :
  Forall (fun b => 0 <= b < 256) bs ->
  String.length (Sha256.Sprintf_x bs) = (2 * length bs)%nat /\
  Forall (fun a => is_lower_hex a = true) (list_ascii_of_string (Sha256.Sprintf_x bs)).
Proof.
  induction 1 as [| b bs Hb _ [IHlen IHhex]]; simpl; [split; [reflexivity | apply Forall_nil; trivial] |].
  split; [rewrite IHlen; lia |].
  apply Forall_cons. split.
  - apply hexdigit_lower. split; [apply Z.div_pos; lia | apply Z.div_lt_upper_bound; lia].
  - apply Forall_cons. split; [| exact IHhex].
    apply hexdigit_lower. apply Z.mod_pos_bound. lia.
Qed.

(** X29: the hash that the icon handler and the assembler store and return
    is, for every image, a string of 64 characters, each one of
    [0123456789abcdef]. *)
Theorem X29_iconHash_format image :
  String.length (iconHash image) = 64%nat /\
  Forall (fun a => is_lower_hex a = true) (list_ascii_of_string (iconHash image)).
Proof.
  unfold iconHash.
  destruct (Sprintf_x_format (Sha256.Sum256 image) (Sum256_range image)) as [Hlen Hhex].
  split; [| exact Hhex]. rewrite Hlen, length_Sum256. reflexivity.
Qed.

(** ** Fetch, then assemble *)

(** X30: an icon fetch that reads the stored icon overwrites whatever hash
    [IconHashByUserIDCache] held for the user, so that the next assembly
    that misses [UserByIDCache] returns the hash of the icon that is in the
    store: after an icon replace, such a fetch makes the assembler fresh
    again. *)
Theorem X30_fetch_then_assemble c user row tx userModel themeModel w :
  fst (ifNoneMatch_hit c w) = Ok false ->
  List.find (fun u => String.eqb (UserModel.Name u) (c_param_username c)) (users (db w))
  = Some user ->
  icon_row_of (db w) (UserModel.ID user) = Some row ->
  faults w = [] ->
  UserModel.ID userModel = UserModel.ID user ->
  UserByIDCache (caches w) !! UserModel.ID user = None ->
  theme_row_of tx (UserModel.ID user) = Some themeModel ->
  let w' := snd (getIconHandler c w) in
  fst (fillUserResponse tx userModel w')
  = Ok (User.Build (UserModel.ID userModel) (UserModel.Name userModel)
          (UserModel.DisplayName userModel) (UserModel.Description userModel)
          (Theme.Build (ThemeModel.ID themeModel) (ThemeModel.DarkMode themeModel))
          (iconHash (IconRow.Image row))).
Proof.
  unfold icon_row_of. intros Hmiss Huser Hrow Hfaults Hid Hview Htheme.
  apply ifNoneMatch_miss_run in Hmiss.
  assert (Hrun : getIconHandler c w
                 = (Ok (Blob StatusOK "image/jpeg" (IconRow.Image row)),
                    MkWorld (db w)
                      (icon_published (caches w) (c_param_username c) (UserModel.ID user)
                         (iconHash (IconRow.Image row)))
                      (env w) []
                      (log w ++ [EvBegin; EvQuery "SELECT * FROM users WHERE name = ?";
                                 EvQuery "SELECT image FROM icons WHERE user_id = ?"]))).
  { unfold getIconHandler, getIconHandler_load. cbv zeta.
    rewrite (bind_bind_Ok _ _ _ _ _ _ Hmiss).
    unfold_go. rewrite Hfaults. unfold_go. rewrite Huser. unfold_go. rewrite Hrow.
    unfold_go. unfold icon_published. rewrite <- !app_assoc. reflexivity. }
  rewrite Hrun. cbn [snd].
  apply fillUserResponse_reuses_cached_hash.
  - rewrite Hid. exact Hview.
  - rewrite Hid. exact Htheme.
  - rewrite Hid. unfold icon_published. simpl. apply lookup_insert_eq.
  - reflexivity.
Qed.

Lemma X30_fetch_then_assemble_witness :
  let c := Tour.ctx_icon "alice" "" in
  let w := Scenario.after_replace in
  IconHashByUserIDCache (caches w) !! 1 = Some (iconHash [x01]) /\
  icon_row_of (db w) 1 = Some (IconRow.Build 2 1 [x02]) /\
  faults w = [] /\
  fst (fillUserResponse (db w) Scenario.alice (snd (getIconHandler c w)))
  = Ok (User.Build 1 "alice" "Alice" "" (Theme.Build 1 true) (iconHash [x02])).
Proof.
  intros c w.
  assert (Hstale : IconHashByUserIDCache (caches w) !! 1 = Some (iconHash [x01]))
    by (vm_compute; reflexivity).
  assert (Hrow : icon_row_of (db w) (UserModel.ID Scenario.alice)
                 = Some (IconRow.Build 2 1 [x02])) by (vm_compute; reflexivity).
  assert (Hfaults : faults w = []) by (vm_compute; reflexivity).
  assert (Hhit : fst (ifNoneMatch_hit c w) = Ok false) by reflexivity.
  assert (Huser : List.find (fun u => String.eqb (UserModel.Name u) (c_param_username c))
                    (users (db w)) = Some Scenario.alice) by (vm_compute; reflexivity).
  assert (Hview : UserByIDCache (caches w) !! UserModel.ID Scenario.alice = None)
    by (vm_compute; reflexivity).
  assert (Htheme : theme_row_of (db w) (UserModel.ID Scenario.alice)
                   = Some (ThemeModel.Build 1 1 true)) by (vm_compute; reflexivity).
  split; [exact Hstale |]. split; [exact Hrow |]. split; [exact Hfaults |].
  exact (X30_fetch_then_assemble c Scenario.alice (IconRow.Build 2 1 [x02]) (db w)
           Scenario.alice (ThemeModel.Build 1 1 true) w
           Hhit Huser Hrow Hfaults eq_refl Hview Htheme).
Defined.
